(** * Video streaming backend: lifecycle, range delivery and progress tracking

    A shallow embedding of the service layer ([app/services/video_service.py]),
    the ORM models ([app/models/video.py]), the background tasks
    ([celery_worker/tasks.py], [app/workers/video_worker.py]) and the
    streaming endpoint ([app/api/videos.py]).

    Conventions of the embedding:
    - Python [str] values are [string]s (HTTP header values are decoded as
      Latin-1, one character per byte), [bytes] are lists of [byte], [int]s
      are [Z] and [float]s are binary64 primitive floats.
    - The SQLAlchemy session is the working copy [World.db]; every
      [db.commit()] appends a snapshot of it to [World.commits].
    - Exceptions are values of [Py.exn]; an operation returns a [Py.result]
      together with the world it leaves behind.
    - The object store is a finite map from object names to contents; the
      OpenCV probes and the outcome of a store write are oracles of [Env].
    - ORM bookkeeping columns ([created_at], [updated_at]) and the
      descriptive columns no modelled operation reads or writes (tags,
      visibility flags, download counter) are left out of the records. *)

From Stdlib Require Import ZArith String Ascii List PrimFloat DecimalString DecimalPos.
From Stdlib.Strings Require Import Byte.
From stdpp Require Import gmap strings list.

Open Scope Z_scope.

(** ** Python builtins used by the code *)

Module Py.

Definition bytes := list byte.

Inductive exn : Type :=
| ValueError (msg : string)
| IndexError (msg : string)
| Exception (msg : string)
| HTTPException (status_code : Z) (detail : string).

Inductive result (A : Type) : Type :=
| Ok (a : A)
| Raise (e : exn).
Arguments Ok {A} a.
Arguments Raise {A} e.

(** [str(n)] for an [int]. *)
Definition str_int (n : Z) : string := NilZero.string_of_int (Z.to_int n).

(** [str(e)]: the message of a builtin exception; current Starlette
    prints an [HTTPException] as [status: detail]. *)
Definition str_exn (e : exn) : string :=
  match e with
  | ValueError m | IndexError m | Exception m => m
  | HTTPException c d => str_int c +:+ ": " +:+ d
  end.

(** [len(b)] *)
Definition len {A} (l : list A) : Z := Z.of_nat (length l).

(** Slice bounds as Python normalises them: a negative index counts from
    the end, and both ends are clipped to [0, len]. *)
Definition slice_index (n i : Z) : Z :=
  if i <? 0 then Z.max 0 (i + n) else Z.min i n.

(** [l[lo:hi]] *)
Definition slice {A} (l : list A) (lo hi : Z) : list A :=
  let lo' := slice_index (len l) lo in
  let hi' := slice_index (len l) hi in
  take (Z.to_nat (hi' - lo')) (drop (Z.to_nat lo') l).

(** [s.startswith(p)] *)
Fixpoint startswith (p s : string) : bool :=
  match p, s with
  | EmptyString, _ => true
  | String a p', String b s' => if Ascii.eqb a b then startswith p' s' else false
  | String _ _, EmptyString => false
  end.

(** [s.replace(old, new)] for a non-empty [old]: occurrences are replaced
    left to right and do not overlap; [skip] counts the characters of the
    occurrence just replaced that are still to be dropped. *)
Fixpoint replace_go (old new : string) (skip : nat) (s : string) : string :=
  match s with
  | EmptyString => EmptyString
  | String c s' =>
      match skip with
      | S k => replace_go old new k s'
      | O =>
          if startswith old s
          then new +:+ replace_go old new (Nat.pred (String.length old)) s'
          else String c (replace_go old new O s')
      end
  end.

Definition replace (old new s : string) : string := replace_go old new O s.

(** [s.split(sep)] for a one-character separator: never the empty list. *)
Fixpoint split (sep : ascii) (s : string) : list string :=
  match s with
  | EmptyString => [EmptyString]
  | String c s' =>
      if Ascii.eqb c sep then EmptyString :: split sep s'
      else match split sep s' with
           | [] => [String c EmptyString]
           | x :: xs => String c x :: xs
           end
  end.

(** *** [repr(s)] for a [str] of Latin-1 characters

    The string is put between apostrophes, or between double quotes when
    it holds an apostrophe and no double quote; the quote in use and the
    backslash are escaped, tab, line feed and carriage return are written
    [\t], [\n], [\r], and every other character that is not printable (the
    control characters, DEL, 0x80-0xA0 and the soft hyphen 0xAD) as [\xNN]
    in lower-case hexadecimal. *)

Definition apostrophe : ascii := "039"%char.
Definition double_quote : ascii := "034"%char.
Definition backslash : ascii := "092"%char.

Definition hex_digit (n : nat) : ascii :=
  nth n (list_ascii_of_string "0123456789abcdef") "0"%char.

Definition is_printable (c : ascii) : bool :=
  let n := nat_of_ascii c in
  ((32 <=? n) && (n <? 127))%nat || ((161 <=? n) && negb (n =? 173))%nat.

Definition repr_char (quote c : ascii) : string :=
  let n := nat_of_ascii c in
  if Ascii.eqb c quote || Ascii.eqb c backslash then String backslash (String c EmptyString)
  else if (n =? 9)%nat then String backslash "t"
  else if (n =? 10)%nat then String backslash "n"
  else if (n =? 13)%nat then String backslash "r"
  else if is_printable c then String c EmptyString
  else String backslash
         (String "x" (String (hex_digit (n / 16)) (String (hex_digit (n mod 16)) EmptyString))).

Fixpoint repr_chars (quote : ascii) (s : string) : string :=
  match s with
  | EmptyString => String quote EmptyString
  | String c s' => repr_char quote c +:+ repr_chars quote s'
  end.

Fixpoint contains (c : ascii) (s : string) : bool :=
  match s with
  | EmptyString => false
  | String d s' => Ascii.eqb c d || contains c s'
  end.

Definition repr_str (s : string) : string :=
  let quote :=
    if contains apostrophe s && negb (contains double_quote s)
    then double_quote else apostrophe in
  String quote (repr_chars quote s).

(** *** [int(s)]

    CPython first maps the non-ASCII white space of the string to a space
    (in Latin-1: NEL 0x85 and NBSP 0xA0) and any other character above
    0x7E to an invalid one, then strips ASCII white space (0x09-0x0D and
    0x20) at both ends and reads an optional sign followed by decimal
    digits, where single underscores may separate digits.  A literal of
    more than [sys.get_int_max_str_digits()] digits, leading zeros
    counted and underscores not, is refused; the interpreter checks this
    once it has counted the digits at the head of the string, before it
    looks at what follows them.

    [str(n)] has the same limit; the code applies it to lengths and to
    integers [int] has returned, which are below it. *)

(** [sys.get_int_max_str_digits()], at its default. *)
Definition max_str_digits : nat := 4300.

Definition is_int_space (c : ascii) : bool :=
  let n := nat_of_ascii c in
  ((9 <=? n) && (n <=? 13))%nat || (n =? 32)%nat || (n =? 133)%nat || (n =? 160)%nat.

Definition is_digit (c : ascii) : bool :=
  let n := nat_of_ascii c in ((48 <=? n) && (n <=? 57))%nat.

Definition digit_value (c : ascii) : Z := Z.of_nat (nat_of_ascii c) - 48.

Fixpoint lstrip (s : list ascii) : list ascii :=
  match s with
  | c :: s' => if is_int_space c then lstrip s' else s
  | [] => []
  end.

Definition strip (s : list ascii) : list ascii := rev (lstrip (rev (lstrip s))).

(** What reading a literal comes to. *)
Inductive literal : Type :=
| Invalid
| TooLong (digits : nat)
| Value (n : Z).

(** The digits after the first one, up to the first character that is
    neither a digit nor an underscore: the number of digits read so far,
    their value, and what is left of the string.  [us] records that the
    previous character was an underscore; two underscores in a row and an
    underscore that no digit follows are errors. *)
Fixpoint int_digits (digits : nat) (acc : Z) (us : bool) (s : list ascii)
    : option (nat * Z * list ascii) :=
  match s with
  | [] => if us then None else Some (digits, acc, [])
  | c :: s' =>
      if is_digit c then int_digits (S digits) (10 * acc + digit_value c) false s'
      else if Ascii.eqb c "_" then (if us then None else int_digits digits acc true s')
      else if us then None else Some (digits, acc, s)
  end.

Definition int_unsigned (s : list ascii) : literal :=
  match s with
  | c :: s' =>
      if is_digit c then
        match int_digits 1 (digit_value c) false s' with
        | Some (digits, n, rest) =>
            if (max_str_digits <? digits)%nat then TooLong digits
            else match rest with
                 | [] => Value n
                 | _ :: _ => Invalid
                 end
        | None => Invalid
        end
      else Invalid
  | [] => Invalid
  end.

Definition negated (l : literal) : literal :=
  match l with
  | Value n => Value (- n)
  | _ => l
  end.

Definition int_scan (s : string) : literal :=
  match strip (list_ascii_of_string s) with
  | c :: s' =>
      if Ascii.eqb c "+" then int_unsigned s'
      else if Ascii.eqb c "-" then negated (int_unsigned s')
      else int_unsigned (c :: s')
  | [] => Invalid
  end.

(** The integer [int(s)] returns, if it returns one. *)
Definition int_literal (s : string) : option Z :=
  match int_scan s with
  | Value n => Some n
  | _ => None
  end.

(** [int(s)]; the message of an invalid literal shows at most 200
    characters of [repr(s)]. *)
Definition int (s : string) : result Z :=
  match int_scan s with
  | Value n => Ok n
  | TooLong digits =>
      Raise (ValueError
               ("Exceeds the limit (" +:+ str_int (Z.of_nat max_str_digits)
                  +:+ " digits) for integer string conversion: value has "
                  +:+ str_int (Z.of_nat digits)
                  +:+ " digits; use sys.set_int_max_str_digits() to increase the limit"))
  | Invalid =>
      Raise (ValueError ("invalid literal for int() with base 10: "
                           +:+ substring 0 200 (repr_str s)))
  end.

(** Truthiness of a [str]: the empty string is falsy. *)
Definition truthy_str (s : string) : bool :=
  match s with EmptyString => false | _ => true end.

(** Truthiness of an optional [float]: [None] and zero are falsy. *)
Definition truthy_float (d : option float) : bool :=
  match d with
  | None => false
  | Some x => negb (PrimFloat.eqb x 0)
  end.

(** Truthiness of an optional [str]. *)
Definition truthy_opt_str (s : option string) : bool :=
  match s with
  | None => false
  | Some x => truthy_str x
  end.

End Py.

(** ** Data model ([app/models/video.py]) *)

Inductive VideoStatus : Type :=
| PENDING | UPLOADING | PROCESSING | COMPLETED | FAILED | DELETED.

#[global] Instance VideoStatus_eq_dec : EqDecision VideoStatus.
Proof. solve_decision. Defined.

(** Timestamps ([datetime]) are instants on an integer time line. *)
Definition datetime := Z.

Module Video.

Record t : Type := mk {
  id : string;
  title : string;
  filename : string;
  file_path : string;
  file_size : Z;
  file_type : string;
  file_extension : string;
  duration : option float;
  width : option Z;
  height : option Z;
  fps : option float;
  bitrate : option Z;
  codec : option string;
  status : VideoStatus;
  processing_progress : Z;
  error_message : option string;
  thumbnail_path : option string;
  thumbnail_generated : bool;
  view_count : Z;
  uploaded_at : option datetime;
  processed_at : option datetime
}.

Definition set_status (x : VideoStatus) (v : t) : t :=
  mk (id v) (title v) (filename v) (file_path v) (file_size v) (file_type v)
     (file_extension v) (duration v) (width v) (height v) (fps v) (bitrate v)
     (codec v) x (processing_progress v) (error_message v)
     (thumbnail_path v) (thumbnail_generated v) (view_count v)
     (uploaded_at v) (processed_at v).

Definition set_processing_progress (x : Z) (v : t) : t :=
  mk (id v) (title v) (filename v) (file_path v) (file_size v) (file_type v)
     (file_extension v) (duration v) (width v) (height v) (fps v) (bitrate v)
     (codec v) (status v) x (error_message v)
     (thumbnail_path v) (thumbnail_generated v) (view_count v)
     (uploaded_at v) (processed_at v).

Definition set_error_message (x : option string) (v : t) : t :=
  mk (id v) (title v) (filename v) (file_path v) (file_size v) (file_type v)
     (file_extension v) (duration v) (width v) (height v) (fps v) (bitrate v)
     (codec v) (status v) (processing_progress v) x
     (thumbnail_path v) (thumbnail_generated v) (view_count v)
     (uploaded_at v) (processed_at v).

Definition set_file_path (x : string) (v : t) : t :=
  mk (id v) (title v) (filename v) x (file_size v) (file_type v)
     (file_extension v) (duration v) (width v) (height v) (fps v) (bitrate v)
     (codec v) (status v) (processing_progress v) (error_message v)
     (thumbnail_path v) (thumbnail_generated v) (view_count v)
     (uploaded_at v) (processed_at v).

Definition set_uploaded_at (x : option datetime) (v : t) : t :=
  mk (id v) (title v) (filename v) (file_path v) (file_size v) (file_type v)
     (file_extension v) (duration v) (width v) (height v) (fps v) (bitrate v)
     (codec v) (status v) (processing_progress v) (error_message v)
     (thumbnail_path v) (thumbnail_generated v) (view_count v)
     x (processed_at v).

Definition set_processed_at (x : option datetime) (v : t) : t :=
  mk (id v) (title v) (filename v) (file_path v) (file_size v) (file_type v)
     (file_extension v) (duration v) (width v) (height v) (fps v) (bitrate v)
     (codec v) (status v) (processing_progress v) (error_message v)
     (thumbnail_path v) (thumbnail_generated v) (view_count v)
     (uploaded_at v) x.

Definition set_duration (x : option float) (v : t) : t :=
  mk (id v) (title v) (filename v) (file_path v) (file_size v) (file_type v)
     (file_extension v) x (width v) (height v) (fps v) (bitrate v)
     (codec v) (status v) (processing_progress v) (error_message v)
     (thumbnail_path v) (thumbnail_generated v) (view_count v)
     (uploaded_at v) (processed_at v).

Definition set_width (x : option Z) (v : t) : t :=
  mk (id v) (title v) (filename v) (file_path v) (file_size v) (file_type v)
     (file_extension v) (duration v) x (height v) (fps v) (bitrate v)
     (codec v) (status v) (processing_progress v) (error_message v)
     (thumbnail_path v) (thumbnail_generated v) (view_count v)
     (uploaded_at v) (processed_at v).

Definition set_height (x : option Z) (v : t) : t :=
  mk (id v) (title v) (filename v) (file_path v) (file_size v) (file_type v)
     (file_extension v) (duration v) (width v) x (fps v) (bitrate v)
     (codec v) (status v) (processing_progress v) (error_message v)
     (thumbnail_path v) (thumbnail_generated v) (view_count v)
     (uploaded_at v) (processed_at v).

Definition set_fps (x : option float) (v : t) : t :=
  mk (id v) (title v) (filename v) (file_path v) (file_size v) (file_type v)
     (file_extension v) (duration v) (width v) (height v) x (bitrate v)
     (codec v) (status v) (processing_progress v) (error_message v)
     (thumbnail_path v) (thumbnail_generated v) (view_count v)
     (uploaded_at v) (processed_at v).

Definition set_bitrate (x : option Z) (v : t) : t :=
  mk (id v) (title v) (filename v) (file_path v) (file_size v) (file_type v)
     (file_extension v) (duration v) (width v) (height v) (fps v) x
     (codec v) (status v) (processing_progress v) (error_message v)
     (thumbnail_path v) (thumbnail_generated v) (view_count v)
     (uploaded_at v) (processed_at v).

Definition set_codec (x : option string) (v : t) : t :=
  mk (id v) (title v) (filename v) (file_path v) (file_size v) (file_type v)
     (file_extension v) (duration v) (width v) (height v) (fps v) (bitrate v)
     x (status v) (processing_progress v) (error_message v)
     (thumbnail_path v) (thumbnail_generated v) (view_count v)
     (uploaded_at v) (processed_at v).

Definition set_thumbnail_path (x : option string) (v : t) : t :=
  mk (id v) (title v) (filename v) (file_path v) (file_size v) (file_type v)
     (file_extension v) (duration v) (width v) (height v) (fps v) (bitrate v)
     (codec v) (status v) (processing_progress v) (error_message v)
     x (thumbnail_generated v) (view_count v)
     (uploaded_at v) (processed_at v).

Definition set_thumbnail_generated (x : bool) (v : t) : t :=
  mk (id v) (title v) (filename v) (file_path v) (file_size v) (file_type v)
     (file_extension v) (duration v) (width v) (height v) (fps v) (bitrate v)
     (codec v) (status v) (processing_progress v) (error_message v)
     (thumbnail_path v) x (view_count v)
     (uploaded_at v) (processed_at v).

Definition set_view_count (x : Z) (v : t) : t :=
  mk (id v) (title v) (filename v) (file_path v) (file_size v) (file_type v)
     (file_extension v) (duration v) (width v) (height v) (fps v) (bitrate v)
     (codec v) (status v) (processing_progress v) (error_message v)
     (thumbnail_path v) (thumbnail_generated v) x
     (uploaded_at v) (processed_at v).

End Video.

(** Upload sessions; the chunk bookkeeping columns ([upload_url],
    [total_chunks], [uploaded_chunks], [upload_speed]) are never written by
    the service and are left out. *)
Module VideoUploadSession.

Record t : Type := mk {
  id : string;
  video_id : string;
  session_token : string;
  chunk_size : Z;
  bytes_uploaded : Z;
  upload_progress : float;
  status : VideoStatus;
  error_message : option string;
  started_at : option datetime;
  completed_at : option datetime
}.

Definition set_bytes_uploaded (x : Z) (s : t) : t :=
  mk (id s) (video_id s) (session_token s) (chunk_size s) x
     (upload_progress s) (status s) (error_message s) (started_at s)
     (completed_at s).

Definition set_upload_progress (x : float) (s : t) : t :=
  mk (id s) (video_id s) (session_token s) (chunk_size s) (bytes_uploaded s)
     x (status s) (error_message s) (started_at s) (completed_at s).

Definition set_status (x : VideoStatus) (s : t) : t :=
  mk (id s) (video_id s) (session_token s) (chunk_size s) (bytes_uploaded s)
     (upload_progress s) x (error_message s) (started_at s) (completed_at s).

Definition set_error_message (x : option string) (s : t) : t :=
  mk (id s) (video_id s) (session_token s) (chunk_size s) (bytes_uploaded s)
     (upload_progress s) (status s) x (started_at s) (completed_at s).

Definition set_completed_at (x : option datetime) (s : t) : t :=
  mk (id s) (video_id s) (session_token s) (chunk_size s) (bytes_uploaded s)
     (upload_progress s) (status s) (error_message s) (started_at s) x.

(** The [is_active] property. *)
Definition is_active (s : t) : bool :=
  bool_decide (status s = PENDING) || bool_decide (status s = UPLOADING).

End VideoUploadSession.

(** View sessions; the player preference columns ([last_quality],
    [playback_speed], [volume_level], [paused_at]) are left out. *)
Module VideoViewSession.

Record t : Type := mk {
  id : string;
  video_id : string;
  user_id : option string;
  session_id : string;
  ip_address : option string;
  user_agent : option string;
  current_time : float;
  watch_duration : float;
  completion_percentage : float;
  is_active : bool;
  is_completed : bool;
  last_accessed : datetime
}.

(** A row as the constructor call and the column defaults create it. *)
Definition new (id video_id session_id : string)
    (user_id ip_address user_agent : option string) (now : datetime) : t :=
  mk id video_id user_id session_id ip_address user_agent
     0%float 0%float 0%float true false now.

(** The [has_finished] property. *)
Definition has_finished (s : t) : bool :=
  PrimFloat.leb 95 (completion_percentage s).

(** [update_progress(self, current_time, video_duration)] *)
Definition update_progress (current_time video_duration : float)
    (now : datetime) (s : t) : t :=
  let completion_percentage :=
    if PrimFloat.ltb 0 video_duration
    then PrimFloat.mul (PrimFloat.div current_time video_duration) 100
    else 0%float in
  mk (id s) (video_id s) (user_id s) (session_id s) (ip_address s)
     (user_agent s) current_time (watch_duration s) completion_percentage
     (is_active s)
     (if PrimFloat.leb 95 completion_percentage then true else is_completed s)
     now.

End VideoViewSession.

(** ** Persistent state, external collaborators and the effect monad *)

(** The three tables.  Videos are keyed by their primary key; session rows
    are kept in insertion order and an ORM object is identified with the
    position of its row. *)
Module DB.

Record t : Type := mk {
  videos : gmap string Video.t;
  upload_sessions : list VideoUploadSession.t;
  view_sessions : list VideoViewSession.t
}.

Definition empty : t := mk ∅ [] [].

End DB.

(** What the media inspector reports for a file: the dictionary built by
    [extract_video_metadata], reduced to the properties read from the
    capture.  [duration] is [frame_count / fps], or 0 when [fps] is not
    positive; the codec is always ["unknown"] and the bitrate [None]; the
    file format and the analysis date are left out. *)
Record Metadata : Type := {
  frame_count : Z;
  meta_fps : float;
  meta_width : Z;
  meta_height : Z;
  meta_duration : float
}.

(** Jobs handed to the task queue with [.delay(...)]. *)
Inductive Job : Type :=
| ProcessVideoUpload (video_id file_path : string)
| GenerateVideoThumbnail (video_id : string).

(** Settings and oracles for the collaborators outside the model. *)
Record Env : Type := {
  ENABLE_VIDEO_THUMBNAILS : bool;
  STREAMING_CHUNK_SIZE : Z;
  (** OpenCV opening and probing a file; [None]: the capture did not open. *)
  inspect : Py.bytes -> option Metadata;
  (** What the properties of a capture that did not open read as; the
      values depend on the OpenCV build (0, or -1 in recent ones). *)
  closed_capture : Py.bytes -> Metadata;
  (** The encoded middle frame of a file; [None]: no frame could be read. *)
  middle_frame : Py.bytes -> option Py.bytes;
  (** The same frame scaled down to a thumbnail and encoded. *)
  thumbnail_frame : Py.bytes -> option Py.bytes;
  (** Whether the worker process could import OpenCV. *)
  CV2_AVAILABLE : bool;
  (** The [S3Error] message with which the object store refuses the write
      of an object, if it does, and whether it refuses its removal. *)
  put_object_error : string -> option string;
  remove_object_fails : string -> bool;
  (** The values drawn by successive [uuid.uuid4()] calls. *)
  uuid4_value : nat -> string
}.

Module World.

Record t : Type := mk {
  db : DB.t;
  commits : list DB.t;
  storage : gmap string Py.bytes;
  queue : list Job;
  clock : datetime;
  entropy : nat
}.

Definition set_db (d : DB.t) (w : t) : t :=
  mk d (commits w) (storage w) (queue w) (clock w) (entropy w).
Definition set_commits (c : list DB.t) (w : t) : t :=
  mk (db w) c (storage w) (queue w) (clock w) (entropy w).
Definition set_storage (s : gmap string Py.bytes) (w : t) : t :=
  mk (db w) (commits w) s (queue w) (clock w) (entropy w).
Definition set_queue (q : list Job) (w : t) : t :=
  mk (db w) (commits w) (storage w) q (clock w) (entropy w).
Definition set_entropy (n : nat) (w : t) : t :=
  mk (db w) (commits w) (storage w) (queue w) (clock w) n.

End World.

(** Computations that read and change the world and may raise. *)
Definition M (A : Type) : Type := World.t -> Py.result A * World.t.

Definition ret {A} (a : A) : M A := fun w => (Py.Ok a, w).

Definition bind {A B} (m : M A) (k : A -> M B) : M B :=
  fun w => match m w with
           | (Py.Ok a, w') => k a w'
           | (Py.Raise e, w') => (Py.Raise e, w')
           end.

Definition raise {A} (e : Py.exn) : M A := fun w => (Py.Raise e, w).

(** [try: m except Exception as e: h e] *)
Definition try_except {A} (m : M A) (h : Py.exn -> M A) : M A :=
  fun w => match m w with
           | (Py.Ok a, w') => (Py.Ok a, w')
           | (Py.Raise e, w') => h e w'
           end.

#[global] Instance M_ret : MRet M := @ret.
#[global] Instance M_bind : MBind M := fun A B k m => bind m k.

Definition gets {A} (f : World.t -> A) : M A := fun w => (Py.Ok (f w), w).
Definition modify (f : World.t -> World.t) : M unit := fun w => (Py.Ok tt, f w).

(** Lift a pure result. *)
Definition lift {A} (r : Py.result A) : M A := fun w => (r, w).

(** [datetime.utcnow()] *)
Definition utcnow : M datetime := gets World.clock.

Section Operations.

Context (env : Env).

(** [str(uuid.uuid4())] *)
Definition uuid4 : M string :=
  n ← gets World.entropy;
  modify (World.set_entropy (S n));;
  ret (uuid4_value env n).

(** [db.commit()]: the working copy becomes the persisted state. *)
Definition commit : M unit :=
  modify (fun w => World.set_commits (World.commits w ++ [World.db w]) w).

Definition modify_db (f : DB.t -> DB.t) : M unit :=
  modify (fun w => World.set_db (f (World.db w)) w).

(** Attribute assignments on the [Video] object with primary key [vid]. *)
Definition update_video (vid : string) (f : Video.t -> Video.t) : M unit :=
  modify_db (fun d =>
    DB.mk (alter f vid (DB.videos d)) (DB.upload_sessions d) (DB.view_sessions d)).

(** Attribute assignments on the upload session object at row [i]. *)
Definition update_upload_session (i : nat)
    (f : VideoUploadSession.t -> VideoUploadSession.t) : M unit :=
  modify_db (fun d =>
    DB.mk (DB.videos d) (alter f i (DB.upload_sessions d)) (DB.view_sessions d)).

(** Attribute assignments on the view session object at row [i]. *)
Definition update_view_session (i : nat)
    (f : VideoViewSession.t -> VideoViewSession.t) : M unit :=
  modify_db (fun d =>
    DB.mk (DB.videos d) (DB.upload_sessions d) (alter f i (DB.view_sessions d))).

(** [db.add(upload_session)]; the result is the row of the new object. *)
Definition add_upload_session (s : VideoUploadSession.t) : M nat :=
  d ← gets World.db;
  modify_db (fun d =>
    DB.mk (DB.videos d) (DB.upload_sessions d ++ [s]) (DB.view_sessions d));;
  ret (length (DB.upload_sessions d)).

(** [db.add(view_session)] *)
Definition add_view_session (s : VideoViewSession.t) : M nat :=
  d ← gets World.db;
  modify_db (fun d =>
    DB.mk (DB.videos d) (DB.upload_sessions d) (DB.view_sessions d ++ [s]));;
  ret (length (DB.view_sessions d)).

(** [select(Video).where(Video.id == video_id)] with [scalar_one_or_none()],
    [db.get(Video, video_id)] and [db.query(Video).filter(...).first()]:
    a lookup by primary key. *)
Definition get_video_by_id (video_id : string) : M (option Video.t) :=
  gets (fun w => DB.videos (World.db w) !! video_id).

(** Rows of [video_view_sessions] with the given video and session ids. *)
Fixpoint select_view_sessions (video_id session_id : string) (i : nat)
    (rows : list VideoViewSession.t) : list nat :=
  match rows with
  | [] => []
  | s :: rows' =>
      if String.eqb (VideoViewSession.video_id s) video_id
         && String.eqb (VideoViewSession.session_id s) session_id
      then i :: select_view_sessions video_id session_id (S i) rows'
      else select_view_sessions video_id session_id (S i) rows'
  end.

(** [result.scalar_one_or_none()] *)
Definition scalar_one_or_none {A} (rows : list A) : M (option A) :=
  match rows with
  | [] => ret None
  | [r] => ret (Some r)
  | _ => raise (Py.Exception "Multiple rows were found when one or none was required")
  end.

Definition find_view_session (video_id session_id : string) : M (option nat) :=
  d ← gets World.db;
  scalar_one_or_none (select_view_sessions video_id session_id O (DB.view_sessions d)).

(** The current attributes of the session object at row [i]. *)
Definition read_view_session (i : nat) : M VideoViewSession.t :=
  d ← gets World.db;
  match DB.view_sessions d !! i with
  | Some s => ret s
  | None => raise (Py.Exception "detached instance")
  end.

Definition read_upload_session (i : nat) : M VideoUploadSession.t :=
  d ← gets World.db;
  match DB.upload_sessions d !! i with
  | Some s => ret s
  | None => raise (Py.Exception "detached instance")
  end.

(** *** Object store ([app/services/minio_service.py]) *)

(** [MinIOService.get_file_content]: a missing object is a 404. *)
Definition get_file_content (object_name : string) : M Py.bytes :=
  st ← gets World.storage;
  match st !! object_name with
  | Some content => ret content
  | None => raise (Py.HTTPException 404 ("File not found: " +:+ object_name))
  end.

(** [MinIOService.upload_file]: a refused write is a 500. *)
Definition upload_file (object_name : string) (data : Py.bytes) : M string :=
  match put_object_error env object_name with
  | Some message => raise (Py.HTTPException 500 ("File upload failed: " +:+ message))
  | None =>
      modify (fun w => World.set_storage (<[object_name := data]> (World.storage w)) w);;
      ret object_name
  end.

(** [MinIOService.delete_file]: reports failure instead of raising. *)
Definition delete_file (object_name : string) : M bool :=
  if remove_object_fails env object_name then ret false
  else modify (fun w => World.set_storage (delete object_name (World.storage w)) w);;
       ret true.

(** [task.delay(...)] *)
Definition enqueue (j : Job) : M unit :=
  modify (fun w => World.set_queue (World.queue w ++ [j]) w).

(** The attributes of the [Video] object with primary key [vid], as the
    session holds them. *)
Definition the_video (vid : string) : M Video.t :=
  v ← get_video_by_id vid;
  match v with
  | Some v => ret v
  | None => raise (Py.Exception "detached instance")
  end.

(** The metadata OpenCV reports without the [isOpened()] check: the
    properties of the capture, opened or not. *)
Definition probe (content : Py.bytes) : Metadata :=
  match inspect env content with
  | Some m => m
  | None => closed_capture env content
  end.

Definition thumbnail_object_name (video_id : string) : string :=
  "thumbnails/" +:+ video_id +:+ "/thumbnail_" +:+ video_id +:+ ".jpg".

End Operations.

(** ** Service layer ([app/services/video_service.py]) *)

Module VideoService.
Section VideoService.

Context (env : Env).

(** [generate_video_thumbnail(self, video)]: any failure is printed and
    answered with [None]. *)
Definition generate_video_thumbnail (vid : string) : M (option string) :=
  try_except
    (video ← the_video vid;
     video_content ← get_file_content (Video.file_path video);
     match middle_frame env video_content with
     | Some frame =>
         let thumbnail_path := thumbnail_object_name vid in
         upload_file env thumbnail_path frame;;
         update_video vid (fun v =>
           Video.set_thumbnail_generated true
             (Video.set_thumbnail_path (Some thumbnail_path) v));;
         commit;;
         ret (Some thumbnail_path)
     | None => ret None
     end)
    (fun e => ret None).

(** [_process_video_metadata(self, video)]; the assignment to
    [video.metadata] sets no column and is not modelled. *)
Definition _process_video_metadata (vid : string) : M unit :=
  try_except
    (video ← the_video vid;
     video_content ← get_file_content (Video.file_path video);
     let m := probe env video_content in
     update_video vid (fun v =>
       Video.set_fps (Some (meta_fps m))
         (Video.set_height (Some (meta_height m))
            (Video.set_width (Some (meta_width m))
               (Video.set_duration (Some (meta_duration m)) v))));;
     (if ENABLE_VIDEO_THUMBNAILS env
      then generate_video_thumbnail vid;; ret tt
      else ret tt);;
     now ← utcnow;
     update_video vid (fun v =>
       Video.set_processing_progress 100
         (Video.set_processed_at (Some now)
            (Video.set_status COMPLETED v)));;
     commit)
    (fun e =>
       update_video vid (fun v =>
         Video.set_error_message (Some ("Processing failed: " +:+ Py.str_exn e))
           (Video.set_status FAILED v));;
       commit).

(** [upload_video_file(self, video, file, chunk_size)]; [file_content] is
    what [file.read()] yields. *)
Definition upload_video_file (vid : string) (file_content : Py.bytes)
    (chunk_size : Z) : M VideoUploadSession.t :=
  session_pk ← uuid4 env;
  session_token ← uuid4 env;
  now ← utcnow;
  upload_session ← add_upload_session
    (VideoUploadSession.mk session_pk vid session_token chunk_size 0 0%float
       UPLOADING None (Some now) None);
  commit;;
  try_except
    (update_video vid (Video.set_status UPLOADING);;
     commit;;
     video ← the_video vid;
     let file_path := "videos/" +:+ Video.id video +:+ "/" +:+ Video.filename video in
     update_upload_session upload_session
       (VideoUploadSession.set_bytes_uploaded (Py.len file_content));;
     upload_file env file_path file_content;;
     now ← utcnow;
     update_upload_session upload_session (fun s =>
       VideoUploadSession.set_completed_at (Some now)
         (VideoUploadSession.set_upload_progress 100%float
            (VideoUploadSession.set_status COMPLETED s)));;
     now ← utcnow;
     update_video vid (fun v =>
       Video.set_uploaded_at (Some now)
         (Video.set_file_path file_path
            (Video.set_status PROCESSING v)));;
     commit;;
     _process_video_metadata vid;;
     read_upload_session upload_session)
    (fun e =>
       update_upload_session upload_session (fun s =>
         VideoUploadSession.set_error_message (Some (Py.str_exn e))
           (VideoUploadSession.set_status FAILED s));;
       update_video vid (fun v =>
         Video.set_error_message (Some (Py.str_exn e))
           (Video.set_status FAILED v));;
       commit;;
       raise (Py.HTTPException 500 ("Upload failed: " +:+ Py.str_exn e))).

(** [delete_video(self, video_id)] *)
Definition delete_video (video_id : string) : M bool :=
  video ← get_video_by_id video_id;
  match video with
  | None => raise (Py.HTTPException 404 "Video not found")
  | Some video =>
      try_except
        ((if Py.truthy_str (Video.file_path video)
          then delete_file env (Video.file_path video);; ret tt
          else ret tt);;
         match Video.thumbnail_path video with
         | Some thumbnail_path =>
             if Py.truthy_str thumbnail_path
             then delete_file env thumbnail_path;; ret tt
             else ret tt
         | None => ret tt
         end;;
         update_video video_id (Video.set_status DELETED);;
         commit;;
         ret true)
        (fun e =>
           raise (Py.HTTPException 500 ("Failed to delete video: " +:+ Py.str_exn e)))
  end.

(** [stream_video_content(self, video_id)] *)
Definition stream_video_content (video_id : string) : M Py.bytes :=
  video ← get_video_by_id video_id;
  match video with
  | Some video =>
      if decide (Video.status video = COMPLETED)
      then get_file_content (Video.file_path video)
      else raise (Py.HTTPException 404 "Video not found or not ready")
  | None => raise (Py.HTTPException 404 "Video not found or not ready")
  end.

(** [update_video_progress(self, video_id, session_id, current_time, user_id)] *)
Definition update_video_progress (video_id session_id : string)
    (current_time : float) (user_id : option string) : M VideoViewSession.t :=
  video ← get_video_by_id video_id;
  match video with
  | None => raise (Py.HTTPException 404 "Video not found")
  | Some video =>
      found ← find_view_session video_id session_id;
      view_session ←
        match found with
        | Some i => ret i
        | None =>
            pk ← uuid4 env;
            now ← utcnow;
            add_view_session
              (VideoViewSession.new pk video_id session_id user_id None None now)
        end;
      match Video.duration video with
      | Some duration =>
          if Py.truthy_float (Some duration)
          then now ← utcnow;
               update_view_session view_session
                 (VideoViewSession.update_progress current_time duration now)
          else ret tt
      | None => ret tt
      end;;
      commit;;
      read_view_session view_session
  end.

(** [get_video_progress(self, video_id, session_id)] *)
Definition get_video_progress (video_id session_id : string)
    : M (option VideoViewSession.t) :=
  found ← find_view_session video_id session_id;
  match found with
  | Some i => s ← read_view_session i; ret (Some s)
  | None => ret None
  end.

End VideoService.
End VideoService.

Module VideoAnalyticsService.
Section VideoAnalyticsService.

Context (env : Env).

(** [record_video_view(self, video_id, session_id, user_id, ip_address, user_agent)] *)
Definition record_video_view (video_id session_id : string)
    (user_id ip_address user_agent : option string) : M VideoViewSession.t :=
  found ← find_view_session video_id session_id;
  match found with
  | Some i => read_view_session i
  | None =>
      pk ← uuid4 env;
      now ← utcnow;
      view_session ← add_view_session
        (VideoViewSession.new pk video_id session_id user_id ip_address user_agent now);
      video ← get_video_by_id video_id;
      match video with
      | Some _ =>
          update_video video_id (fun v =>
            Video.set_view_count (Video.view_count v + 1) v)
      | None => ret tt
      end;;
      commit;;
      read_view_session view_session
  end.

End VideoAnalyticsService.
End VideoAnalyticsService.

(** ** Background tasks ([celery_worker/tasks.py])

    Celery's own task state ([self.update_state]) and the temporary files
    are outside the model. *)

(** The dictionary a task returns.  The tasks set different keys: a key
    the dictionary does not have is [None] here, and ["duration"] and
    ["resolution"], which can hold [None], are options of their own.
    ["processed_at"] is the ISO text of the instant recorded here, and
    ["metadata"] is the dictionary of the inspector. *)
Record TaskResult : Type := {
  result_status : string;
  result_video_id : string;
  result_error : option string;
  result_duration : option (option float);
  result_resolution : option (option string);
  result_thumbnail_generated : option bool;
  result_processed_at : option datetime;
  result_thumbnail_path : option string;
  result_metadata : option Metadata
}.

(** [f"{video.width}x{video.height}" if video.width and video.height else None] *)
Definition resolution (video : Video.t) : option string :=
  match Video.width video, Video.height video with
  | Some width, Some height =>
      if (width =? 0) || (height =? 0) then None
      else Some (Py.str_int width +:+ "x" +:+ Py.str_int height)
  | _, _ => None
  end.

(** [video.processed_at.isoformat()] *)
Definition processed_at_isoformat (video : Video.t) : M datetime :=
  match Video.processed_at video with
  | Some t => ret t
  | None => raise (Py.Exception "'NoneType' object has no attribute 'isoformat'")
  end.

Module tasks.
Section tasks.

Context (env : Env).

(** [extract_video_metadata(video_path)] *)
Definition extract_video_metadata (content : Py.bytes) : M Metadata :=
  match inspect env content with
  | Some m => ret m
  | None => raise (Py.Exception "Failed to extract metadata: Could not open video file")
  end.

(** [generate_video_thumbnail_sync(video_path, video_id, minio_service)] *)
Definition generate_video_thumbnail_sync (content : Py.bytes) (video_id : string)
    : M (option string) :=
  try_except
    (match inspect env content with
     | None => ret None
     | Some _ =>
         match thumbnail_frame env content with
         | Some thumbnail_content =>
             let thumbnail_path := thumbnail_object_name video_id in
             upload_file env thumbnail_path thumbnail_content;;
             ret (Some thumbnail_path)
         | None => ret None
         end
     end)
    (fun e => ret None).

(** [process_video_upload(self, video_id, file_path)] *)
Definition process_video_upload (video_id file_path : string) : M TaskResult :=
  try_except
    (video ← get_video_by_id video_id;
     match video with
     | None => raise (Py.Exception ("Video " +:+ video_id +:+ " not found"))
     | Some _ =>
         update_video video_id (fun v =>
           Video.set_processing_progress 10 (Video.set_status PROCESSING v));;
         commit;;
         video_content ← get_file_content file_path;
         metadata ← extract_video_metadata video_content;
         update_video video_id (fun v =>
           Video.set_processing_progress 50
             (Video.set_codec (Some "unknown")
                (Video.set_bitrate None
                   (Video.set_fps (Some (meta_fps metadata))
                      (Video.set_height (Some (meta_height metadata))
                         (Video.set_width (Some (meta_width metadata))
                            (Video.set_duration (Some (meta_duration metadata)) v)))))));;
         commit;;
         (if ENABLE_VIDEO_THUMBNAILS env
          then
            thumbnail_path ← generate_video_thumbnail_sync video_content video_id;
            match thumbnail_path with
            | Some p =>
                if Py.truthy_str p
                then update_video video_id (fun v =>
                       Video.set_thumbnail_generated true
                         (Video.set_thumbnail_path (Some p) v))
                else ret tt
            | None => ret tt
            end;;
            update_video video_id (Video.set_processing_progress 80);;
            commit
          else ret tt);;
         now ← utcnow;
         update_video video_id (fun v =>
           Video.set_processing_progress 100
             (Video.set_processed_at (Some now)
                (Video.set_status COMPLETED v)));;
         commit;;
         video ← the_video video_id;
         processed_at ← processed_at_isoformat video;
         ret {| result_status := "completed"; result_video_id := video_id;
                result_error := None;
                result_duration := Some (Video.duration video);
                result_resolution := Some (resolution video);
                result_thumbnail_generated := Some (Video.thumbnail_generated video);
                result_processed_at := Some processed_at;
                result_thumbnail_path := None;
                result_metadata := None |}
     end)
    (fun e =>
       video ← get_video_by_id video_id;
       match video with
       | Some _ =>
           update_video video_id (fun v =>
             Video.set_error_message (Some (Py.str_exn e))
               (Video.set_status FAILED v));;
           commit
       | None => ret tt
       end;;
       raise (Py.Exception ("Video processing failed: " +:+ Py.str_exn e))).

(** [generate_video_thumbnail_task(self, video_id)] *)
Definition generate_video_thumbnail_task (video_id : string) : M TaskResult :=
  video ← get_video_by_id video_id;
  match video with
  | None => raise (Py.Exception ("Video " +:+ video_id +:+ " not found"))
  | Some video =>
      if negb (Py.truthy_str (Video.file_path video))
      then raise (Py.Exception "Video file path not found")
      else
        video_content ← get_file_content (Video.file_path video);
        thumbnail_path ← generate_video_thumbnail_sync video_content video_id;
        match thumbnail_path with
        | Some p =>
            if Py.truthy_str p
            then
              update_video video_id (fun v =>
                Video.set_thumbnail_generated true
                  (Video.set_thumbnail_path (Some p) v));;
              commit;;
              ret {| result_status := "completed"; result_video_id := video_id;
                     result_error := None;
                     result_duration := None;
                     result_resolution := None;
                     result_thumbnail_generated := None;
                     result_processed_at := None;
                     result_thumbnail_path := Some p;
                     result_metadata := None |}
            else raise (Py.Exception "Failed to generate thumbnail")
        | None => raise (Py.Exception "Failed to generate thumbnail")
        end
  end.

(** A worker taking a job off the queue. *)
Definition run_job (j : Job) : M TaskResult :=
  match j with
  | ProcessVideoUpload video_id file_path => process_video_upload video_id file_path
  | GenerateVideoThumbnail video_id => generate_video_thumbnail_task video_id
  end.

End tasks.
End tasks.

(** ** The dedicated worker ([app/workers/video_worker.py]) *)

Module VideoProcessingWorker.
Section VideoProcessingWorker.

Context (env : Env).

Definition failed (e : string) (video_id : string) : TaskResult :=
  {| result_status := "failed"; result_video_id := video_id;
     result_error := Some e;
     result_duration := None;
     result_resolution := None;
     result_thumbnail_generated := None;
     result_processed_at := None;
     result_thumbnail_path := None;
     result_metadata := None |}.

(** [_extract_video_metadata(self, video_path)] *)
Definition _extract_video_metadata (content : Py.bytes) : M Metadata :=
  match inspect env content with
  | Some m => ret m
  | None => raise (Py.Exception "Could not open video file")
  end.

(** [process_video_metadata(self, video_id)] *)
Definition process_video_metadata (video_id : string) : M TaskResult :=
  if negb (CV2_AVAILABLE env) then ret (failed "OpenCV not available" video_id)
  else
    try_except
      (video ← get_video_by_id video_id;
       match video with
       | None => raise (Py.Exception ("Video " +:+ video_id +:+ " not found"))
       | Some video =>
           update_video video_id (fun v =>
             Video.set_processing_progress 20 (Video.set_status PROCESSING v));;
           commit;;
           video_content ← get_file_content (Video.file_path video);
           metadata ← _extract_video_metadata video_content;
           update_video video_id (fun v =>
             Video.set_processing_progress 60
               (Video.set_codec (Some "unknown")
                  (Video.set_bitrate None
                     (Video.set_fps (Some (meta_fps metadata))
                        (Video.set_height (Some (meta_height metadata))
                           (Video.set_width (Some (meta_width metadata))
                              (Video.set_duration (Some (meta_duration metadata)) v)))))));;
           commit;;
           video ← the_video video_id;
           ret {| result_status := "completed"; result_video_id := video_id;
                  result_error := None;
                  result_duration := Some (Video.duration video);
                  result_resolution := Some (resolution video);
                  result_thumbnail_generated := None;
                  result_processed_at := None;
                  result_thumbnail_path := None;
                  result_metadata := Some metadata |}
       end)
      (fun e =>
         video ← get_video_by_id video_id;
         match video with
         | Some _ =>
             update_video video_id (fun v =>
               Video.set_error_message (Some (Py.str_exn e))
                 (Video.set_status FAILED v));;
             commit
         | None => ret tt
         end;;
         ret (failed (Py.str_exn e) video_id)).

(** [_generate_thumbnail(self, video_path, video_id)] *)
Definition _generate_thumbnail (content : Py.bytes) (video_id : string)
    : M (option string) :=
  match inspect env content with
  | None => ret None
  | Some _ =>
      match thumbnail_frame env content with
      | Some thumbnail_content =>
          let thumbnail_path := thumbnail_object_name video_id in
          upload_file env thumbnail_path thumbnail_content;;
          ret (Some thumbnail_path)
      | None => ret None
      end
  end.

(** [generate_video_thumbnail(self, video_id)] *)
Definition generate_video_thumbnail (video_id : string) : M TaskResult :=
  if negb (CV2_AVAILABLE env) then ret (failed "OpenCV not available" video_id)
  else
    try_except
      (video ← get_video_by_id video_id;
       match video with
       | None => raise (Py.Exception ("Video " +:+ video_id +:+ " not found"))
       | Some video =>
           if negb (Py.truthy_str (Video.file_path video))
           then raise (Py.Exception "Video file path not found")
           else
             video_content ← get_file_content (Video.file_path video);
             thumbnail_path ← _generate_thumbnail video_content video_id;
             match thumbnail_path with
             | Some p =>
                 if Py.truthy_str p
                 then
                   update_video video_id (fun v =>
                     Video.set_thumbnail_generated true
                       (Video.set_thumbnail_path (Some p) v));;
                   commit;;
                   ret {| result_status := "completed"; result_video_id := video_id;
                          result_error := None;
                          result_duration := None;
                          result_resolution := None;
                          result_thumbnail_generated := None;
                          result_processed_at := None;
                          result_thumbnail_path := Some p;
                          result_metadata := None |}
                 else raise (Py.Exception "Failed to generate thumbnail")
             | None => raise (Py.Exception "Failed to generate thumbnail")
             end
       end)
      (fun e => ret (failed (Py.str_exn e) video_id)).

End VideoProcessingWorker.
End VideoProcessingWorker.

(** ** HTTP endpoints ([app/api/videos.py]) *)

(** What the endpoints read from a request: [request.headers.get(...)] for
    the three headers consulted and [request.client.host]. *)
Module Request.
Record t : Type := mk {
  range : option string;
  x_session_id : option string;
  user_agent : option string;
  client_host : string
}.
End Request.

(** A response body: the bytes of a [Response], or what iterating the
    generator of a [StreamingResponse] yields. *)
Inductive Body : Type :=
| Content (content : Py.bytes)
| Streaming (chunks : Py.result (list Py.bytes)).

Module Response.
Record t : Type := mk {
  status_code : Z;
  headers : gmap string string;
  body : Body;
  media_type : string
}.
End Response.

(** The reply of the thumbnail endpoint. *)
Inductive ThumbnailReply : Type :=
| GenerationStarted
| Image (content : Py.bytes).

Module api.
Section api.

Context (env : Env).

(** [range(0, stop, step)] *)
Definition range (stop step : Z) : Py.result (list Z) :=
  if step =? 0 then Py.Raise (Py.ValueError "range() arg 3 must not be zero")
  else if step <? 0 then Py.Ok []
  else Py.Ok (map (fun k => Z.of_nat k * step)
                  (seq 0 (Z.to_nat ((stop + step - 1) / step)))).

(** The generator [generate()] of [stream_video], run to the end. *)
Definition generate (content : Py.bytes) : Py.result (list Py.bytes) :=
  let chunk_size := STREAMING_CHUNK_SIZE env in
  match range (Py.len content) chunk_size with
  | Py.Ok indices => Py.Ok (map (fun i => Py.slice content i (i + chunk_size)) indices)
  | Py.Raise e => Py.Raise e
  end.

(** The body of the [try] block of [stream_video] once the content is
    fetched: the headers, the range branch and the streaming fallback. *)
Definition respond (file_type : string) (content : Py.bytes)
    (range_header : option string) : Py.result Response.t :=
  let headers : gmap string string :=
    <["Expires" := "0"]>
      (<["Pragma" := "no-cache"]>
         (<["Cache-Control" := "no-cache, no-store, must-revalidate"]>
            (<["Accept-Ranges" := "bytes"]>
               (<["Content-Length" := Py.str_int (Py.len content)]>
                  (<["Content-Type" := file_type]> ∅))))) in
  if Py.truthy_opt_str range_header then
    let range_match := Py.split "-" (Py.replace "bytes=" "" (default "" range_header)) in
    match
      match range_match !! 0%nat with
      | Some s => if Py.truthy_str s then Py.int s else Py.Ok 0
      | None => Py.Raise (Py.IndexError "list index out of range")
      end
    with
    | Py.Raise e => Py.Raise e
    | Py.Ok start =>
        match
          match range_match !! 1%nat with
          | Some s => if Py.truthy_str s then Py.int s else Py.Ok (Py.len content - 1)
          | None => Py.Raise (Py.IndexError "list index out of range")
          end
        with
        | Py.Raise e => Py.Raise e
        | Py.Ok end_ =>
            let partial_content := Py.slice content start (end_ + 1) in
            Py.Ok (Response.mk 206
                     (<["Content-Length" := Py.str_int (Py.len partial_content)]>
                        (<["Content-Range" :=
                             "bytes " +:+ Py.str_int start +:+ "-" +:+ Py.str_int end_
                               +:+ "/" +:+ Py.str_int (Py.len content)]> headers))
                     (Content partial_content)
                     file_type)
        end
    end
  else
    Py.Ok (Response.mk 200 headers (Streaming (generate content)) file_type).

(** [stream_video(video_id, request, ...)] *)
Definition stream_video (video_id : string) (request : Request.t) : M Response.t :=
  video ← get_video_by_id video_id;
  match video with
  | Some video =>
      if decide (Video.status video = COMPLETED) then
        fresh ← uuid4 env;
        let session_id := default fresh (Request.x_session_id request) in
        VideoAnalyticsService.record_video_view env video_id session_id None
          (Some (Request.client_host request)) (Request.user_agent request);;
        try_except
          (content ← VideoService.stream_video_content video_id;
           lift (respond (Video.file_type video) content (Request.range request)))
          (fun e =>
             raise (Py.HTTPException 500 ("Streaming failed: " +:+ Py.str_exn e)))
      else raise (Py.HTTPException 404 "Video not found or not ready")
  | None => raise (Py.HTTPException 404 "Video not found or not ready")
  end.

(** [get_video_thumbnail(video_id, ...)] *)
Definition get_video_thumbnail (video_id : string) : M ThumbnailReply :=
  video ← get_video_by_id video_id;
  match video with
  | None => raise (Py.HTTPException 404 "Video not found")
  | Some video =>
      match Video.thumbnail_path video with
      | Some thumbnail_path =>
          if Py.truthy_str thumbnail_path then
            try_except
              (thumbnail_content ← get_file_content thumbnail_path;
               ret (Image thumbnail_content))
              (fun e =>
                 raise (Py.HTTPException 500
                          ("Failed to get thumbnail: " +:+ Py.str_exn e)))
          else enqueue (GenerateVideoThumbnail video_id);; ret GenerationStarted
      | None => enqueue (GenerateVideoThumbnail video_id);; ret GenerationStarted
      end
  end.

End api.
End api.

(** ** Vocabulary of the statements *)

(** The effect of the progress branch of [update_video_progress] on a
    session: [update_progress] when the duration is truthy, nothing
    otherwise. *)
Definition progress_applied (video : Video.t) (current_time : float) (now : datetime)
    (s : VideoViewSession.t) : VideoViewSession.t :=
  match Video.duration video with
  | Some d => if Py.truthy_float (Some d)
              then VideoViewSession.update_progress current_time d now s else s
  | None => s
  end.

(** One progress request: the instant it arrives and its arguments. *)
Record ProgressCall : Type := {
  call_time : datetime;
  call_video_id : string;
  call_session_id : string;
  call_current_time : float;
  call_user_id : option string
}.

Definition set_clock (now : datetime) (w : World.t) : World.t :=
  World.mk (World.db w) (World.commits w) (World.storage w) (World.queue w) now
    (World.entropy w).

(** A sequence of progress requests served one after the other; a request
    that fails leaves the world as it found it and the next one is served. *)
Fixpoint serve_progress (env : Env) (calls : list ProgressCall) (w : World.t) : World.t :=
  match calls with
  | [] => w
  | c :: calls' =>
      serve_progress env calls'
        (snd (VideoService.update_video_progress env (call_video_id c)
                (call_session_id c) (call_current_time c) (call_user_id c)
                (set_clock (call_time c) w)))
  end.

(** The snapshots committed between two worlds. *)
Definition new_commits (w w' : World.t) : list DB.t :=
  drop (length (World.commits w)) (World.commits w').

(** A sample installation: thumbnails on, 1 MiB chunks, a cooperative
    object store and an inspector that reports a 12.5 s clip. *)
Definition sample_env : Env :=
  {| ENABLE_VIDEO_THUMBNAILS := true;
     STREAMING_CHUNK_SIZE := 1048576;
     inspect := fun _ => Some (Build_Metadata 300 24%float 640 360 12.5%float);
     closed_capture := fun _ => Build_Metadata (-1) (-1)%float (-1) (-1) 0%float;
     middle_frame := fun _ => Some [x00];
     thumbnail_frame := fun _ => Some [x01];
     CV2_AVAILABLE := true;
     put_object_error := fun _ => None;
     remove_object_fails := fun _ => false;
     uuid4_value := fun n => "uuid-" +:+ Py.str_int (Z.of_nat n) |}.

(** A video [v1] of 1000 bytes lasting 100 s, in a given status. *)
Definition sample_video (st : VideoStatus) : Video.t :=
  Video.mk "v1" "demo" "a.mp4" "videos/v1/a.mp4" 1000 "video/mp4" ".mp4"
    (Some 100%float) (Some 640) (Some 360) (Some 24%float) None None
    st 100 None None false 0 None None.

Definition sample_world (st : VideoStatus) : World.t :=
  World.mk (DB.mk {[ "v1" := sample_video st ]} [] []) []
    {[ "videos/v1/a.mp4" := repeat x2a 1000 ]} [] 0 0.

(** One view recording: the instant it happens and the optional arguments. *)
Record ViewCall : Type := {
  view_time : datetime;
  view_user_id : option string;
  view_ip_address : option string;
  view_user_agent : option string
}.

(** A sequence of [record_video_view] calls for one (video, session) pair. *)
Fixpoint serve_views (env : Env) (video_id session_id : string)
    (calls : list ViewCall) (w : World.t) : World.t :=
  match calls with
  | [] => w
  | c :: calls' =>
      serve_views env video_id session_id calls'
        (snd (VideoAnalyticsService.record_video_view env video_id session_id
                (view_user_id c) (view_ip_address c) (view_user_agent c)
                (set_clock (view_time c) w)))
  end.

(** The view counter of a video, if the video exists. *)
Definition view_count_of (video_id : string) (w : World.t) : option Z :=
  Video.view_count <$> DB.videos (World.db w) !! video_id.

(** A world in which [v1] already has a view session [s1], completed at
    96 s of 100 s. *)
Definition watched_world : World.t :=
  World.mk
    (DB.mk {[ "v1" := sample_video COMPLETED ]} []
       [VideoViewSession.mk "vs-1" "v1" None "s1" None None 96%float 0%float 96%float
          true true 5])
    [] {[ "videos/v1/a.mp4" := repeat x2a 1000 ]} [] 10 0.

(** A world whose only video has no duration yet. *)
Definition undated_world : World.t :=
  World.mk (DB.mk {[ "v1" := Video.set_duration None (sample_video COMPLETED) ]} [] [])
    [] ∅ [] 7 0.

(** The number a decimal numeral denotes, read digit by digit from an
    accumulator. *)
Fixpoint uint_value (d : Decimal.uint) (acc : Z) : Z :=
  match d with
  | Decimal.Nil => acc
  | Decimal.D0 l => uint_value l (10 * acc)
  | Decimal.D1 l => uint_value l (10 * acc + 1)
  | Decimal.D2 l => uint_value l (10 * acc + 2)
  | Decimal.D3 l => uint_value l (10 * acc + 3)
  | Decimal.D4 l => uint_value l (10 * acc + 4)
  | Decimal.D5 l => uint_value l (10 * acc + 5)
  | Decimal.D6 l => uint_value l (10 * acc + 6)
  | Decimal.D7 l => uint_value l (10 * acc + 7)
  | Decimal.D8 l => uint_value l (10 * acc + 8)
  | Decimal.D9 l => uint_value l (10 * acc + 9)
  end.

(** The characters of a string are all decimal digits. *)
Definition all_digits (s : string) : Prop :=
  Forall (fun c => Py.is_digit c = true) (list_ascii_of_string s).

(** One bound of a range as it is written in the header: a numeral, or
    nothing. *)
Definition numeral (n : option Z) : string :=
  match n with
  | Some n => Py.str_int n
  | None => EmptyString
  end.

(** The header [bytes=start-end], where either bound may be left out. *)
Definition range_header (start end_ : option Z) : string :=
  "bytes=" +:+ numeral start +:+ "-" +:+ numeral end_.

(** The session the streaming endpoint attributes a view to: the
    [X-Session-ID] header, or else the identifier it has just drawn. *)
Definition session_of (env : Env) (w : World.t) (request : Request.t) : string :=
  default (uuid4_value env (World.entropy w)) (Request.x_session_id request).

(** A request carrying the session [s1] and a given [Range] header. *)
Definition sample_request (range : option string) : Request.t :=
  Request.mk range (Some "s1") None "127.0.0.1".

(** A non-empty [Range] header the endpoint cannot read: once ["bytes="] is
    removed and the rest is split at ["-"], there are fewer than two parts,
    or one of the first two parts is non-empty and is not an integer
    literal [int] reads. *)
Definition unreadable_range (h : string) : Prop :=
  let parts := Py.split "-" (Py.replace "bytes=" "" h) in
  (length parts < 2)%nat \/
  exists s, (parts !! 0%nat = Some s \/ parts !! 1%nat = Some s) /\
            s <> EmptyString /\ Py.int_literal s = None.

(** The status of a video in a snapshot, if the video is there. *)
Definition status_of (video_id : string) (d : DB.t) : option VideoStatus :=
  Video.status <$> DB.videos d !! video_id.

(** The progress of a video in a snapshot. *)
Definition progress_of (video_id : string) (d : DB.t) : option Z :=
  Video.processing_progress <$> DB.videos d !! video_id.

(** What a successful thumbnail generation writes on a video. *)
Definition with_thumbnail (video_id : string) (v : Video.t) : Video.t :=
  Video.set_thumbnail_generated true
    (Video.set_thumbnail_path (Some (thumbnail_object_name video_id)) v).

(** ** The lifecycle as the operations drive it *)

(** The operations that assign a video's status. *)
Inductive Op : Type :=
| BeginUpload (video_id : string) (file_content : Py.bytes) (chunk_size : Z)
| ProcessingJob (video_id file_path : string)
| DeleteVideo (video_id : string).

Definition target (op : Op) : string :=
  match op with
  | BeginUpload video_id _ _ => video_id
  | ProcessingJob video_id _ => video_id
  | DeleteVideo video_id => video_id
  end.

(** The world an operation leaves behind, whether it returns or raises. *)
Definition run_op (env : Env) (op : Op) (w : World.t) : World.t :=
  match op with
  | BeginUpload video_id file_content chunk_size =>
      snd (VideoService.upload_video_file env video_id file_content chunk_size w)
  | ProcessingJob video_id file_path =>
      snd (tasks.process_video_upload env video_id file_path w)
  | DeleteVideo video_id =>
      snd (VideoService.delete_video env video_id w)
  end.

(** The statuses a video goes through in the snapshots committed between
    two worlds. *)
Definition statuses (video_id : string) (w w' : World.t) : list VideoStatus :=
  omap (status_of video_id) (new_commits w w').

(** The status changes each operation commits on its target, from one
    snapshot to the next.  [BeginUpload] and the processing job start from
    any status. *)
Inductive status_step : Op -> VideoStatus -> VideoStatus -> Prop :=
| step_same op s : status_step op s s
| step_upload_begins v c k s : status_step (BeginUpload v c k) s UPLOADING
| step_upload_stored v c k : status_step (BeginUpload v c k) UPLOADING PROCESSING
| step_upload_failed v c k : status_step (BeginUpload v c k) UPLOADING FAILED
| step_inline_completed v c k : status_step (BeginUpload v c k) PROCESSING COMPLETED
| step_inline_failed v c k : status_step (BeginUpload v c k) PROCESSING FAILED
| step_job_begins v p s : status_step (ProcessingJob v p) s PROCESSING
| step_job_completed v p : status_step (ProcessingJob v p) PROCESSING COMPLETED
| step_job_failed v p : status_step (ProcessingJob v p) PROCESSING FAILED
| step_deleted v s : status_step (DeleteVideo v) s DELETED.

(** Every two consecutive elements of [x :: l] are related. *)
Fixpoint chain {A} (R : A -> A -> Prop) (x : A) (l : list A) : Prop :=
  match l with
  | [] => True
  | y :: l' => R x y /\ chain R y l'
  end.

(** The six lifecycle states. *)
Definition all_statuses : list VideoStatus :=
  [PENDING; UPLOADING; PROCESSING; COMPLETED; FAILED; DELETED].

(** The active upload sessions of a video in a snapshot. *)
Definition active_uploads (video_id : string) (d : DB.t) : list VideoUploadSession.t :=
  List.filter
    (fun s => String.eqb (VideoUploadSession.video_id s) video_id
              && VideoUploadSession.is_active s)
    (DB.upload_sessions d).

(** The object name [upload_video_file] stores a video under. *)
Definition upload_object_name (video : Video.t) : string :=
  "videos/" +:+ Video.id video +:+ "/" +:+ Video.filename video.

(** The world a second upload request finds while a first one, started on
    the fresh sample video, has committed its session and is still sending
    the file: the tables are the first snapshot that request committed. *)
Definition upload_in_flight : World.t :=
  let w := sample_world PENDING in
  let w' := snd (VideoService.upload_video_file sample_env "v1" [x00; x01] 8192 w) in
  match new_commits w w' with
  | d :: _ => World.mk d [d] (World.storage w) [] 1 2
  | [] => w
  end.

(** ** Further endpoints ([app/api/videos.py]) *)

(** The progress an endpoint reports: the dictionary of the read endpoint
    and the fields of [VideoProgressResponse]. *)
Record ProgressReply : Type := {
  reply_video_id : string;
  reply_current_time : float;
  reply_completion_percentage : float;
  reply_resume_position : option float;
  reply_last_accessed : option datetime
}.

(** One entry of the [results] list of a batch deletion. *)
Record BatchResult : Type := {
  batch_video_id : string;
  batch_success : bool;
  batch_error : option string
}.

Record BatchDeleteResponse : Type := {
  batch_results : list BatchResult;
  total_requested : Z;
  successful : Z;
  failed : Z;
  batch_errors : list string
}.

Module routes.
Section routes.

Context (env : Env).

(** The constructor of the schema [VideoProgressResponse]: [last_accessed]
    has no default, so leaving it out is a validation error. *)
Definition VideoProgressResponse (video_id : string)
    (current_time completion_percentage resume_position : float)
    (last_accessed : option datetime) : M ProgressReply :=
  match last_accessed with
  | Some t =>
      ret {| reply_video_id := video_id;
             reply_current_time := current_time;
             reply_completion_percentage := completion_percentage;
             reply_resume_position := Some resume_position;
             reply_last_accessed := Some t |}
  | None =>
      raise (Py.ValueError
               "1 validation error for VideoProgressResponse: last_accessed: Field required")
  end.

(** [update_video_progress(video_id, progress_data, ...)], the POST
    endpoint; [progress_data] has passed the request schema. *)
Definition update_video_progress (video_id session_id : string)
    (current_time : float) : M ProgressReply :=
  view_session ← VideoService.update_video_progress env video_id session_id
                   current_time None;
  VideoProgressResponse video_id
    (VideoViewSession.current_time view_session)
    (VideoViewSession.completion_percentage view_session)
    (VideoViewSession.current_time view_session)
    None.

(** [get_video_progress(video_id, session_id, ...)], the GET endpoint. *)
Definition get_video_progress (video_id session_id : string) : M ProgressReply :=
  view_session ← VideoService.get_video_progress video_id session_id;
  match view_session with
  | None =>
      ret {| reply_video_id := video_id;
             reply_current_time := 0%float;
             reply_completion_percentage := 0%float;
             reply_resume_position := None;
             reply_last_accessed := None |}
  | Some s =>
      ret {| reply_video_id := video_id;
             reply_current_time := VideoViewSession.current_time s;
             reply_completion_percentage := VideoViewSession.completion_percentage s;
             reply_resume_position := Some (VideoViewSession.current_time s);
             reply_last_accessed := Some (VideoViewSession.last_accessed s) |}
  end.

(** The loop of [batch_delete_videos] over the requested ids. *)
Fixpoint batch_delete_loop (video_ids : list string) (acc : BatchDeleteResponse)
    : M BatchDeleteResponse :=
  match video_ids with
  | [] => ret acc
  | video_id :: rest =>
      acc' ← try_except
        (success ← VideoService.delete_video env video_id;
         if (success : bool)
         then ret {| batch_results :=
                       batch_results acc ++ [Build_BatchResult video_id true None];
                     total_requested := total_requested acc;
                     successful := successful acc + 1;
                     failed := failed acc;
                     batch_errors := batch_errors acc |}
         else
           let error_msg := "Failed to delete video " +:+ video_id in
           ret {| batch_results :=
                    batch_results acc ++ [Build_BatchResult video_id false (Some error_msg)];
                  total_requested := total_requested acc;
                  successful := successful acc;
                  failed := failed acc + 1;
                  batch_errors := batch_errors acc ++ [error_msg] |})
        (fun e =>
           let error_msg := Py.str_exn e in
           ret {| batch_results :=
                    batch_results acc ++ [Build_BatchResult video_id false (Some error_msg)];
                  total_requested := total_requested acc;
                  successful := successful acc;
                  failed := failed acc + 1;
                  batch_errors :=
                    batch_errors acc ++ ["Video " +:+ video_id +:+ ": " +:+ error_msg] |});
      batch_delete_loop rest acc'
  end.

(** [batch_delete_videos(request, ...)] *)
Definition batch_delete_videos (video_ids : list string) (confirm : bool)
    : M BatchDeleteResponse :=
  if negb confirm
  then raise (Py.HTTPException 400 "Confirmation required for batch delete operation")
  else batch_delete_loop video_ids
         {| batch_results := []; total_requested := Py.len video_ids;
            successful := 0; failed := 0; batch_errors := [] |}.

End routes.
End routes.

(** ** Further tasks ([celery_worker/tasks.py]) *)

(** One entry of [missing_files] in the health report. *)
Record MissingFile : Type := {
  missing_video_id : string;
  missing_title : string;
  missing_file_path : string
}.

Record HealthReport : Type := {
  total_videos : Z;
  healthy_videos : Z;
  unhealthy_videos : Z;
  missing_files : list MissingFile
}.

Module jobs.

(** [process_video_analytics(video_id, analytics_data)]; [views] is
    [analytics_data.get("views", 0)].  The result is the
    [updated_view_count] of the returned dictionary. *)
Definition process_video_analytics (video_id : string) (views : Z) : M Z :=
  try_except
    (video ← get_video_by_id video_id;
     match video with
     | None => raise (Py.Exception ("Video " +:+ video_id +:+ " not found"))
     | Some _ =>
         update_video video_id (fun v =>
           Video.set_view_count (Video.view_count v + views) v);;
         commit;;
         video ← the_video video_id;
         ret (Video.view_count video)
     end)
    (fun e => raise (Py.Exception ("Analytics processing failed: " +:+ Py.str_exn e))).

(** [MinIOService.file_exists]: the object can be stat'ed. *)
Definition file_exists (object_name : string) : M bool :=
  st ← gets World.storage;
  ret (bool_decide (is_Some (st !! object_name))).

(** The loop of [health_check_videos] over the completed videos. *)
Fixpoint health_check_loop (videos : list Video.t) (acc : HealthReport) : M HealthReport :=
  match videos with
  | [] => ret acc
  | video :: rest =>
      acc' ←
        (if Py.truthy_str (Video.file_path video)
         then
           exists_ ← file_exists (Video.file_path video);
           if (exists_ : bool)
           then ret {| total_videos := total_videos acc;
                       healthy_videos := healthy_videos acc + 1;
                       unhealthy_videos := unhealthy_videos acc;
                       missing_files := missing_files acc |}
           else ret {| total_videos := total_videos acc;
                       healthy_videos := healthy_videos acc;
                       unhealthy_videos := unhealthy_videos acc + 1;
                       missing_files :=
                         missing_files acc ++
                           [Build_MissingFile (Video.id video) (Video.title video)
                              (Video.file_path video)] |}
         else ret acc);
      health_check_loop rest acc'
  end.

(** The rows [db.query(Video).filter(Video.status == COMPLETED).all()]
    returns.  The query has no [ORDER BY]; the rows come in the order of
    the map, and the statements about the report do not depend on it. *)
Definition completed_videos (d : DB.t) : list Video.t :=
  List.filter (fun v => bool_decide (Video.status v = COMPLETED))
    (map snd (map_to_list (DB.videos d))).

(** [health_check_videos()] *)
Definition health_check_videos : M HealthReport :=
  d ← gets World.db;
  let videos := completed_videos d in
  health_check_loop videos
    {| total_videos := Py.len videos; healthy_videos := 0; unhealthy_videos := 0;
       missing_files := [] |}.

End jobs.

(** ** Vocabulary of the further statements *)

(** Every (video, session) pair has at most one view session. *)
Definition unique_sessions (d : DB.t) : Prop :=
  forall video_id session_id,
    (length (select_view_sessions video_id session_id 0 (DB.view_sessions d)) <= 1)%nat.

(** The requests the progress tracker and the streaming endpoint serve. *)
Inductive Visit : Type :=
| VisitProgress (c : ProgressCall)
| VisitView (video_id session_id : string) (c : ViewCall)
| VisitStream (now : datetime) (video_id : string) (request : Request.t).

Definition serve_visit (env : Env) (v : Visit) (w : World.t) : World.t :=
  match v with
  | VisitProgress c =>
      snd (VideoService.update_video_progress env (call_video_id c)
             (call_session_id c) (call_current_time c) (call_user_id c)
             (set_clock (call_time c) w))
  | VisitView video_id session_id c =>
      snd (VideoAnalyticsService.record_video_view env video_id session_id
             (view_user_id c) (view_ip_address c) (view_user_agent c)
             (set_clock (view_time c) w))
  | VisitStream now video_id request =>
      snd (api.stream_video env video_id request (set_clock now w))
  end.

Definition serve_visits (env : Env) (visits : list Visit) (w : World.t) : World.t :=
  fold_left (fun w v => serve_visit env v w) visits w.

(** Stream requests for one video served one after the other. *)
Definition serve_streams (env : Env) (video_id : string) (requests : list Request.t)
    (w : World.t) : World.t :=
  fold_left (fun w r => snd (api.stream_video env video_id r w)) requests w.

(** The processing progress a video goes through in the snapshots committed
    between two worlds. *)
Definition progresses (video_id : string) (w w' : World.t) : list Z :=
  omap (progress_of video_id) (new_commits w w').

(** What a successful run of [process_video_upload] writes on a video:
    the metadata, the thumbnail if one was stored, and the final state. *)
Definition processed (m : Metadata) (thumbnail : option string) (now : datetime)
    (v : Video.t) : Video.t :=
  let v1 :=
    Video.set_codec (Some "unknown")
      (Video.set_bitrate None
         (Video.set_fps (Some (meta_fps m))
            (Video.set_height (Some (meta_height m))
               (Video.set_width (Some (meta_width m))
                  (Video.set_duration (Some (meta_duration m)) v))))) in
  let v2 :=
    match thumbnail with
    | Some p => Video.set_thumbnail_generated true (Video.set_thumbnail_path (Some p) v1)
    | None => v1
    end in
  Video.set_processing_progress 100
    (Video.set_processed_at (Some now) (Video.set_status COMPLETED v2)).

(** The thumbnail [process_video_upload] stores for a file, if any. *)
Definition job_thumbnail (env : Env) (video_id : string) (content : Py.bytes)
    : option string :=
  if ENABLE_VIDEO_THUMBNAILS env then
    match thumbnail_frame env content with
    | Some _ =>
        match put_object_error env (thumbnail_object_name video_id) with
        | None => Some (thumbnail_object_name video_id)
        | Some _ => None
        end
    | None => None
    end
  else None.

(** The session identifiers that [k] successive stream requests without an
    [X-Session-ID] header draw, the first at entropy [e]; each request
    draws a second identifier for the row it creates. *)
Fixpoint drawn_sessions (env : Env) (e : nat) (k : nat) : list string :=
  match k with
  | O => []
  | S k' => uuid4_value env e :: drawn_sessions env (S (S e)) k'
  end.

(** The sample installation with an object store that refuses every
    write. *)
Definition full_store_env : Env :=
  {| ENABLE_VIDEO_THUMBNAILS := true;
     STREAMING_CHUNK_SIZE := 1048576;
     inspect := fun _ => Some (Build_Metadata 300 24%float 640 360 12.5%float);
     closed_capture := fun _ => Build_Metadata (-1) (-1)%float (-1) (-1) 0%float;
     middle_frame := fun _ => Some [x00];
     thumbnail_frame := fun _ => Some [x01];
     CV2_AVAILABLE := true;
     put_object_error := fun _ => Some "disk full";
     remove_object_fails := fun _ => false;
     uuid4_value := fun n => "uuid-" +:+ Py.str_int (Z.of_nat n) |}.

(** Analytics batches for one video processed one after the other; a
    batch is the number of views it reports. *)
Definition serve_analytics (video_id : string) (batches : list Z) (w : World.t) : World.t :=
  fold_left (fun w views => snd (jobs.process_video_analytics video_id views w)) batches w.

(** The sample world after the object of [v1] has been lost. *)
Definition orphaned_world : World.t :=
  World.mk (DB.mk {[ "v1" := sample_video COMPLETED ]} [] []) [] ∅ [] 0 0.

(** The dictionary a successful run of [process_video_upload] returns
    for the video [v] it leaves, completed at [now]. *)
Definition job_result (video_id : string) (v : Video.t) (now : datetime) : TaskResult :=
  {| result_status := "completed"; result_video_id := video_id;
     result_error := None;
     result_duration := Some (Video.duration v);
     result_resolution := Some (resolution v);
     result_thumbnail_generated := Some (Video.thumbnail_generated v);
     result_processed_at := Some now;
     result_thumbnail_path := None;
     result_metadata := None |}.

(** A result dictionary with another ["processed_at"]. *)
Definition at_instant (now : datetime) (r : TaskResult) : TaskResult :=
  {| result_status := result_status r; result_video_id := result_video_id r;
     result_error := result_error r;
     result_duration := result_duration r;
     result_resolution := result_resolution r;
     result_thumbnail_generated := result_thumbnail_generated r;
     result_processed_at := Some now;
     result_thumbnail_path := result_thumbnail_path r;
     result_metadata := result_metadata r |}.

(** The sample installation with an OpenCV that opens no file and reads
    every property of the closed capture as -1. *)
Definition blind_env : Env :=
  {| ENABLE_VIDEO_THUMBNAILS := true;
     STREAMING_CHUNK_SIZE := 1048576;
     inspect := fun _ => None;
     closed_capture := fun _ => Build_Metadata (-1) (-1)%float (-1) (-1) 0%float;
     middle_frame := fun _ => None;
     thumbnail_frame := fun _ => None;
     CV2_AVAILABLE := true;
     put_object_error := fun _ => None;
     remove_object_fails := fun _ => false;
     uuid4_value := fun n => "uuid-" +:+ Py.str_int (Z.of_nat n) |}.

(** * Properties *)

(** ** Evaluating the monad *)

Ltac run :=
  repeat (unfold mbind, M_bind, mret, M_ret, bind, ret, raise, gets, modify, lift,
            try_except, utcnow, uuid4, commit, modify_db, update_video,
            update_view_session, update_upload_session, add_view_session,
            add_upload_session, get_video_by_id, the_video, find_view_session,
            read_view_session, read_upload_session, scalar_one_or_none,
            get_file_content, upload_file, delete_file, enqueue,
            processed_at_isoformat in *;
          cbn [fst snd World.db World.commits World.storage World.queue
                 World.clock World.entropy World.set_db World.set_commits
                 World.set_storage World.set_queue World.set_entropy
                 DB.videos DB.upload_sessions DB.view_sessions] in *).

(** ** Queries over view sessions *)

Lemma select_view_sessions_app vid sid i l1 l2 :
  select_view_sessions vid sid i (l1 ++ l2) =
  select_view_sessions vid sid i l1 ++ select_view_sessions vid sid (i + length l1) l2.
Proof.
  revert i. induction l1 as [|r l1 IH]; intros i; simpl.
  - now rewrite Nat.add_0_r.
  - rewrite IH. replace (S i + length l1)%nat with (i + S (length l1))%nat by lia.
    now destruct (_ && _).
Qed.

Lemma select_view_sessions_lookup vid sid k rows i :
  i ∈ select_view_sessions vid sid k rows ->
  (k <= i)%nat /\ exists r, rows !! (i - k)%nat = Some r /\
    VideoViewSession.video_id r = vid /\ VideoViewSession.session_id r = sid.
Proof.
  revert k. induction rows as [|r rows IH]; intros k; simpl.
  - intros H. inversion H.
  - destruct (_ && _) eqn:E.
    + intros H. apply elem_of_cons in H as [->|H].
      * split; [lia|]. exists r. rewrite Nat.sub_diag. simpl.
        apply andb_true_iff in E as [E1 E2].
        apply String.eqb_eq in E1, E2. auto.
      * apply IH in H as (Hk & r' & Hr & Hv). split; [lia|]. exists r'.
        replace (i - k)%nat with (S (i - S k)) by lia. auto.
    + intros H. apply IH in H as (Hk & r' & Hr & Hv). split; [lia|]. exists r'.
      replace (i - k)%nat with (S (i - S k)) by lia. auto.
Qed.

Lemma select_view_sessions_singleton vid sid rows i :
  select_view_sessions vid sid 0 rows = [i] ->
  exists r, rows !! i = Some r /\
    VideoViewSession.video_id r = vid /\ VideoViewSession.session_id r = sid.
Proof.
  intros H. destruct (select_view_sessions_lookup vid sid 0 rows i) as (_ & r & Hr & Hv).
  - rewrite H. apply list_elem_of_singleton. reflexivity.
  - exists r. now rewrite Nat.sub_0_r in Hr.
Qed.

Lemma alter_app_length {A} (f : A -> A) (l : list A) (x : A) :
  alter f (length l) (l ++ [x]) = l ++ [f x].
Proof. induction l; simpl; [reflexivity|]. now f_equal. Qed.

Lemma alter_as_insert {A} (f : A -> A) (l : list A) i x :
  l !! i = Some x -> alter f i l = <[i := f x]> l.
Proof.
  revert i. induction l as [|a l IH]; intros [|i] H; simpl in *; try discriminate.
  - now inversion H.
  - f_equal. now apply IH.
Qed.

(** ** [update_video_progress] evaluated *)

Lemma update_video_progress_new env vid sid t u w video :
  DB.videos (World.db w) !! vid = Some video ->
  select_view_sessions vid sid 0 (DB.view_sessions (World.db w)) = [] ->
  let s := progress_applied video t (World.clock w)
             (VideoViewSession.new (uuid4_value env (World.entropy w)) vid sid u None None
                (World.clock w)) in
  let d := DB.mk (DB.videos (World.db w)) (DB.upload_sessions (World.db w))
             (DB.view_sessions (World.db w) ++ [s]) in
  VideoService.update_video_progress env vid sid t u w =
    (Py.Ok s, World.mk d (World.commits w ++ [d]) (World.storage w) (World.queue w)
                (World.clock w) (S (World.entropy w))).
Proof.
  intros Hv Hsel. unfold VideoService.update_video_progress, progress_applied. run.
  rewrite Hv, Hsel. run.
  destruct (Video.duration video) as [d|]; [destruct (Py.truthy_float (Some d))|]; run;
    rewrite ?alter_app_length, ?lookup_app_r, ?Nat.sub_diag by lia; reflexivity.
Qed.

Lemma update_video_progress_existing env vid sid t u w video i s :
  DB.videos (World.db w) !! vid = Some video ->
  select_view_sessions vid sid 0 (DB.view_sessions (World.db w)) = [i] ->
  DB.view_sessions (World.db w) !! i = Some s ->
  let s' := progress_applied video t (World.clock w) s in
  let d := DB.mk (DB.videos (World.db w)) (DB.upload_sessions (World.db w))
             (<[i := s']> (DB.view_sessions (World.db w))) in
  VideoService.update_video_progress env vid sid t u w =
    (Py.Ok s', World.mk d (World.commits w ++ [d]) (World.storage w) (World.queue w)
                 (World.clock w) (World.entropy w)).
Proof.
  intros Hv Hsel Hs. unfold VideoService.update_video_progress, progress_applied.
  destruct w as [[vs us rows] cs st q ck en]. run.
  rewrite Hv. run. rewrite Hsel. run.
  destruct (Video.duration video) as [d|]; [destruct (Py.truthy_float (Some d))|]; run.
  - rewrite (alter_as_insert _ _ _ _ Hs).
    rewrite list_lookup_insert_eq by (now apply lookup_lt_Some in Hs). reflexivity.
  - rewrite Hs, list_insert_id by assumption. reflexivity.
  - rewrite Hs, list_insert_id by assumption. reflexivity.
Qed.

Lemma update_video_progress_missing env vid sid t u w :
  DB.videos (World.db w) !! vid = None ->
  VideoService.update_video_progress env vid sid t u w =
    (Py.Raise (Py.HTTPException 404 "Video not found"), w).
Proof. intros Hv. unfold VideoService.update_video_progress. run. now rewrite Hv. Qed.

Lemma update_video_progress_ambiguous env vid sid t u w video i j l :
  DB.videos (World.db w) !! vid = Some video ->
  select_view_sessions vid sid 0 (DB.view_sessions (World.db w)) = i :: j :: l ->
  snd (VideoService.update_video_progress env vid sid t u w) = w.
Proof.
  intros Hv Hsel. unfold VideoService.update_video_progress. run.
  rewrite Hv, Hsel. reflexivity.
Qed.

Lemma progress_applied_unknown video t now s :
  Py.truthy_float (Video.duration video) = false -> progress_applied video t now s = s.
Proof.
  unfold progress_applied. destruct (Video.duration video) as [d|]; [|reflexivity].
  now intros ->.
Qed.

Lemma progress_applied_keys video t now s :
  VideoViewSession.video_id (progress_applied video t now s) = VideoViewSession.video_id s /\
  VideoViewSession.session_id (progress_applied video t now s) = VideoViewSession.session_id s /\
  (VideoViewSession.is_completed s = true ->
   VideoViewSession.is_completed (progress_applied video t now s) = true).
Proof.
  unfold progress_applied.
  destruct (Video.duration video) as [d|]; [destruct (Py.truthy_float (Some d))|];
    repeat split; auto.
  simpl. intros ->. now destruct (PrimFloat.leb _ _).
Qed.

Lemma short_selection (l : list nat) :
  (length l <= 1)%nat -> l = [] \/ exists i, l = [i].
Proof. destruct l as [|i [|j l]]; simpl; eauto; lia. Qed.

(** ** Progress tracking *)

(** C5 (as amended): on a video whose duration is known, the session
    returned by [update_video_progress] carries the supplied playback time,
    the instant of the call, and the percentage
    [current_time / duration * 100] when the duration is positive and [0]
    otherwise; the value is stored as computed, with no clamping to the
    range from 0 to 100. *)
Theorem C5_completion_percentage_unclamped env vid sid t u w video d :
  DB.videos (World.db w) !! vid = Some video ->
  Video.duration video = Some d ->
  Py.truthy_float (Some d) = true ->
  (length (select_view_sessions vid sid 0 (DB.view_sessions (World.db w))) <= 1)%nat ->
  exists s w',
    VideoService.update_video_progress env vid sid t u w = (Py.Ok s, w') /\
    VideoViewSession.video_id s = vid /\
    VideoViewSession.session_id s = sid /\
    VideoViewSession.current_time s = t /\
    VideoViewSession.completion_percentage s =
      (if PrimFloat.ltb 0 d then PrimFloat.mul (PrimFloat.div t d) 100 else 0%float) /\
    VideoViewSession.last_accessed s = World.clock w /\
    exists i, DB.view_sessions (World.db w') !! i = Some s.
Proof.
  intros Hv Hd Ht Hlen.
  destruct (short_selection _ Hlen) as [Hsel|[i Hsel]].
  - eexists _, _. split; [apply (update_video_progress_new env vid sid t u w video Hv Hsel)|].
    unfold progress_applied. rewrite Hd, Ht. simpl. repeat split.
    exists (length (DB.view_sessions (World.db w))).
    rewrite lookup_app_r, Nat.sub_diag by lia. reflexivity.
  - destruct (select_view_sessions_singleton _ _ _ _ Hsel) as (s & Hs & Hvid & Hsid).
    eexists _, _.
    split; [apply (update_video_progress_existing env vid sid t u w video i s Hv Hsel Hs)|].
    unfold progress_applied. rewrite Hd, Ht. simpl. repeat split; auto.
    exists i. rewrite list_lookup_insert_eq by (now apply lookup_lt_Some in Hs). reflexivity.
Qed.

Lemma C5_completion_percentage_unclamped_witness :
  exists s w',
    VideoService.update_video_progress sample_env "v1" "s1" 50 None
      (sample_world COMPLETED) = (Py.Ok s, w') /\
    VideoViewSession.video_id s = "v1" /\
    VideoViewSession.session_id s = "s1" /\
    VideoViewSession.current_time s = 50%float /\
    VideoViewSession.completion_percentage s =
      (if PrimFloat.ltb 0 100 then PrimFloat.mul (PrimFloat.div 50 100) 100 else 0%float) /\
    VideoViewSession.last_accessed s = World.clock (sample_world COMPLETED) /\
    exists i, DB.view_sessions (World.db w') !! i = Some s.
Proof.
  apply (C5_completion_percentage_unclamped sample_env "v1" "s1" 50 None
           (sample_world COMPLETED) (sample_video COMPLETED) 100).
  - reflexivity.
  - reflexivity.
  - reflexivity.
  - vm_compute. lia.
Defined.

(** C5 (counterexample): on the 100 s sample video a playback time of
    200 s, which the request schema accepts, is stored as 200 percent,
    above the 100 a clamp would leave. *)
Lemma C5_percentage_leaves_bounds :
  exists s w',
    VideoService.update_video_progress sample_env "v1" "s1" 200 None
      (sample_world COMPLETED) = (Py.Ok s, w') /\
    VideoViewSession.current_time s = 200%float /\
    VideoViewSession.completion_percentage s = 200%float /\
    PrimFloat.ltb 100 (VideoViewSession.completion_percentage s) = true.
Proof.
  eexists _, _. split; [vm_compute; reflexivity|]. repeat split; reflexivity.
Qed.

(** One call of [update_video_progress] keeps every existing row in place,
    with its keys, and never unsets its completion flag. *)
Lemma update_video_progress_keeps_completed env vid sid t u w i s :
  DB.view_sessions (World.db w) !! i = Some s ->
  exists s',
    DB.view_sessions (World.db (snd (VideoService.update_video_progress env vid sid t u w)))
      !! i = Some s' /\
    VideoViewSession.video_id s' = VideoViewSession.video_id s /\
    VideoViewSession.session_id s' = VideoViewSession.session_id s /\
    (VideoViewSession.is_completed s = true -> VideoViewSession.is_completed s' = true).
Proof.
  intros Hs.
  destruct (DB.videos (World.db w) !! vid) as [video|] eqn:Hv.
  2:{ rewrite update_video_progress_missing by assumption. simpl. eauto. }
  destruct (select_view_sessions vid sid 0 (DB.view_sessions (World.db w)))
    as [|j [|k l]] eqn:Hsel.
  - rewrite (update_video_progress_new env vid sid t u w video Hv Hsel). simpl.
    exists s. rewrite lookup_app_l by (now apply lookup_lt_Some in Hs). auto.
  - destruct (select_view_sessions_singleton _ _ _ _ Hsel) as (s0 & Hs0 & _).
    rewrite (update_video_progress_existing env vid sid t u w video j s0 Hv Hsel Hs0). simpl.
    destruct (decide (j = i)) as [->|Hne].
    + rewrite list_lookup_insert_eq by (now apply lookup_lt_Some in Hs).
      assert (s0 = s) as -> by congruence.
      eexists. split; [reflexivity|]. apply progress_applied_keys.
    + rewrite list_lookup_insert_ne by assumption. eauto.
  - rewrite (update_video_progress_ambiguous env vid sid t u w video j k l Hv Hsel). eauto.
Qed.

(** C6: a view session whose [is_completed] flag is set keeps it set
    through every sequence of progress updates, whatever videos, sessions
    and playback times they name; the row also stays where it is, under the
    same (video, session) key. *)
Theorem C6_completion_is_irreversible env calls w i s :
  DB.view_sessions (World.db w) !! i = Some s ->
  VideoViewSession.is_completed s = true ->
  exists s',
    DB.view_sessions (World.db (serve_progress env calls w)) !! i = Some s' /\
    VideoViewSession.video_id s' = VideoViewSession.video_id s /\
    VideoViewSession.session_id s' = VideoViewSession.session_id s /\
    VideoViewSession.is_completed s' = true.
Proof.
  revert w s. induction calls as [|c calls IH]; intros w s Hs Hc; simpl.
  - eauto.
  - destruct (update_video_progress_keeps_completed env (call_video_id c)
                (call_session_id c) (call_current_time c) (call_user_id c)
                (set_clock (call_time c) w) i s Hs) as (s1 & Hs1 & Hv1 & Hk1 & Hc1).
    destruct (IH _ s1 Hs1 (Hc1 Hc)) as (s' & Hs' & Hv' & Hk' & Hc').
    exists s'. repeat split; congruence.
Qed.

Lemma C6_completion_is_irreversible_witness :
  exists s',
    DB.view_sessions
      (World.db (serve_progress sample_env
                   [Build_ProgressCall 11 "v1" "s1" 1%float None;
                    Build_ProgressCall 12 "v1" "s1" 0%float None] watched_world))
      !! 0%nat = Some s' /\
    VideoViewSession.video_id s' = "v1" /\
    VideoViewSession.session_id s' = "s1" /\
    VideoViewSession.is_completed s' = true.
Proof.
  apply (C6_completion_is_irreversible sample_env
           [Build_ProgressCall 11 "v1" "s1" 1%float None;
            Build_ProgressCall 12 "v1" "s1" 0%float None]
           watched_world 0%nat
           (VideoViewSession.mk "vs-1" "v1" None "s1" None None 96%float 0%float 96%float
              true true 5)).
  - reflexivity.
  - reflexivity.
Defined.

(** C10: on an existing video whose duration is unknown (unset or zero)
    [update_video_progress] still finds or creates the session and returns
    it, and the supplied playback time is dropped: a session that exists is
    returned exactly as stored and the table is left as it was; a session
    that is created carries the column defaults (playback time and
    percentage 0, not completed). *)
Theorem C10_unknown_duration_drops_time env vid sid t u w video :
  DB.videos (World.db w) !! vid = Some video ->
  Py.truthy_float (Video.duration video) = false ->
  (length (select_view_sessions vid sid 0 (DB.view_sessions (World.db w))) <= 1)%nat ->
  exists s w',
    VideoService.update_video_progress env vid sid t u w = (Py.Ok s, w') /\
    VideoViewSession.video_id s = vid /\
    VideoViewSession.session_id s = sid /\
    DB.videos (World.db w') = DB.videos (World.db w) /\
    ((exists i,
        select_view_sessions vid sid 0 (DB.view_sessions (World.db w)) = [i] /\
        DB.view_sessions (World.db w) !! i = Some s /\
        DB.view_sessions (World.db w') = DB.view_sessions (World.db w))
     \/
     (select_view_sessions vid sid 0 (DB.view_sessions (World.db w)) = [] /\
      s = VideoViewSession.new (uuid4_value env (World.entropy w)) vid sid u None None
            (World.clock w) /\
      VideoViewSession.current_time s = 0%float /\
      VideoViewSession.completion_percentage s = 0%float /\
      VideoViewSession.is_completed s = false /\
      DB.view_sessions (World.db w') = DB.view_sessions (World.db w) ++ [s])).
Proof.
  intros Hv Hd Hlen.
  destruct (short_selection _ Hlen) as [Hsel|[i Hsel]].
  - eexists _, _. split; [apply (update_video_progress_new env vid sid t u w video Hv Hsel)|].
    rewrite progress_applied_unknown by assumption. simpl.
    repeat split. right. repeat split. assumption.
  - destruct (select_view_sessions_singleton _ _ _ _ Hsel) as (s & Hs & Hvid & Hsid).
    eexists _, _.
    split; [apply (update_video_progress_existing env vid sid t u w video i s Hv Hsel Hs)|].
    rewrite progress_applied_unknown by assumption. simpl.
    repeat split; auto. left. exists i. repeat split; auto.
    now apply list_insert_id.
Qed.

Lemma C10_unknown_duration_drops_time_witness :
  exists s w',
    VideoService.update_video_progress sample_env "v1" "s1" 30 None undated_world
      = (Py.Ok s, w') /\
    VideoViewSession.video_id s = "v1" /\
    VideoViewSession.session_id s = "s1" /\
    DB.videos (World.db w') = DB.videos (World.db undated_world) /\
    ((exists i,
        select_view_sessions "v1" "s1" 0 (DB.view_sessions (World.db undated_world)) = [i] /\
        DB.view_sessions (World.db undated_world) !! i = Some s /\
        DB.view_sessions (World.db w') = DB.view_sessions (World.db undated_world))
     \/
     (select_view_sessions "v1" "s1" 0 (DB.view_sessions (World.db undated_world)) = [] /\
      s = VideoViewSession.new (uuid4_value sample_env (World.entropy undated_world))
            "v1" "s1" None None None (World.clock undated_world) /\
      VideoViewSession.current_time s = 0%float /\
      VideoViewSession.completion_percentage s = 0%float /\
      VideoViewSession.is_completed s = false /\
      DB.view_sessions (World.db w') = DB.view_sessions (World.db undated_world) ++ [s])).
Proof.
  apply (C10_unknown_duration_drops_time sample_env "v1" "s1" 30 None undated_world
           (Video.set_duration None (sample_video COMPLETED))).
  - reflexivity.
  - reflexivity.
  - simpl. lia.
Defined.

(** ** View counting *)

Lemma record_video_view_new env vid sid u ip ua w :
  select_view_sessions vid sid 0 (DB.view_sessions (World.db w)) = [] ->
  let s := VideoViewSession.new (uuid4_value env (World.entropy w)) vid sid u ip ua
             (World.clock w) in
  let d := DB.mk
             (match DB.videos (World.db w) !! vid with
              | Some _ => alter (fun v => Video.set_view_count (Video.view_count v + 1) v)
                            vid (DB.videos (World.db w))
              | None => DB.videos (World.db w)
              end)
             (DB.upload_sessions (World.db w))
             (DB.view_sessions (World.db w) ++ [s]) in
  VideoAnalyticsService.record_video_view env vid sid u ip ua w =
    (Py.Ok s, World.mk d (World.commits w ++ [d]) (World.storage w) (World.queue w)
                (World.clock w) (S (World.entropy w))).
Proof.
  intros Hsel. unfold VideoAnalyticsService.record_video_view. run.
  rewrite Hsel. run.
  destruct (DB.videos (World.db w) !! vid); run;
    rewrite lookup_app_r, Nat.sub_diag by lia; reflexivity.
Qed.

Lemma record_video_view_existing env vid sid u ip ua w i s :
  select_view_sessions vid sid 0 (DB.view_sessions (World.db w)) = [i] ->
  DB.view_sessions (World.db w) !! i = Some s ->
  VideoAnalyticsService.record_video_view env vid sid u ip ua w = (Py.Ok s, w).
Proof.
  intros Hsel Hs. unfold VideoAnalyticsService.record_video_view. run.
  rewrite Hsel. run. now rewrite Hs.
Qed.

Lemma select_view_sessions_new vid sid rows pk u ip ua now :
  select_view_sessions vid sid 0 rows = [] ->
  select_view_sessions vid sid 0
    (rows ++ [VideoViewSession.new pk vid sid u ip ua now]) = [length rows].
Proof.
  intros H. rewrite select_view_sessions_app, H. simpl.
  now rewrite !String.eqb_refl.
Qed.

(** Once the pair has its session, further recordings change nothing. *)
Lemma serve_views_present env vid sid calls w i :
  select_view_sessions vid sid 0 (DB.view_sessions (World.db w)) = [i] ->
  World.db (serve_views env vid sid calls w) = World.db w /\
  World.commits (serve_views env vid sid calls w) = World.commits w.
Proof.
  revert w. induction calls as [|c calls IH]; intros w Hsel; simpl; [auto|].
  destruct (select_view_sessions_singleton _ _ _ _ Hsel) as (s & Hs & _).
  rewrite (record_video_view_existing env vid sid _ _ _ (set_clock (view_time c) w) i s)
    by assumption.
  simpl. destruct (IH (set_clock (view_time c) w) Hsel) as [-> ->]. auto.
Qed.

(** C4: [record_video_view] creates the view session only when the
    (video, session) pair has none, and that creation adds exactly 1 to the
    video's view counter; when the pair already has its session the call
    changes nothing at all.  Hence any non-empty sequence of recordings for
    a pair that starts without a session, three in a row in particular,
    adds exactly 1 to the counter. *)
Theorem C4_view_counted_once env vid sid w video :
  DB.videos (World.db w) !! vid = Some video ->
  (length (select_view_sessions vid sid 0 (DB.view_sessions (World.db w))) <= 1)%nat ->
  (forall u ip ua,
     select_view_sessions vid sid 0 (DB.view_sessions (World.db w)) = [] ->
     let w' := snd (VideoAnalyticsService.record_video_view env vid sid u ip ua w) in
     view_count_of vid w' = Some (Video.view_count video + 1) /\
     select_view_sessions vid sid 0 (DB.view_sessions (World.db w')) =
       [length (DB.view_sessions (World.db w))] /\
     length (DB.view_sessions (World.db w')) = S (length (DB.view_sessions (World.db w)))) /\
  (forall u ip ua,
     select_view_sessions vid sid 0 (DB.view_sessions (World.db w)) <> [] ->
     snd (VideoAnalyticsService.record_video_view env vid sid u ip ua w) = w) /\
  (forall c calls,
     select_view_sessions vid sid 0 (DB.view_sessions (World.db w)) = [] ->
     view_count_of vid (serve_views env vid sid (c :: calls) w)
       = Some (Video.view_count video + 1)) /\
  (forall c1 c2 c3,
     select_view_sessions vid sid 0 (DB.view_sessions (World.db w)) = [] ->
     view_count_of vid (serve_views env vid sid [c1; c2; c3] w)
       = Some (Video.view_count video + 1)).
Proof.
  intros Hv Hlen.
  assert (Hfirst : forall u ip ua,
     select_view_sessions vid sid 0 (DB.view_sessions (World.db w)) = [] ->
     let w' := snd (VideoAnalyticsService.record_video_view env vid sid u ip ua w) in
     view_count_of vid w' = Some (Video.view_count video + 1) /\
     select_view_sessions vid sid 0 (DB.view_sessions (World.db w')) =
       [length (DB.view_sessions (World.db w))] /\
     length (DB.view_sessions (World.db w')) = S (length (DB.view_sessions (World.db w)))).
  { intros u ip ua Hsel. rewrite (record_video_view_new env vid sid u ip ua w Hsel).
    unfold view_count_of. simpl. rewrite Hv. repeat split.
    - rewrite lookup_alter_eq, Hv. reflexivity.
    - now apply select_view_sessions_new.
    - rewrite length_app. simpl. lia. }
  assert (Hmany : forall c calls,
     select_view_sessions vid sid 0 (DB.view_sessions (World.db w)) = [] ->
     view_count_of vid (serve_views env vid sid (c :: calls) w)
       = Some (Video.view_count video + 1)).
  { intros c calls Hsel. simpl.
    destruct (Hfirst (view_user_id c) (view_ip_address c) (view_user_agent c) Hsel)
      as (Hcount & Hsel' & _).
    assert (Hclock : forall u ip ua,
      World.db (snd (VideoAnalyticsService.record_video_view env vid sid u ip ua
                       (set_clock (view_time c) w)))
      = DB.mk (DB.videos (World.db (snd (VideoAnalyticsService.record_video_view env vid sid
                                           u ip ua w))))
              (DB.upload_sessions (World.db w))
              (DB.view_sessions (World.db w) ++
                 [VideoViewSession.new (uuid4_value env (World.entropy w)) vid sid u ip ua
                    (view_time c)])).
    { intros u ip ua.
      rewrite (record_video_view_new env vid sid u ip ua w Hsel).
      rewrite (record_video_view_new env vid sid u ip ua (set_clock (view_time c) w) Hsel).
      reflexivity. }
    unfold view_count_of in *.
    destruct (serve_views_present env vid sid calls
                (snd (VideoAnalyticsService.record_video_view env vid sid (view_user_id c)
                        (view_ip_address c) (view_user_agent c) (set_clock (view_time c) w)))
                (length (DB.view_sessions (World.db w)))) as [-> _].
    - rewrite Hclock. simpl. now apply select_view_sessions_new.
    - rewrite Hclock. simpl. exact Hcount. }
  repeat split.
  - apply Hfirst; assumption.
  - apply Hfirst; assumption.
  - apply Hfirst; assumption.
  - intros u ip ua Hne. destruct (short_selection _ Hlen) as [Hsel|[i Hsel]]; [contradiction|].
    destruct (select_view_sessions_singleton _ _ _ _ Hsel) as (s & Hs & _).
    now rewrite (record_video_view_existing env vid sid u ip ua w i s).
  - exact Hmany.
  - intros c1 c2 c3. apply Hmany.
Qed.

Lemma C4_view_counted_once_witness :
  view_count_of "v1"
    (serve_views sample_env "v1" "s1"
       [Build_ViewCall 1 None (Some "10.0.0.1") None;
        Build_ViewCall 2 None (Some "10.0.0.1") None;
        Build_ViewCall 3 (Some "u7") (Some "10.0.0.2") None]
       (sample_world COMPLETED))
  = Some (Video.view_count (sample_video COMPLETED) + 1).
Proof.
  refine (proj2 (proj2 (proj2
            (C4_view_counted_once sample_env "v1" "s1" (sample_world COMPLETED)
               (sample_video COMPLETED) _ _))) _ _ _ _).
  - reflexivity.
  - simpl. lia.
  - reflexivity.
Defined.

(** ** The Python builtins on sample inputs *)

Example int_examples :
  Py.int_literal "100" = Some 100 /\ Py.int_literal " 1_0 " = Some 10 /\
  Py.int_literal "+5" = Some 5 /\ Py.int_literal "abc" = None /\
  Py.int_literal "" = None /\ Py.int_literal "1__0" = None /\
  Py.int_literal "_1" = None /\ Py.int_literal "+ 5" = None /\
  Py.int_literal "00012" = Some 12 /\ Py.int_literal "1_" = None.
Proof. repeat split; reflexivity. Qed.

(** What [int] refuses: the message quotes the argument as [repr] prints
    it, and a literal of more than 4300 digits is refused even when
    something invalid follows its digits. *)
Example int_refusals :
  Py.int "abc" = Py.Raise (Py.ValueError "invalid literal for int() with base 10: 'abc'") /\
  Py.int "a'b" =
    Py.Raise (Py.ValueError
                ("invalid literal for int() with base 10: "
                   +:+ String Py.double_quote ("a'b" +:+ String Py.double_quote ""))) /\
  Py.int_scan (string_of_list_ascii (repeat "9"%char 4300)) <> Py.Invalid /\
  Py.int_scan (string_of_list_ascii (repeat "0"%char 4301)) = Py.TooLong 4301 /\
  Py.int_scan (string_of_list_ascii (repeat "1"%char 4301) +:+ "x") = Py.TooLong 4301 /\
  Py.int_scan (string_of_list_ascii (repeat "1"%char 4301) +:+ "_") = Py.Invalid /\
  Py.int_literal (string_of_list_ascii (repeat "1"%char 4301)) = None.
Proof. split_and!; vm_compute; try reflexivity. discriminate. Qed.

Example replace_split_examples :
  Py.split "-" (Py.replace "bytes=" "" "abcbytes=bytes=1-2") = ["abc1"; "2"]%string /\
  Py.split "-" "" = [""]%string /\ Py.split "-" "-" = [""; ""]%string /\
  Py.split "-" "a--b" = ["a"; ""; "b"]%string.
Proof. repeat split; reflexivity. Qed.

Example slice_examples :
  Py.slice [1; 2; 3] 5 2 = [] /\ Py.slice [1; 2; 3; 4; 5; 6] 2 100 = [3; 4; 5; 6] /\
  Py.slice [1; 2; 3] 0 0 = [] /\ Py.slice [1; 2; 3] (-2) 3 = [2; 3].
Proof. repeat split; reflexivity. Qed.

(** ** Printing and reading integers *)

Lemma int_digits_uint d k acc :
  Py.int_digits k acc false (list_ascii_of_string (NilEmpty.string_of_uint d))
  = Some ((k + String.length (NilEmpty.string_of_uint d))%nat, uint_value d acc, []).
Proof.
  revert k acc. induction d; intros k acc;
    cbn [NilEmpty.string_of_uint list_ascii_of_string Py.int_digits uint_value String.length];
    [now rewrite Nat.add_0_r | ..];
    (replace (Py.is_digit _) with true by reflexivity);
    rewrite IHd, Nat.add_succ_r; cbn [Nat.add];
    match goal with
    | |- Some (_, uint_value _ ?a, _) = Some (_, uint_value _ ?b, _) =>
        replace a with b by (vm_compute Py.digit_value; lia)
    end; reflexivity.
Qed.

Lemma uint_value_acc d acc :
  uint_value d (Z.pos acc) = Z.pos (Pos.of_uint_acc d acc).
Proof.
  revert acc. induction d; intros acc; simpl; [reflexivity | rewrite <- IHd; f_equal; lia ..].
Qed.

Lemma uint_value_of_uint d : uint_value d 0 = Z.of_N (Pos.of_uint d).
Proof.
  induction d; simpl; [reflexivity | assumption | apply (uint_value_acc d) ..].
Qed.

Lemma all_digits_uint d : all_digits (NilEmpty.string_of_uint d).
Proof.
  unfold all_digits. induction d; simpl; constructor; auto.
Qed.

Lemma digit_is_not_space c : Py.is_digit c = true -> Py.is_int_space c = false.
Proof.
  destruct c as [[] [] [] [] [] [] [] []]; intros H; try reflexivity; discriminate H.
Qed.

Lemma digit_is_plain c :
  Py.is_digit c = true ->
  Ascii.eqb c "+" = false /\ Ascii.eqb c "-" = false /\ Ascii.eqb c "b" = false.
Proof.
  destruct c as [[] [] [] [] [] [] [] []]; intros H; try (repeat split; reflexivity);
    discriminate H.
Qed.

Lemma lstrip_digits l :
  Forall (fun c => Py.is_digit c = true) l -> Py.lstrip l = l.
Proof.
  intros H. destruct H as [|c l Hc Hl]; [reflexivity|].
  simpl. now rewrite (digit_is_not_space c Hc).
Qed.

Lemma strip_digits l :
  Forall (fun c => Py.is_digit c = true) l -> Py.strip l = l.
Proof.
  intros H. unfold Py.strip. rewrite (lstrip_digits l H).
  rewrite lstrip_digits by (now apply Forall_rev). apply rev_involutive.
Qed.

Lemma str_int_nonneg n :
  0 <= n ->
  exists d, d <> Decimal.Nil /\ Py.str_int n = NilEmpty.string_of_uint d /\
            uint_value d 0 = n.
Proof.
  intros Hn. unfold Py.str_int. destruct n as [|p|p]; [| |lia].
  - exists (Decimal.D0 Decimal.Nil). repeat split. discriminate.
  - exists (Pos.to_uint p).
    assert (Hnil : Pos.to_uint p <> Decimal.Nil).
    { intros E. pose proof (DecimalPos.Unsigned.of_to p) as H. rewrite E in H. discriminate H. }
    repeat split; [assumption| |].
    + simpl. unfold NilZero.string_of_uint. now destruct (Pos.to_uint p).
    + rewrite uint_value_of_uint, DecimalPos.Unsigned.of_to. reflexivity.
Qed.

(** A numeral is read as its value, unless it has too many digits. *)
Lemma int_unsigned_uint d :
  d <> Decimal.Nil ->
  Py.int_unsigned (list_ascii_of_string (NilEmpty.string_of_uint d)) =
    if (Py.max_str_digits <? String.length (NilEmpty.string_of_uint d))%nat
    then Py.TooLong (String.length (NilEmpty.string_of_uint d))
    else Py.Value (uint_value d 0).
Proof.
  intros Hd. destruct d; [congruence | ..];
    cbn [NilEmpty.string_of_uint list_ascii_of_string Py.int_unsigned uint_value
           String.length];
    (replace (Py.is_digit _) with true by reflexivity);
    rewrite int_digits_uint; change (1 + ?n)%nat with (S n);
    destruct (Py.max_str_digits <? _)%nat; try reflexivity;
    do 2 f_equal.
Qed.

Lemma int_scan_digits s :
  all_digits s ->
  Py.int_scan s = Py.int_unsigned (list_ascii_of_string s).
Proof.
  intros H. unfold Py.int_scan. rewrite strip_digits by exact H.
  unfold all_digits in H. destruct H as [|c l Hc Hl]; [reflexivity|].
  destruct (digit_is_plain c Hc) as (-> & -> & _). reflexivity.
Qed.

Lemma int_scan_str_int n :
  0 <= n ->
  Py.int_scan (Py.str_int n) =
    if (Py.max_str_digits <? String.length (Py.str_int n))%nat
    then Py.TooLong (String.length (Py.str_int n))
    else Py.Value n.
Proof.
  intros Hn. destruct (str_int_nonneg n Hn) as (d & Hd & -> & Hval).
  rewrite int_scan_digits by apply all_digits_uint.
  now rewrite int_unsigned_uint, Hval.
Qed.

(** [int(str(n)) == n] for a natural number [n] below the digit limit. *)
Lemma int_str_int n :
  0 <= n -> (String.length (Py.str_int n) <= Py.max_str_digits)%nat ->
  Py.int (Py.str_int n) = Py.Ok n.
Proof.
  intros Hn Hlen. unfold Py.int. rewrite int_scan_str_int by assumption.
  destruct (Nat.ltb_spec Py.max_str_digits (String.length (Py.str_int n))); [lia|reflexivity].
Qed.

(** Above the limit [int] refuses the numeral it is given. *)
Lemma int_str_int_too_long n :
  0 <= n -> (Py.max_str_digits < String.length (Py.str_int n))%nat ->
  exists msg, Py.int (Py.str_int n) = Py.Raise (Py.ValueError msg).
Proof.
  intros Hn Hlen. unfold Py.int. rewrite int_scan_str_int by assumption.
  destruct (Nat.ltb_spec Py.max_str_digits (String.length (Py.str_int n))); [eauto|lia].
Qed.

Lemma str_int_digits n : 0 <= n -> all_digits (Py.str_int n) /\ Py.str_int n <> EmptyString.
Proof.
  intros Hn. destruct (str_int_nonneg n Hn) as (d & Hd & -> & _).
  split; [apply all_digits_uint|]. now destruct d.
Qed.

(** ** Reading the [Range] header *)

Lemma all_digits_cons c s :
  all_digits (String c s) <-> Py.is_digit c = true /\ all_digits s.
Proof.
  unfold all_digits. simpl. split.
  - intros H. inversion H; subst. auto.
  - intros [Hc Hs]. constructor; assumption.
Qed.

Lemma all_digits_empty : all_digits EmptyString.
Proof. constructor. Qed.

Lemma split_digits b : all_digits b -> Py.split "-" b = [b].
Proof.
  induction b as [|c b IH]; intros H; [reflexivity|].
  apply all_digits_cons in H as [Hc Hb]. cbn [Py.split].
  destruct (digit_is_plain c Hc) as (_ & -> & _). now rewrite IH.
Qed.

Lemma split_range a b :
  all_digits a -> all_digits b -> Py.split "-" (a +:+ "-" +:+ b) = [a; b].
Proof.
  intros Ha Hb. induction a as [|c a IH].
  - simpl. now rewrite split_digits.
  - apply all_digits_cons in Ha as [Hc Ha].
    change (String c a +:+ "-" +:+ b) with (String c (a +:+ "-" +:+ b)).
    cbn [Py.split].
    destruct (digit_is_plain c Hc) as (_ & -> & _). now rewrite IH.
Qed.

Lemma replace_digits b :
  all_digits b -> Py.replace_go "bytes=" "" 0 b = b.
Proof.
  induction b as [|c b IH]; intros H; [reflexivity|].
  apply all_digits_cons in H as [Hc Hb]. cbn [Py.replace_go Py.startswith].
  destruct (digit_is_plain c Hc) as (_ & _ & Hne).
  rewrite Ascii.eqb_sym, Hne. now rewrite IH.
Qed.

Lemma replace_range a b :
  all_digits a -> all_digits b ->
  Py.replace "bytes=" "" ("bytes=" +:+ a +:+ "-" +:+ b) = a +:+ "-" +:+ b.
Proof.
  intros Ha Hb. change (Py.replace "bytes=" "" ("bytes=" +:+ a +:+ "-" +:+ b))
    with (Py.replace_go "bytes=" "" 0 (a +:+ "-" +:+ b)).
  induction a as [|c a IH].
  - simpl. now rewrite replace_digits.
  - apply all_digits_cons in Ha as [Hc Ha].
    change (String c a +:+ "-" +:+ b) with (String c (a +:+ "-" +:+ b)).
    cbn [Py.replace_go Py.startswith].
    destruct (digit_is_plain c Hc) as (_ & _ & Hne).
    rewrite Ascii.eqb_sym, Hne. now rewrite IH.
Qed.

Lemma numeral_digits o :
  (forall n, o = Some n -> 0 <= n) -> all_digits (numeral o).
Proof.
  intros H. destruct o as [n|]; simpl; [|apply all_digits_empty].
  apply str_int_digits. now apply H.
Qed.

(** A bound of the header read back: the number written, or the default
    when the bound is left out. *)
Lemma numeral_read o dflt :
  (forall n, o = Some n -> 0 <= n) ->
  (String.length (numeral o) <= Py.max_str_digits)%nat ->
  (if Py.truthy_str (numeral o) then Py.int (numeral o) else Py.Ok dflt)
  = Py.Ok (default dflt o).
Proof.
  intros H Hlen. destruct o as [n|]; cbn [numeral default] in *; [|reflexivity].
  destruct (str_int_digits n (H n eq_refl)) as [_ Hne].
  rewrite int_str_int by (auto).
  now destruct (Py.str_int n).
Qed.

Lemma slice_length {A} (l : list A) lo hi :
  0 <= lo -> 0 <= hi ->
  Py.len (Py.slice l lo hi) = Z.max 0 (Z.min hi (Py.len l) - Z.min lo (Py.len l)).
Proof.
  intros Hlo Hhi. unfold Py.slice, Py.slice_index, Py.len.
  destruct (Z.ltb_spec lo 0); [lia|]. destruct (Z.ltb_spec hi 0); [lia|].
  rewrite length_take, length_drop. lia.
Qed.

(** ** The streaming endpoint evaluated *)

Lemma respond_range env file_type content start end_ :
  (forall n, start = Some n -> 0 <= n) ->
  (forall n, end_ = Some n -> 0 <= n) ->
  (String.length (numeral start) <= Py.max_str_digits)%nat ->
  (String.length (numeral end_) <= Py.max_str_digits)%nat ->
  exists resp,
    api.respond env file_type content (Some (range_header start end_)) = Py.Ok resp /\
    Response.status_code resp = 206 /\
    Response.headers resp !! "Content-Range" =
      Some ("bytes " +:+ Py.str_int (default 0 start) +:+ "-"
              +:+ Py.str_int (default (Py.len content - 1) end_)
              +:+ "/" +:+ Py.str_int (Py.len content)) /\
    Response.body resp =
      Content (Py.slice content (default 0 start)
                 (default (Py.len content - 1) end_ + 1)).
Proof.
  intros Hs He Hsl Hel. unfold api.respond.
  replace (Py.truthy_opt_str (Some (range_header start end_))) with true by reflexivity.
  change (default "" (Some (range_header start end_))) with (range_header start end_).
  unfold range_header.
  rewrite replace_range, split_range by (now apply numeral_digits).
  cbn [lookup list_lookup].
  rewrite (numeral_read start 0 Hs Hsl), (numeral_read end_ (Py.len content - 1) He Hel).
  eexists. split; [reflexivity|]. cbn [Response.status_code Response.headers Response.body].
  repeat split.
Qed.

(** A bound beyond the digit limit makes [int] fail, the first bound
    before the second. *)
Lemma numeral_too_long o dflt :
  (forall n, o = Some n -> 0 <= n) ->
  (Py.max_str_digits < String.length (numeral o))%nat ->
  exists msg,
    (if Py.truthy_str (numeral o) then Py.int (numeral o) else Py.Ok dflt)
    = Py.Raise (Py.ValueError msg).
Proof.
  intros H Hlen. destruct o as [n|]; cbn [numeral String.length] in *; [|lia].
  destruct (str_int_digits n (H n eq_refl)) as [_ Hne].
  destruct (int_str_int_too_long n (H n eq_refl) Hlen) as [msg ->].
  exists msg. now destruct (Py.str_int n).
Qed.

Lemma respond_range_too_long env file_type content start end_ :
  (forall n, start = Some n -> 0 <= n) ->
  (forall n, end_ = Some n -> 0 <= n) ->
  (Py.max_str_digits < String.length (numeral start))%nat \/
  (Py.max_str_digits < String.length (numeral end_))%nat ->
  exists msg,
    api.respond env file_type content (Some (range_header start end_))
    = Py.Raise (Py.ValueError msg).
Proof.
  intros Hs He Hlong. unfold api.respond.
  replace (Py.truthy_opt_str (Some (range_header start end_))) with true by reflexivity.
  change (default "" (Some (range_header start end_))) with (range_header start end_).
  unfold range_header.
  rewrite replace_range, split_range by (now apply numeral_digits).
  cbn [lookup list_lookup].
  destruct (Nat.le_gt_cases (String.length (numeral start)) Py.max_str_digits) as [Hsl|Hsl].
  - rewrite (numeral_read start 0 Hs Hsl).
    destruct Hlong as [Hlong|Hlong]; [lia|].
    destruct (numeral_too_long end_ (Py.len content - 1) He Hlong) as [msg ->]. eauto.
  - destruct (numeral_too_long start 0 Hs Hsl) as [msg ->]. eauto.
Qed.

(** Recording a view succeeds when the pair has at most one session; it
    leaves the object store alone and changes nothing of a video but its
    view counter. *)
Lemma record_video_view_frame env vid sid u ip ua w :
  (length (select_view_sessions vid sid 0 (DB.view_sessions (World.db w))) <= 1)%nat ->
  exists s w',
    VideoAnalyticsService.record_video_view env vid sid u ip ua w = (Py.Ok s, w') /\
    World.storage w' = World.storage w /\
    forall video, DB.videos (World.db w) !! vid = Some video ->
      exists video', DB.videos (World.db w') !! vid = Some video' /\
        Video.status video' = Video.status video /\
        Video.file_path video' = Video.file_path video.
Proof.
  intros Hlen. destruct (short_selection _ Hlen) as [Hsel|[i Hsel]].
  - eexists _, _. split; [apply (record_video_view_new env vid sid u ip ua w Hsel)|].
    simpl. split; [reflexivity|]. intros video Hv. rewrite Hv.
    rewrite lookup_alter_eq, Hv. simpl. eauto.
  - destruct (select_view_sessions_singleton _ _ _ _ Hsel) as (s & Hs & _).
    eexists _, _. split; [apply (record_video_view_existing env vid sid u ip ua w i s Hsel Hs)|].
    split; [reflexivity|]. eauto.
Qed.

(** On a completed video whose object is in the store the endpoint answers
    what [respond] builds, and turns an exception of [respond] into a 500. *)
Lemma stream_video_served env vid request w video content :
  DB.videos (World.db w) !! vid = Some video ->
  Video.status video = COMPLETED ->
  World.storage w !! Video.file_path video = Some content ->
  (length (select_view_sessions vid (session_of env w request) 0
             (DB.view_sessions (World.db w))) <= 1)%nat ->
  fst (api.stream_video env vid request w) =
    match api.respond env (Video.file_type video) content (Request.range request) with
    | Py.Ok resp => Py.Ok resp
    | Py.Raise e => Py.Raise (Py.HTTPException 500 ("Streaming failed: " +:+ Py.str_exn e))
    end.
Proof.
  intros Hv Hst Hobj Hlen. unfold api.stream_video.
  unfold mbind at 1, M_bind at 1, bind at 1, get_video_by_id, gets. rewrite Hv.
  destruct (decide (Video.status video = COMPLETED)) as [_|]; [|contradiction].
  unfold mbind at 1, M_bind at 1, bind at 1.
  replace (uuid4 env w) with (Py.Ok (uuid4_value env (World.entropy w)),
                               World.set_entropy (S (World.entropy w)) w) by reflexivity.
  fold (session_of env w request).
  destruct (record_video_view_frame env vid (session_of env w request) None
              (Some (Request.client_host request)) (Request.user_agent request)
              (World.set_entropy (S (World.entropy w)) w) Hlen)
    as (s & w' & Hrec & Hsto & Hframe).
  destruct (Hframe video Hv) as (video' & Hv' & Hst' & Hpath').
  unfold mbind at 1, M_bind at 1, bind at 1. rewrite Hrec.
  unfold VideoService.stream_video_content. run.
  rewrite Hv'. destruct (decide (Video.status video' = COMPLETED)) as [_|Hne];
    [|congruence].
  run. rewrite Hsto. simpl. rewrite Hpath', Hobj. run.
  now destruct (api.respond env (Video.file_type video) content (Request.range request)).
Qed.

(** ** The streaming fallback *)

Lemma slice_chunk {A} (l : list A) (a c : nat) :
  Py.slice l (Z.of_nat a) (Z.of_nat a + Z.of_nat c) = take c (drop a l).
Proof.
  unfold Py.slice, Py.slice_index, Py.len.
  destruct (Z.ltb_spec (Z.of_nat a) 0); [lia|].
  destruct (Z.ltb_spec (Z.of_nat a + Z.of_nat c) 0); [lia|].
  destruct (Nat.le_gt_cases a (length l)) as [Hle|Hgt].
  - replace (Z.to_nat (Z.of_nat a `min` Z.of_nat (length l))) with a by lia.
    destruct (Nat.le_gt_cases (a + c) (length l)).
    + f_equal. lia.
    + rewrite !take_ge; [reflexivity|rewrite length_drop; lia..].
  - rewrite !drop_ge by lia. now rewrite !take_nil.
Qed.

Lemma chunks_concat {A} (l : list A) (c : nat) n j :
  (0 < c)%nat -> (length l <= (j + n) * c)%nat ->
  concat (map (fun i => Py.slice l i (i + Z.of_nat c))
            (map (fun k => Z.of_nat k * Z.of_nat c) (seq j n))) = drop (j * c) l.
Proof.
  intros Hc. revert j. induction n as [|n IH]; intros j Hlen; simpl.
  - rewrite drop_ge by lia. reflexivity.
  - rewrite IH by lia.
    replace (Z.of_nat j * Z.of_nat c) with (Z.of_nat (j * c)) by lia.
    rewrite slice_chunk.
    replace (S j * c)%nat with (j * c + c)%nat by lia.
    rewrite <- drop_drop. apply take_drop.
Qed.

Lemma chunks_concat_full {A} (l : list A) (c : Z) n :
  0 < c -> Py.len l <= Z.of_nat n * c ->
  concat (map (fun i => Py.slice l i (i + c))
            (map (fun k => Z.of_nat k * c) (seq 0 n))) = l.
Proof.
  intros Hc Hlen. remember (Z.to_nat c) as c' eqn:E.
  replace c with (Z.of_nat c') in * by lia.
  rewrite (chunks_concat l c' n 0); [reflexivity|lia|].
  unfold Py.len in Hlen. lia.
Qed.

Lemma generate_full env content :
  0 < STREAMING_CHUNK_SIZE env ->
  exists chunks, api.generate env content = Py.Ok chunks /\ concat chunks = content.
Proof.
  intros Hc. unfold api.generate, api.range.
  destruct (Z.eqb_spec (STREAMING_CHUNK_SIZE env) 0); [lia|].
  destruct (Z.ltb_spec (STREAMING_CHUNK_SIZE env) 0); [lia|].
  eexists. split; [reflexivity|].
  set (c := STREAMING_CHUNK_SIZE env) in *.
  apply chunks_concat_full; [assumption|].
  pose proof (Z.div_mod (Py.len content + c - 1) c ltac:(lia)).
  pose proof (Z.mod_pos_bound (Py.len content + c - 1) c ltac:(lia)).
  assert (0 <= (Py.len content + c - 1) / c) by (apply Z.div_pos; unfold Py.len; lia).
  rewrite Z2Nat.id by assumption. nia.
Qed.

Lemma split_nonempty sep s : Py.split sep s <> [].
Proof.
  induction s as [|c s IH]; simpl; [discriminate|].
  destruct (Ascii.eqb c sep); [discriminate|]. now destruct (Py.split sep s).
Qed.

Lemma int_unreadable s : Py.int_literal s = None -> exists e, Py.int s = Py.Raise e.
Proof.
  unfold Py.int_literal, Py.int. destruct (Py.int_scan s); intros H; eauto; discriminate.
Qed.

Lemma truthy_str_nonempty s : s <> EmptyString -> Py.truthy_str s = true.
Proof. now destruct s. Qed.

Lemma respond_nonempty_range env file_type content h :
  h <> EmptyString ->
  (exists resp, api.respond env file_type content (Some h) = Py.Ok resp /\
                Response.status_code resp = 206) \/
  (exists e, api.respond env file_type content (Some h) = Py.Raise e).
Proof.
  intros Hh. unfold api.respond.
  replace (Py.truthy_opt_str (Some h)) with true by (symmetry; now apply truthy_str_nonempty).
  repeat match goal with
         | |- context [match ?x with _ => _ end] =>
             match type of x with
             | Py.result _ => destruct x
             end
         end; eauto.
Qed.

Lemma respond_unreadable_range env file_type content h :
  h <> EmptyString -> unreadable_range h ->
  exists e, api.respond env file_type content (Some h) = Py.Raise e.
Proof.
  intros Hh Hbad. unfold api.respond.
  replace (Py.truthy_opt_str (Some h)) with true by (symmetry; now apply truthy_str_nonempty).
  change (default "" (Some h)) with h. unfold unreadable_range in Hbad.
  pose proof (split_nonempty "-" (Py.replace "bytes=" "" h)) as Hne.
  destruct (Py.split "-" (Py.replace "bytes=" "" h)) as [|a [|b rest]];
    [congruence| |]; cbn [lookup list_lookup] in *.
  - destruct (if Py.truthy_str a then Py.int a else Py.Ok 0); eauto.
  - destruct Hbad as [Hlen|(s & [Hs|Hs] & Hs0 & Hlit)]; [simpl in Hlen; lia | |].
    + inversion Hs; subst. rewrite (truthy_str_nonempty s Hs0).
      destruct (int_unreadable s Hlit) as [e ->]. eauto.
    + inversion Hs; subst. rewrite (truthy_str_nonempty s Hs0).
      destruct (int_unreadable s Hlit) as [e ->].
      destruct (if Py.truthy_str a then Py.int a else Py.Ok 0); eauto.
Qed.

(** ** Range delivery *)

(** C1 (as amended): for a stored object and a header [bytes=start-end]
    (either bound may be left out) whose bounds are written with at most
    4300 digits, the most [int] reads, the endpoint takes [start] as
    written or 0 and [end] as written or [totalLength - 1], does not clamp
    [end], and answers 206 with [Content-Range: bytes
    start-end/totalLength] and the slice [content[start:end+1]] as body.
    The body has [max 0 (min (end+1) totalLength - min start totalLength)]
    bytes, which is [end - start + 1] whenever
    [start <= end < totalLength].  When a bound has more digits, the
    request fails with a 500 "Streaming failed" error. *)
Theorem C1_range_response env vid request w video content start end_ :
  DB.videos (World.db w) !! vid = Some video ->
  Video.status video = COMPLETED ->
  World.storage w !! Video.file_path video = Some content ->
  (length (select_view_sessions vid (session_of env w request) 0
             (DB.view_sessions (World.db w))) <= 1)%nat ->
  (forall n, start = Some n -> 0 <= n) ->
  (forall n, end_ = Some n -> 0 <= n) ->
  Request.range request = Some (range_header start end_) ->
  ((String.length (numeral start) <= Py.max_str_digits)%nat ->
   (String.length (numeral end_) <= Py.max_str_digits)%nat ->
   exists resp,
     fst (api.stream_video env vid request w) = Py.Ok resp /\
     Response.status_code resp = 206 /\
     Response.headers resp !! "Content-Range" =
       Some ("bytes " +:+ Py.str_int (default 0 start) +:+ "-"
               +:+ Py.str_int (default (Py.len content - 1) end_)
               +:+ "/" +:+ Py.str_int (Py.len content)) /\
     Response.body resp =
       Content (Py.slice content (default 0 start)
                  (default (Py.len content - 1) end_ + 1)) /\
     Py.len (Py.slice content (default 0 start) (default (Py.len content - 1) end_ + 1)) =
       Z.max 0 (Z.min (default (Py.len content - 1) end_ + 1) (Py.len content)
                - Z.min (default 0 start) (Py.len content)) /\
     (default 0 start <= default (Py.len content - 1) end_ < Py.len content ->
      Py.len (Py.slice content (default 0 start) (default (Py.len content - 1) end_ + 1)) =
        default (Py.len content - 1) end_ - default 0 start + 1)) /\
  ((Py.max_str_digits < String.length (numeral start))%nat \/
   (Py.max_str_digits < String.length (numeral end_))%nat ->
   exists detail,
     fst (api.stream_video env vid request w) =
       Py.Raise (Py.HTTPException 500 ("Streaming failed: " +:+ detail))).
Proof.
  intros Hv Hst Hobj Hlen Hs He Hrange.
  rewrite (stream_video_served env vid request w video content Hv Hst Hobj Hlen), Hrange.
  split.
  - intros Hsl Hel.
    destruct (respond_range env (Video.file_type video) content start end_ Hs He Hsl Hel)
      as (resp & -> & Hcode & Hcr & Hbody).
    assert (H0 : 0 <= default 0 start) by (destruct start; simpl; [now apply Hs|lia]).
    assert (H1 : 0 <= default (Py.len content - 1) end_ + 1).
    { destruct end_ as [n|]; simpl; [specialize (He n eq_refl)|unfold Py.len]; lia. }
    exists resp. split_and!; try assumption; try reflexivity.
    + now apply slice_length.
    + intros Hin. rewrite slice_length by assumption. lia.
  - intros Hlong.
    destruct (respond_range_too_long env (Video.file_type video) content start end_
                Hs He Hlong) as (msg & ->).
    eauto.
Qed.

Lemma C1_range_response_witness :
  exists resp,
    fst (api.stream_video sample_env "v1" (sample_request (Some "bytes=100-199"))
           (sample_world COMPLETED)) = Py.Ok resp /\
    Response.status_code resp = 206 /\
    Response.headers resp !! "Content-Range" =
      Some ("bytes " +:+ Py.str_int (default 0 (Some 100)) +:+ "-"
              +:+ Py.str_int (default (Py.len (repeat x2a 1000) - 1) (Some 199))
              +:+ "/" +:+ Py.str_int (Py.len (repeat x2a 1000))) /\
    Response.body resp =
      Content (Py.slice (repeat x2a 1000) (default 0 (Some 100))
                 (default (Py.len (repeat x2a 1000) - 1) (Some 199) + 1)) /\
    Py.len (Py.slice (repeat x2a 1000) (default 0 (Some 100))
              (default (Py.len (repeat x2a 1000) - 1) (Some 199) + 1)) =
      Z.max 0 (Z.min (default (Py.len (repeat x2a 1000) - 1) (Some 199) + 1)
                 (Py.len (repeat x2a 1000))
               - Z.min (default 0 (Some 100)) (Py.len (repeat x2a 1000))) /\
    (default 0 (Some 100) <= default (Py.len (repeat x2a 1000) - 1) (Some 199)
       < Py.len (repeat x2a 1000) ->
     Py.len (Py.slice (repeat x2a 1000) (default 0 (Some 100))
               (default (Py.len (repeat x2a 1000) - 1) (Some 199) + 1)) =
       default (Py.len (repeat x2a 1000) - 1) (Some 199) - default 0 (Some 100) + 1).
Proof.
  refine (proj1 (C1_range_response sample_env "v1" (sample_request (Some "bytes=100-199"))
                   (sample_world COMPLETED) (sample_video COMPLETED) (repeat x2a 1000)
                   (Some 100) (Some 199) _ _ _ _ _ _ _) _ _).
  - reflexivity.
  - reflexivity.
  - reflexivity.
  - simpl. lia.
  - intros n [= <-]. lia.
  - intros n [= <-]. lia.
  - reflexivity.
  - apply Nat.leb_le. reflexivity.
  - apply Nat.leb_le. reflexivity.
Defined.

(** C1 (counterexample): on the 1000-byte sample object the header
    [bytes=100-5000] is answered with [Content-Range: bytes 100-5000/1000],
    where a clamped end would read 999, and with 900 bytes, which is not
    [5000 - 100 + 1]; the header [bytes=2000-] is answered with an empty
    body under [Content-Range: bytes 2000-999/1000]. *)
Lemma C1_range_end_not_clamped :
  (exists resp body,
     fst (api.stream_video sample_env "v1" (sample_request (Some "bytes=100-5000"))
            (sample_world COMPLETED)) = Py.Ok resp /\
     Response.status_code resp = 206 /\
     Response.headers resp !! "Content-Range" = Some "bytes 100-5000/1000" /\
     Response.headers resp !! "Content-Range" <> Some "bytes 100-999/1000" /\
     Response.body resp = Content body /\
     Py.len body = 900 /\ Py.len body <> 5000 - 100 + 1) /\
  (exists resp,
     fst (api.stream_video sample_env "v1" (sample_request (Some "bytes=2000-"))
            (sample_world COMPLETED)) = Py.Ok resp /\
     Response.headers resp !! "Content-Range" = Some "bytes 2000-999/1000" /\
     Response.body resp = Content [] /\
     Py.len (@nil byte) <> 999 - 2000 + 1).
Proof.
  split.
  - eexists _, _. split; [vm_compute; reflexivity|].
    repeat split; try reflexivity; discriminate.
  - eexists. split; [vm_compute; reflexivity|].
    repeat split; try reflexivity; discriminate.
Qed.

(** C8 (as amended): a [Range] header that is present and non-empty never
    gets the 200 answer an absent header gets: the endpoint answers 206, or
    fails with a 500 "Streaming failed" error, and it fails whenever the
    header is unreadable (fewer than two parts once ["bytes="] is removed
    and the rest split at ["-"], or a non-empty part among the first two
    that is not an integer literal).  Only an absent or empty header gets
    status 200 with [Accept-Ranges: bytes], the no-cache [Cache-Control]
    and, for a positive chunk size, the whole object as body. *)
Theorem C8_unreadable_range_is_rejected env vid request w video content :
  DB.videos (World.db w) !! vid = Some video ->
  Video.status video = COMPLETED ->
  World.storage w !! Video.file_path video = Some content ->
  (length (select_view_sessions vid (session_of env w request) 0
             (DB.view_sessions (World.db w))) <= 1)%nat ->
  (forall h, Request.range request = Some h -> h <> EmptyString ->
     (exists resp, fst (api.stream_video env vid request w) = Py.Ok resp /\
                   Response.status_code resp = 206) \/
     (exists detail, fst (api.stream_video env vid request w) =
                       Py.Raise (Py.HTTPException 500 ("Streaming failed: " +:+ detail)))) /\
  (forall h, Request.range request = Some h -> h <> EmptyString -> unreadable_range h ->
     exists detail, fst (api.stream_video env vid request w) =
                      Py.Raise (Py.HTTPException 500 ("Streaming failed: " +:+ detail))) /\
  (Request.range request = None \/ Request.range request = Some EmptyString ->
     exists resp,
       fst (api.stream_video env vid request w) = Py.Ok resp /\
       Response.status_code resp = 200 /\
       Response.headers resp !! "Accept-Ranges" = Some "bytes" /\
       Response.headers resp !! "Cache-Control" = Some "no-cache, no-store, must-revalidate" /\
       Response.body resp = Streaming (api.generate env content) /\
       (0 < STREAMING_CHUNK_SIZE env ->
        exists chunks, api.generate env content = Py.Ok chunks /\ concat chunks = content)).
Proof.
  intros Hv Hst Hobj Hlen.
  rewrite (stream_video_served env vid request w video content Hv Hst Hobj Hlen).
  repeat split.
  - intros h -> Hh.
    destruct (respond_nonempty_range env (Video.file_type video) content h Hh)
      as [(resp & -> & Hcode)|(e & ->)]; eauto.
  - intros h -> Hh Hbad.
    destruct (respond_unreadable_range env (Video.file_type video) content h Hh Hbad)
      as (e & ->). eauto.
  - intros Hnone.
    assert (Hresp : api.respond env (Video.file_type video) content (Request.range request)
                    = api.respond env (Video.file_type video) content None)
      by (destruct Hnone as [-> | ->]; reflexivity).
    rewrite Hresp. eexists. split; [reflexivity|].
    repeat split. apply generate_full.
Qed.

Lemma C8_unreadable_range_is_rejected_witness :
  exists detail,
    fst (api.stream_video sample_env "v1" (sample_request (Some "bytes=abc"))
           (sample_world COMPLETED)) =
      Py.Raise (Py.HTTPException 500 ("Streaming failed: " +:+ detail)).
Proof.
  refine (proj1 (proj2 (C8_unreadable_range_is_rejected sample_env "v1"
            (sample_request (Some "bytes=abc")) (sample_world COMPLETED)
            (sample_video COMPLETED) (repeat x2a 1000) _ _ _ _)) "bytes=abc" _ _ _).
  - reflexivity.
  - reflexivity.
  - reflexivity.
  - simpl. lia.
  - reflexivity.
  - discriminate.
  - right. exists "abc". repeat split; [left; reflexivity | discriminate].
Defined.

(** C8 (counterexample): the header [bytes=abc] on the completed sample
    video is not treated as absent: the request fails with a 500, where the
    same request without the header is answered 200. *)
Lemma C8_malformed_range_fails :
  fst (api.stream_video sample_env "v1" (sample_request (Some "bytes=abc"))
         (sample_world COMPLETED)) =
    Py.Raise (Py.HTTPException 500
                "Streaming failed: invalid literal for int() with base 10: 'abc'") /\
  (exists resp,
     fst (api.stream_video sample_env "v1" (sample_request None)
            (sample_world COMPLETED)) = Py.Ok resp /\
     Response.status_code resp = 200) /\
  fst (api.stream_video sample_env "v1" (sample_request (Some "bytes=abc"))
         (sample_world COMPLETED)) <>
  fst (api.stream_video sample_env "v1" (sample_request None) (sample_world COMPLETED)).
Proof.
  split; [vm_compute; reflexivity|]. split.
  - eexists. split; [vm_compute; reflexivity|reflexivity].
  - vm_compute. discriminate.
Qed.

(** ** Thumbnail regeneration *)

Ltac branch :=
  match goal with
  | |- context [match ?x with _ => _ end] =>
      lazymatch x with
      | context [match _ with _ => _ end] => fail
      | _ => destruct x eqn:?
      end
  end.

Lemma thumbnail_object_name_truthy video_id :
  Py.truthy_str (thumbnail_object_name video_id) = true.
Proof. reflexivity. Qed.

Lemma generate_video_thumbnail_sync_frame env content video_id w :
  exists r w',
    tasks.generate_video_thumbnail_sync env content video_id w = (Py.Ok r, w') /\
    World.db w' = World.db w /\ World.commits w' = World.commits w /\
    (r = None \/ r = Some (thumbnail_object_name video_id)).
Proof.
  unfold tasks.generate_video_thumbnail_sync. run.
  repeat (branch; run); eexists _, _; (split; [reflexivity|]); auto.
Qed.

Lemma generate_video_thumbnail_task_run env video_id w :
  (exists e w',
     tasks.generate_video_thumbnail_task env video_id w = (Py.Raise e, w') /\
     World.db w' = World.db w /\ World.commits w' = World.commits w)
  \/
  (exists res w',
     tasks.generate_video_thumbnail_task env video_id w = (Py.Ok res, w') /\
     World.db w' =
       DB.mk (alter (with_thumbnail video_id) video_id (DB.videos (World.db w)))
         (DB.upload_sessions (World.db w)) (DB.view_sessions (World.db w)) /\
     World.commits w' = World.commits w ++ [World.db w']).
Proof.
  destruct (tasks.generate_video_thumbnail_task env video_id w) as [r0 w0] eqn:E.
  revert E. unfold tasks.generate_video_thumbnail_task. run.
  destruct (DB.videos (World.db w) !! video_id) as [video|];
    [|intros [= <- <-]; left; eexists _, _; eauto].
  destruct (Py.truthy_str (Video.file_path video)); cbn [negb];
    [|intros [= <- <-]; left; eexists _, _; eauto].
  destruct (World.storage w !! Video.file_path video) as [content|];
    [|intros [= <- <-]; left; eexists _, _; eauto].
  destruct (generate_video_thumbnail_sync_frame env content video_id w)
    as (r & w' & Hsync & Hdb & Hcommits & Hr).
  rewrite Hsync. destruct Hr as [-> | ->].
  - intros [= <- <-]. left. eexists _, _. eauto.
  - rewrite thumbnail_object_name_truthy. run. rewrite Hdb, Hcommits.
    intros [= <- <-]. right. eexists _, _. repeat split.
Qed.

Lemma new_commits_none w w' :
  World.commits w' = World.commits w -> new_commits w w' = [].
Proof. intros H. unfold new_commits. rewrite H. apply drop_all. Qed.

Lemma new_commits_app w w' l :
  World.commits w' = World.commits w ++ l -> new_commits w w' = l.
Proof. intros H. unfold new_commits. rewrite H. apply drop_app_length. Qed.

Lemma get_video_thumbnail_frame video_id w :
  World.db (snd (api.get_video_thumbnail video_id w)) = World.db w /\
  World.commits (snd (api.get_video_thumbnail video_id w)) = World.commits w.
Proof.
  unfold api.get_video_thumbnail. run.
  repeat (branch; run); auto.
Qed.

(** C9: the standalone thumbnail task leaves the status and the
    processing progress of every video as they were, in the working copy
    and in every snapshot it commits.  On success the only change is that
    the video named by the task gets its thumbnail path and its
    thumbnail-generated flag; on failure the tables are untouched.  The
    thumbnail endpoint itself changes no table: for a video without
    thumbnail it only queues that task. *)
Theorem C9_thumbnail_regeneration_frame env video_id w vid video :
  DB.videos (World.db w) !! vid = Some video ->
  (exists r w' video',
     tasks.run_job env (GenerateVideoThumbnail video_id) w = (r, w') /\
     DB.videos (World.db w') !! vid = Some video' /\
     Video.status video' = Video.status video /\
     Video.processing_progress video' = Video.processing_progress video /\
     (video' = video \/
      (vid = video_id /\ (exists res, r = Py.Ok res) /\
       video' = with_thumbnail video_id video)) /\
     ((exists e, r = Py.Raise e) ->
      World.db w' = World.db w /\ World.commits w' = World.commits w) /\
     DB.upload_sessions (World.db w') = DB.upload_sessions (World.db w) /\
     DB.view_sessions (World.db w') = DB.view_sessions (World.db w) /\
     Forall (fun d => status_of vid d = Some (Video.status video) /\
                      progress_of vid d = Some (Video.processing_progress video))
       (new_commits w w')) /\
  World.db (snd (api.get_video_thumbnail video_id w)) = World.db w /\
  World.commits (snd (api.get_video_thumbnail video_id w)) = World.commits w /\
  (forall v, DB.videos (World.db w) !! video_id = Some v ->
     Py.truthy_opt_str (Video.thumbnail_path v) = false ->
     api.get_video_thumbnail video_id w =
       (Py.Ok GenerationStarted,
        World.set_queue (World.queue w ++ [GenerateVideoThumbnail video_id]) w)).
Proof.
  intros Hv. split_and!.
  - cbn [tasks.run_job].
    destruct (generate_video_thumbnail_task_run env video_id w)
      as [(e & w' & -> & Hdb & Hcommits)|(res & w' & -> & Hdb & Hcommits)].
    + exists (Py.Raise e), w', video. rewrite Hdb. split_and!; auto.
      rewrite (new_commits_none w w') by assumption. constructor.
    + assert (Hlook : exists video',
                DB.videos (World.db w') !! vid = Some video' /\
                Video.status video' = Video.status video /\
                Video.processing_progress video' = Video.processing_progress video /\
                (video' = video \/
                 (vid = video_id /\ video' = with_thumbnail video_id video))).
      { rewrite Hdb. cbn [DB.videos]. destruct (decide (video_id = vid)) as [->|Hne].
        - rewrite lookup_alter_eq, Hv. simpl. exists (with_thumbnail vid video).
          split_and!; auto.
        - rewrite lookup_alter_ne by assumption. exists video. split_and!; auto. }
      destruct Hlook as (video' & Hv' & Hst & Hpr & Hshape).
      exists (Py.Ok res), w', video'. split_and!; auto.
      * destruct Hshape as [->|[-> ->]]; eauto.
      * intros [e He]. discriminate He.
      * now rewrite Hdb.
      * now rewrite Hdb.
      * rewrite (new_commits_app w w' [World.db w']) by assumption.
        constructor; [|constructor]. unfold status_of, progress_of.
        rewrite Hv'. simpl. now rewrite Hst, Hpr.
  - apply get_video_thumbnail_frame.
  - apply get_video_thumbnail_frame.
  - intros v Hv0 Hth. unfold api.get_video_thumbnail. run. rewrite Hv0.
    destruct (Video.thumbnail_path v) as [p|]; [|reflexivity].
    simpl in Hth. now rewrite Hth.
Qed.

Lemma C9_thumbnail_regeneration_frame_witness :
  exists r w' video',
    tasks.run_job sample_env (GenerateVideoThumbnail "v1") (sample_world COMPLETED)
      = (r, w') /\
    DB.videos (World.db w') !! "v1" = Some video' /\
    Video.status video' = Video.status (sample_video COMPLETED) /\
    Video.processing_progress video' = Video.processing_progress (sample_video COMPLETED).
Proof.
  destruct (C9_thumbnail_regeneration_frame sample_env "v1" (sample_world COMPLETED) "v1"
              (sample_video COMPLETED) eq_refl)
    as [(r & w' & video' & Hrun & Hv' & Hst & Hpr & _) _].
  exists r, w', video'. auto.
Defined.

(** ** Status changes *)

Lemma drop_commits {A} (cs l : list A) : drop (length cs) (cs ++ l) = l.
Proof. apply drop_app_length. Qed.

(** Reduce the statuses of the tracked video [vid] in the snapshots an
    operation on [video_id] has appended. *)
Ltac trace Hv :=
  unfold statuses, new_commits, status_of, progress_of;
  cbn [fst snd World.db World.commits World.storage World.queue
         World.clock World.entropy World.set_db World.set_commits
         World.set_storage World.set_queue World.set_entropy];
  rewrite <- ?app_assoc; rewrite ?drop_commits, ?drop_all;
  cbn [app omap list_omap length DB.videos];
  first
    [ rewrite !lookup_alter_eq
    | rewrite !lookup_alter_ne by assumption
    | idtac ];
  rewrite ?Hv; cbn.

Lemma delete_video_trace env video_id w vid video :
  DB.videos (World.db w) !! vid = Some video ->
  chain (status_step (DeleteVideo video_id)) (Video.status video)
    (statuses vid w (snd (VideoService.delete_video env video_id w))) /\
  length (statuses vid w (snd (VideoService.delete_video env video_id w))) =
    length (new_commits w (snd (VideoService.delete_video env video_id w))) /\
  (video_id <> vid ->
   Forall (eq (Video.status video))
     (statuses vid w (snd (VideoService.delete_video env video_id w)))).
Proof.
  intros Hv. unfold VideoService.delete_video. run.
  destruct (decide (video_id = vid)) as [->|Hne]; rewrite ?Hv;
    repeat (branch; run); trace Hv;
    split_and!; try constructor; try constructor; try congruence; auto.
Qed.

Ltac video_cbn :=
  cbn [fmap option_fmap option_map
         Video.id Video.title Video.filename Video.file_path Video.file_size
         Video.file_type Video.file_extension Video.duration Video.width Video.height
         Video.fps Video.bitrate Video.codec Video.status Video.processing_progress
         Video.error_message Video.thumbnail_path Video.thumbnail_generated
         Video.view_count Video.uploaded_at Video.processed_at
         Video.set_status Video.set_processing_progress Video.set_error_message
         Video.set_file_path Video.set_uploaded_at Video.set_processed_at
         Video.set_duration Video.set_width Video.set_height Video.set_fps
         Video.set_bitrate Video.set_codec Video.set_thumbnail_path
         Video.set_thumbnail_generated Video.set_view_count] in *.

(** Settle the lookups of a video that has just been written. *)
Ltac look :=
  repeat first
    [ rewrite lookup_alter_eq
    | match goal with
      | H : ?m !! ?k = _ |- context [?m !! ?k] => rewrite H
      end ];
  cbn [fmap option_fmap option_map].

Ltac unfold_ops :=
  unfold VideoService.upload_video_file, VideoService._process_video_metadata,
    VideoService.generate_video_thumbnail, tasks.process_video_upload,
    tasks.extract_video_metadata, tasks.generate_video_thumbnail_sync in *.

Lemma process_video_upload_trace env video_id file_path w vid video :
  DB.videos (World.db w) !! vid = Some video ->
  chain (status_step (ProcessingJob video_id file_path)) (Video.status video)
    (statuses vid w (snd (tasks.process_video_upload env video_id file_path w))) /\
  length (statuses vid w (snd (tasks.process_video_upload env video_id file_path w))) =
    length (new_commits w (snd (tasks.process_video_upload env video_id file_path w))) /\
  (video_id <> vid ->
   Forall (eq (Video.status video))
     (statuses vid w (snd (tasks.process_video_upload env video_id file_path w)))).
Proof.
  intros Hv. unfold_ops. run.
  destruct (decide (video_id = vid)) as [->|Hne]; rewrite ?Hv;
    repeat (first [progress look | progress video_cbn | branch]; run); trace Hv;
    split_and!; repeat constructor; try congruence; auto.
Qed.

Lemma lookup_app_length {A} (l : list A) (x : A) : (l ++ [x]) !! length l = Some x.
Proof. now apply list_lookup_middle. Qed.

Ltac rows := rewrite ?alter_app_length, ?lookup_app_length, ?lookup_insert_eq.

Lemma upload_video_file_trace env video_id file_content chunk_size w vid video :
  DB.videos (World.db w) !! vid = Some video ->
  chain (status_step (BeginUpload video_id file_content chunk_size)) (Video.status video)
    (statuses vid w
       (snd (VideoService.upload_video_file env video_id file_content chunk_size w))) /\
  length (statuses vid w
            (snd (VideoService.upload_video_file env video_id file_content chunk_size w))) =
    length (new_commits w
              (snd (VideoService.upload_video_file env video_id file_content chunk_size w))) /\
  (video_id <> vid ->
   Forall (eq (Video.status video))
     (statuses vid w
        (snd (VideoService.upload_video_file env video_id file_content chunk_size w)))).
Proof.
  intros Hv. unfold_ops. run.
  destruct (decide (video_id = vid)) as [->|Hne]; rewrite ?Hv;
    rows; repeat (branch; run; rows); trace Hv;
    split_and!; repeat constructor; try congruence; auto.
Qed.

Lemma deleted_only_by_delete op s :
  status_step op s DELETED -> s = DELETED \/ exists v, op = DeleteVideo v.
Proof. intros H. inversion H; subst; eauto. Qed.

Lemma six_statuses (s : VideoStatus) : s ∈ all_statuses.
Proof. unfold all_statuses. destruct s; set_solver. Qed.

(** C3 (as amended): a status is always one of the six lifecycle values,
    and the status changes an operation commits are these: [BeginUpload]
    sets Uploading whatever the status was, then Processing once the file
    is stored and Completed or Failed after the inline processing, or
    Failed when the store write fails; the processing job sets Processing
    whatever the status was, then Completed or Failed; delete sets Deleted.
    No operation but delete writes Deleted, an operation changes no video
    but its target, and no snapshot loses a video.  There is no guard on
    the previous status, so a Completed or Failed video does move back. *)
Theorem C3_status_changes env op w vid video :
  DB.videos (World.db w) !! vid = Some video ->
  chain (status_step op) (Video.status video) (statuses vid w (run_op env op w)) /\
  length (statuses vid w (run_op env op w)) = length (new_commits w (run_op env op w)) /\
  (target op <> vid ->
   Forall (eq (Video.status video)) (statuses vid w (run_op env op w))) /\
  (forall s, status_step op s DELETED -> s = DELETED \/ exists v, op = DeleteVideo v) /\
  (forall s : VideoStatus, s ∈ all_statuses).
Proof.
  intros Hv.
  assert (Hop : chain (status_step op) (Video.status video)
                  (statuses vid w (run_op env op w)) /\
                length (statuses vid w (run_op env op w))
                  = length (new_commits w (run_op env op w)) /\
                (target op <> vid ->
                 Forall (eq (Video.status video)) (statuses vid w (run_op env op w)))).
  { destruct op; cbn [run_op target].
    - now apply upload_video_file_trace.
    - now apply process_video_upload_trace.
    - now apply delete_video_trace. }
  destruct Hop as (Hchain & Hlen & Hframe). split_and!; try assumption.
  - apply deleted_only_by_delete.
  - apply six_statuses.
Qed.

Lemma C3_status_changes_witness :
  chain (status_step (ProcessingJob "v1" "videos/v1/a.mp4"))
    (Video.status (sample_video PROCESSING))
    (statuses "v1" (sample_world PROCESSING)
       (run_op sample_env (ProcessingJob "v1" "videos/v1/a.mp4") (sample_world PROCESSING))).
Proof.
  refine (proj1 (C3_status_changes sample_env (ProcessingJob "v1" "videos/v1/a.mp4")
                   (sample_world PROCESSING) "v1" (sample_video PROCESSING) _)).
  reflexivity.
Defined.

(** C3 (counterexample): the processing job moves the completed sample
    video back to Processing, [BeginUpload] moves a failed one back to
    Uploading, and in the ordinary flow the job queued by the upload
    endpoint finds the video already completed by the inline processing
    and moves it back to Processing. *)
Lemma C3_completed_video_moves_back :
  statuses "v1" (sample_world COMPLETED)
    (run_op sample_env (ProcessingJob "v1" "videos/v1/a.mp4") (sample_world COMPLETED))
    = [PROCESSING; PROCESSING; PROCESSING; COMPLETED] /\
  statuses "v1" (sample_world FAILED)
    (run_op sample_env (BeginUpload "v1" [x00] 8192) (sample_world FAILED))
    = [FAILED; UPLOADING; PROCESSING; PROCESSING; COMPLETED] /\
  (let w1 := run_op sample_env (BeginUpload "v1" [x00] 8192) (sample_world PENDING) in
   status_of "v1" (World.db w1) = Some COMPLETED /\
   statuses "v1" w1 (run_op sample_env (ProcessingJob "v1" "videos/v1/a.mp4") w1)
     = [PROCESSING; PROCESSING; PROCESSING; COMPLETED]).
Proof.
  split; [vm_compute; reflexivity|]. split; [vm_compute; reflexivity|].
  cbv zeta. split; vm_compute; reflexivity.
Qed.

(** ** Upload sessions *)

Lemma upload_video_file_first_commit env vid file_content chunk_size w :
  exists d rest s0,
    new_commits w (snd (VideoService.upload_video_file env vid file_content chunk_size w))
      = d :: rest /\
    DB.upload_sessions d = DB.upload_sessions (World.db w) ++ [s0] /\
    DB.videos d = DB.videos (World.db w) /\
    VideoUploadSession.video_id s0 = vid /\
    VideoUploadSession.status s0 = UPLOADING.
Proof.
  unfold_ops. run. rows.
  repeat (branch; run; rows);
    unfold new_commits;
    cbn [fst snd World.db World.commits World.storage World.queue
           World.clock World.entropy World.set_db World.set_commits
           World.set_storage World.set_queue World.set_entropy];
    rewrite <- ?app_assoc; rewrite drop_commits; cbn [app];
    eexists _, _, _; (split; [reflexivity|]); cbn [DB.upload_sessions DB.videos];
    split_and!; reflexivity.
Qed.

Lemma upload_video_file_outcome env vid file_content chunk_size w video :
  DB.videos (World.db w) !! vid = Some video ->
  (put_object_error env (upload_object_name video) = None ->
   exists s,
     fst (VideoService.upload_video_file env vid file_content chunk_size w) = Py.Ok s /\
     VideoUploadSession.video_id s = vid /\
     VideoUploadSession.status s = COMPLETED) /\
  (forall message,
     put_object_error env (upload_object_name video) = Some message ->
     fst (VideoService.upload_video_file env vid file_content chunk_size w) =
       Py.Raise (Py.HTTPException 500
                   ("Upload failed: " +:+
                    Py.str_exn (Py.HTTPException 500
                                  ("File upload failed: " +:+ message))))).
Proof.
  intros Hv. unfold upload_object_name. unfold_ops. run. rows.
  rewrite lookup_alter_eq, Hv. cbn [fmap option_fmap option_map]. run.
  change (Video.id (Video.set_status UPLOADING video)) with (Video.id video).
  change (Video.filename (Video.set_status UPLOADING video)) with (Video.filename video).
  split; [intros Hput|intros message Hput]; rewrite Hput; run; rows; [|reflexivity].
  repeat (branch; run; rows); eexists; split_and!; reflexivity.
Qed.

(** C2 (as amended): [upload_video_file] makes no check for an active
    upload session.  Whatever sessions the video already has, the first
    snapshot the call commits keeps them all and adds a new session of the
    video in Uploading status; the call then returns that session,
    Completed, when the store accepts the file, and fails with a 500
    "Upload failed" error when it does not.  It never fails with a
    conflict. *)
Theorem C2_upload_ignores_active_sessions env vid file_content chunk_size w video :
  DB.videos (World.db w) !! vid = Some video ->
  (exists d rest s0,
     new_commits w (snd (VideoService.upload_video_file env vid file_content chunk_size w))
       = d :: rest /\
     DB.upload_sessions d = DB.upload_sessions (World.db w) ++ [s0] /\
     VideoUploadSession.video_id s0 = vid /\
     VideoUploadSession.is_active s0 = true /\
     active_uploads vid d = active_uploads vid (World.db w) ++ [s0]) /\
  (put_object_error env (upload_object_name video) = None ->
   exists s,
     fst (VideoService.upload_video_file env vid file_content chunk_size w) = Py.Ok s /\
     VideoUploadSession.video_id s = vid /\
     VideoUploadSession.status s = COMPLETED) /\
  (forall message,
     put_object_error env (upload_object_name video) = Some message ->
     fst (VideoService.upload_video_file env vid file_content chunk_size w) =
       Py.Raise (Py.HTTPException 500
                   ("Upload failed: " +:+
                    Py.str_exn (Py.HTTPException 500
                                  ("File upload failed: " +:+ message))))) /\
  (forall detail,
     fst (VideoService.upload_video_file env vid file_content chunk_size w) <>
       Py.Raise (Py.HTTPException 409 detail)).
Proof.
  intros Hv.
  destruct (upload_video_file_outcome env vid file_content chunk_size w video Hv)
    as [Hok Hfail].
  split_and!; try assumption.
  - destruct (upload_video_file_first_commit env vid file_content chunk_size w)
      as (d & rest & s0 & Hnew & Hrows & _ & Hvid & Hst).
    exists d, rest, s0. split_and!; try assumption.
    + unfold VideoUploadSession.is_active. rewrite Hst. reflexivity.
    + unfold active_uploads. rewrite Hrows, List.filter_app. f_equal.
      cbn [List.filter]. unfold VideoUploadSession.is_active.
      rewrite Hvid, Hst, String.eqb_refl. reflexivity.
  - intros detail.
    destruct (put_object_error env (upload_object_name video)) as [message|] eqn:Hput.
    + rewrite (Hfail message eq_refl). discriminate.
    + destruct (Hok eq_refl) as (s & -> & _). discriminate.
Qed.

Lemma C2_upload_ignores_active_sessions_witness :
  exists s,
    fst (VideoService.upload_video_file sample_env "v1" [x02] 8192 upload_in_flight)
      = Py.Ok s /\
    VideoUploadSession.video_id s = "v1" /\
    VideoUploadSession.status s = COMPLETED.
Proof.
  refine (proj1 (proj2 (C2_upload_ignores_active_sessions sample_env "v1" [x02] 8192
                          upload_in_flight (sample_video PENDING) _)) _).
  - reflexivity.
  - reflexivity.
Defined.

(** C2 (counterexample): while a first upload on the fresh sample video has
    committed its Uploading session, a second [upload_video_file] on the
    same video does not fail: it returns its own session, and its first
    snapshot holds two active sessions of the video. *)
Lemma C2_second_upload_succeeds :
  length (active_uploads "v1" (World.db upload_in_flight)) = 1%nat /\
  (exists s,
     fst (VideoService.upload_video_file sample_env "v1" [x02] 8192 upload_in_flight)
       = Py.Ok s /\
     VideoUploadSession.status s = COMPLETED) /\
  (exists d rest,
     new_commits upload_in_flight
       (snd (VideoService.upload_video_file sample_env "v1" [x02] 8192 upload_in_flight))
       = d :: rest /\
     length (active_uploads "v1" d) = 2%nat).
Proof.
  split; [vm_compute; reflexivity|]. split.
  - eexists. split; [vm_compute; reflexivity|reflexivity].
  - eexists _, _. split; [vm_compute; reflexivity|reflexivity].
Qed.

(** ** Processing progress *)

Lemma process_video_upload_metadata env video_id file_path w video content m :
  DB.videos (World.db w) !! video_id = Some video ->
  World.storage w !! file_path = Some content ->
  inspect env content = Some m ->
  exists d1 d2 rest v2,
    new_commits w (snd (tasks.process_video_upload env video_id file_path w))
      = d1 :: d2 :: rest /\
    status_of video_id d1 = Some PROCESSING /\
    progress_of video_id d1 = Some 10 /\
    DB.videos d2 !! video_id = Some v2 /\
    Video.duration v2 = Some (meta_duration m) /\
    Video.width v2 = Some (meta_width m) /\
    Video.height v2 = Some (meta_height m) /\
    Video.fps v2 = Some (meta_fps m) /\
    Video.processing_progress v2 = 50.
Proof.
  intros Hv Hobj Hm. unfold_ops. run. rewrite Hv. run. rewrite Hobj. run.
  rewrite Hm. run.
  repeat (first [progress look | progress video_cbn | branch]; run);
    unfold new_commits, status_of, progress_of;
    cbn [fst snd World.db World.commits World.storage World.queue
           World.clock World.entropy World.set_db World.set_commits
           World.set_storage World.set_queue World.set_entropy];
    rewrite <- ?app_assoc; rewrite drop_commits; cbn [app];
    eexists _, _, _, _; (split; [reflexivity|]); cbn [DB.videos];
    rewrite !lookup_alter_eq, Hv; split_and!; reflexivity.
Qed.

Lemma worker_process_video_metadata env video_id w video content m :
  CV2_AVAILABLE env = true ->
  DB.videos (World.db w) !! video_id = Some video ->
  World.storage w !! Video.file_path video = Some content ->
  inspect env content = Some m ->
  exists d1 d2 v2 res,
    fst (VideoProcessingWorker.process_video_metadata env video_id w) = Py.Ok res /\
    result_status res = "completed" /\
    new_commits w (snd (VideoProcessingWorker.process_video_metadata env video_id w))
      = [d1; d2] /\
    status_of video_id d1 = Some PROCESSING /\
    progress_of video_id d1 = Some 20 /\
    DB.videos d2 !! video_id = Some v2 /\
    Video.duration v2 = Some (meta_duration m) /\
    Video.width v2 = Some (meta_width m) /\
    Video.height v2 = Some (meta_height m) /\
    Video.fps v2 = Some (meta_fps m) /\
    Video.processing_progress v2 = 60.
Proof.
  intros Hcv Hv Hobj Hm.
  unfold VideoProcessingWorker.process_video_metadata,
    VideoProcessingWorker._extract_video_metadata.
  rewrite Hcv. cbn [negb]. run. rewrite Hv. run. rewrite Hobj. run. rewrite Hm. run.
  look. run.
  unfold new_commits, status_of, progress_of.
  cbn [fst snd World.db World.commits World.storage World.queue
         World.clock World.entropy World.set_db World.set_commits
         World.set_storage World.set_queue World.set_entropy].
  rewrite <- ?app_assoc; rewrite drop_commits; cbn [app].
  eexists _, _, _, _. split; [reflexivity|]. split; [reflexivity|].
  split; [reflexivity|]. cbn [DB.videos].
  rewrite !lookup_alter_eq, Hv. split_and!; reflexivity.
Qed.

(** C7 (as amended): when the metadata extraction succeeds, the snapshot
    committed right after it carries the extracted duration, width, height
    and frame rate; its [processing_progress] is 50 in the processing job
    [process_video_upload] and 60 in the dedicated worker's
    [process_video_metadata]. *)
Theorem C7_progress_after_metadata env video_id w video content m :
  DB.videos (World.db w) !! video_id = Some video ->
  inspect env content = Some m ->
  (forall file_path,
     World.storage w !! file_path = Some content ->
     exists d1 d2 rest v2,
       new_commits w (snd (tasks.run_job env (ProcessVideoUpload video_id file_path) w))
         = d1 :: d2 :: rest /\
       progress_of video_id d1 = Some 10 /\
       DB.videos d2 !! video_id = Some v2 /\
       Video.duration v2 = Some (meta_duration m) /\
       Video.width v2 = Some (meta_width m) /\
       Video.height v2 = Some (meta_height m) /\
       Video.fps v2 = Some (meta_fps m) /\
       Video.processing_progress v2 = 50) /\
  (CV2_AVAILABLE env = true ->
   World.storage w !! Video.file_path video = Some content ->
   exists d1 d2 v2,
     new_commits w (snd (VideoProcessingWorker.process_video_metadata env video_id w))
       = [d1; d2] /\
     progress_of video_id d1 = Some 20 /\
     DB.videos d2 !! video_id = Some v2 /\
     Video.duration v2 = Some (meta_duration m) /\
     Video.width v2 = Some (meta_width m) /\
     Video.height v2 = Some (meta_height m) /\
     Video.fps v2 = Some (meta_fps m) /\
     Video.processing_progress v2 = 60).
Proof.
  intros Hv Hm. split.
  - intros file_path Hobj. cbn [tasks.run_job].
    destruct (process_video_upload_metadata env video_id file_path w video content m
                Hv Hobj Hm)
      as (d1 & d2 & rest & v2 & Hnew & _ & Hp1 & Hv2 & Hd & Hw & Hh & Hf & Hp2).
    exists d1, d2, rest, v2. split_and!; assumption.
  - intros Hcv Hobj.
    destruct (worker_process_video_metadata env video_id w video content m Hcv Hv Hobj Hm)
      as (d1 & d2 & v2 & res & _ & _ & Hnew & _ & Hp1 & Hv2 & Hd & Hw & Hh & Hf & Hp2).
    exists d1, d2, v2. split_and!; assumption.
Qed.

Lemma C7_progress_after_metadata_witness :
  exists d1 d2 v2,
    new_commits (sample_world PROCESSING)
      (snd (VideoProcessingWorker.process_video_metadata sample_env "v1"
              (sample_world PROCESSING)))
      = [d1; d2] /\
    progress_of "v1" d1 = Some 20 /\
    DB.videos d2 !! "v1" = Some v2 /\
    Video.duration v2 = Some 12.5%float /\
    Video.width v2 = Some 640 /\
    Video.height v2 = Some 360 /\
    Video.fps v2 = Some 24%float /\
    Video.processing_progress v2 = 60.
Proof.
  refine (proj2 (C7_progress_after_metadata sample_env "v1" (sample_world PROCESSING)
                   (sample_video PROCESSING) (repeat x2a 1000)
                   (Build_Metadata 300 24%float 640 360 12.5%float) _ _) _ _).
  - reflexivity.
  - reflexivity.
  - reflexivity.
  - reflexivity.
Defined.

(** C7 (counterexample): in the processing job run on the sample video the
    snapshot committed right after the metadata extraction has
    [processing_progress] 50, not 60. *)
Lemma C7_job_progress_is_50 :
  exists d1 d2 rest,
    new_commits (sample_world PROCESSING)
      (snd (tasks.run_job sample_env (ProcessVideoUpload "v1" "videos/v1/a.mp4")
              (sample_world PROCESSING)))
      = d1 :: d2 :: rest /\
    (Video.duration <$> DB.videos d1 !! "v1") = Some (Some 100%float) /\
    (Video.duration <$> DB.videos d2 !! "v1") = Some (Some 12.5%float) /\
    progress_of "v1" d2 = Some 50 /\
    progress_of "v1" d2 <> Some 60.
Proof.
  eexists _, _, _. split; [vm_compute; reflexivity|].
  split_and!; try reflexivity. discriminate.
Qed.

(** * Further properties *)

(** ** The progress tracker as a whole *)

Lemma select_view_sessions_keys vid sid i rows rows' :
  map (fun s => (VideoViewSession.video_id s, VideoViewSession.session_id s)) rows
  = map (fun s => (VideoViewSession.video_id s, VideoViewSession.session_id s)) rows' ->
  select_view_sessions vid sid i rows = select_view_sessions vid sid i rows'.
Proof.
  revert i rows'. induction rows as [|r rows IH]; intros i [|r' rows'] H;
    simpl in *; try discriminate; [reflexivity|].
  injection H as Hv Hs Hrest. rewrite Hv, Hs, (IH (S i) rows' Hrest). reflexivity.
Qed.

Lemma select_view_sessions_insert vid sid rows j s s' :
  rows !! j = Some s ->
  VideoViewSession.video_id s' = VideoViewSession.video_id s ->
  VideoViewSession.session_id s' = VideoViewSession.session_id s ->
  select_view_sessions vid sid 0 (<[j := s']> rows) = select_view_sessions vid sid 0 rows.
Proof.
  intros Hs Hv Hk. apply select_view_sessions_keys.
  rewrite list_fmap_insert, Hv, Hk. apply list_insert_id.
  rewrite list_lookup_fmap, Hs. reflexivity.
Qed.

Lemma select_view_sessions_other vid sid rows s :
  (VideoViewSession.video_id s, VideoViewSession.session_id s) <> (vid, sid) ->
  select_view_sessions vid sid 0 (rows ++ [s]) = select_view_sessions vid sid 0 rows.
Proof.
  intros Hne. rewrite select_view_sessions_app. simpl.
  destruct (String.eqb_spec (VideoViewSession.video_id s) vid) as [Hv|Hv];
    destruct (String.eqb_spec (VideoViewSession.session_id s) sid) as [Hk|Hk];
    simpl; try apply app_nil_r.
  exfalso. apply Hne. now rewrite Hv, Hk.
Qed.

Lemma select_view_sessions_same vid sid rows s :
  VideoViewSession.video_id s = vid -> VideoViewSession.session_id s = sid ->
  select_view_sessions vid sid 0 (rows ++ [s]) =
    select_view_sessions vid sid 0 rows ++ [length rows].
Proof.
  intros Hv Hk. rewrite select_view_sessions_app. simpl.
  now rewrite Hv, Hk, !String.eqb_refl.
Qed.

Lemma get_video_progress_run vid sid w :
  VideoService.get_video_progress vid sid w =
    match select_view_sessions vid sid 0 (DB.view_sessions (World.db w)) with
    | [] => (Py.Ok None, w)
    | [i] =>
        match DB.view_sessions (World.db w) !! i with
        | Some s => (Py.Ok (Some s), w)
        | None => (Py.Raise (Py.Exception "detached instance"), w)
        end
    | _ => (Py.Raise (Py.Exception "Multiple rows were found when one or none was required"),
            w)
    end.
Proof.
  unfold VideoService.get_video_progress. run.
  destruct (select_view_sessions vid sid 0 (DB.view_sessions (World.db w)))
    as [|i [|j l]]; run; try reflexivity.
  now destruct (DB.view_sessions (World.db w) !! i).
Qed.

(** X1: a progress update can be read back: after [update_video_progress]
    has returned a session, [get_video_progress] for the same video and
    session returns exactly that session, and the read endpoint reports
    its playback time, percentage and access time. *)
Theorem X1_progress_read_back env vid sid t u w video :
  DB.videos (World.db w) !! vid = Some video ->
  (length (select_view_sessions vid sid 0 (DB.view_sessions (World.db w))) <= 1)%nat ->
  exists s w',
    VideoService.update_video_progress env vid sid t u w = (Py.Ok s, w') /\
    VideoService.get_video_progress vid sid w' = (Py.Ok (Some s), w') /\
    routes.get_video_progress vid sid w' =
      (Py.Ok {| reply_video_id := vid;
                reply_current_time := VideoViewSession.current_time s;
                reply_completion_percentage := VideoViewSession.completion_percentage s;
                reply_resume_position := Some (VideoViewSession.current_time s);
                reply_last_accessed := Some (VideoViewSession.last_accessed s) |}, w').
Proof.
  intros Hv Hlen.
  assert (Hread : exists s w',
            VideoService.update_video_progress env vid sid t u w = (Py.Ok s, w') /\
            VideoService.get_video_progress vid sid w' = (Py.Ok (Some s), w')).
  { destruct (short_selection _ Hlen) as [Hsel|[i Hsel]].
    - eexists _, _.
      split; [apply (update_video_progress_new env vid sid t u w video Hv Hsel)|].
      rewrite get_video_progress_run. cbn [World.db DB.view_sessions].
      rewrite select_view_sessions_same, Hsel by apply progress_applied_keys.
      cbn [app]. rewrite lookup_app_length. reflexivity.
    - destruct (select_view_sessions_singleton _ _ _ _ Hsel) as (s & Hs & Hvid & Hsid).
      eexists _, _.
      split; [apply (update_video_progress_existing env vid sid t u w video i s Hv Hsel Hs)|].
      rewrite get_video_progress_run. cbn [World.db DB.view_sessions].
      rewrite (select_view_sessions_insert vid sid _ i s) by
        (assumption || apply progress_applied_keys).
      rewrite Hsel, list_lookup_insert_eq by (now apply lookup_lt_Some in Hs).
      reflexivity. }
  destruct Hread as (s & w' & Hup & Hget). exists s, w'. split_and!; try assumption.
  unfold routes.get_video_progress. run. rewrite Hget. reflexivity.
Qed.

Lemma X1_progress_read_back_witness :
  exists s w',
    VideoService.update_video_progress sample_env "v1" "s1" 42 None
      (sample_world COMPLETED) = (Py.Ok s, w') /\
    VideoService.get_video_progress "v1" "s1" w' = (Py.Ok (Some s), w').
Proof.
  destruct (X1_progress_read_back sample_env "v1" "s1" 42 None (sample_world COMPLETED)
              (sample_video COMPLETED) eq_refl ltac:(simpl; lia))
    as (s & w' & Hup & Hget & _).
  exists s, w'. auto.
Defined.

(** X2: reading progress never changes anything, and a (video, session)
    pair without a session is not an error: the read endpoint answers it
    with playback time 0 and percentage 0. *)
Theorem X2_progress_read_is_pure vid sid w :
  snd (VideoService.get_video_progress vid sid w) = w /\
  snd (routes.get_video_progress vid sid w) = w /\
  (select_view_sessions vid sid 0 (DB.view_sessions (World.db w)) = [] ->
   routes.get_video_progress vid sid w =
     (Py.Ok {| reply_video_id := vid;
               reply_current_time := 0%float;
               reply_completion_percentage := 0%float;
               reply_resume_position := None;
               reply_last_accessed := None |}, w)).
Proof.
  assert (Hpure : snd (VideoService.get_video_progress vid sid w) = w).
  { rewrite get_video_progress_run.
    destruct (select_view_sessions vid sid 0 (DB.view_sessions (World.db w)))
      as [|i [|j l]]; try reflexivity.
    now destruct (DB.view_sessions (World.db w) !! i). }
  split_and!.
  - exact Hpure.
  - unfold routes.get_video_progress. run.
    destruct (VideoService.get_video_progress vid sid w) as [[[s|]|e] w'];
      simpl in *; congruence.
  - intros Hsel. unfold routes.get_video_progress. run.
    rewrite get_video_progress_run, Hsel. reflexivity.
Qed.

Lemma X2_progress_read_is_pure_witness :
  routes.get_video_progress "v1" "nobody" watched_world =
    (Py.Ok {| reply_video_id := "v1";
              reply_current_time := 0%float;
              reply_completion_percentage := 0%float;
              reply_resume_position := None;
              reply_last_accessed := None |}, watched_world).
Proof.
  refine (proj2 (proj2 (X2_progress_read_is_pure "v1" "nobody" watched_world)) _).
  reflexivity.
Defined.

(** X3: the POST progress endpoint never produces a reply: it builds
    [VideoProgressResponse] without the required [last_accessed], so every
    request ends in an exception; the progress update itself has been
    committed by then, exactly as the service left it. *)
Theorem X3_progress_endpoint_never_replies env vid sid t w :
  (exists e, fst (routes.update_video_progress env vid sid t w) = Py.Raise e) /\
  snd (routes.update_video_progress env vid sid t w) =
    snd (VideoService.update_video_progress env vid sid t None w).
Proof.
  unfold routes.update_video_progress, routes.VideoProgressResponse. run.
  destruct (VideoService.update_video_progress env vid sid t None w) as [[s|e] w'];
    simpl; eauto.
Qed.

(** X4: a progress update for a video that does not exist fails with 404
    "Video not found" and creates no session and commits nothing. *)
Theorem X4_progress_unknown_video env vid sid t u w :
  DB.videos (World.db w) !! vid = None ->
  VideoService.update_video_progress env vid sid t u w =
    (Py.Raise (Py.HTTPException 404 "Video not found"), w).
Proof. apply update_video_progress_missing. Qed.

Lemma X4_progress_unknown_video_witness :
  VideoService.update_video_progress sample_env "v9" "s1" 3 None (sample_world COMPLETED) =
    (Py.Raise (Py.HTTPException 404 "Video not found"), sample_world COMPLETED).
Proof.
  apply (X4_progress_unknown_video sample_env "v9" "s1" 3 None (sample_world COMPLETED)).
  reflexivity.
Defined.

(** ** One session per (video, session) pair *)

Lemma unique_sessions_append d s :
  unique_sessions d ->
  select_view_sessions (VideoViewSession.video_id s) (VideoViewSession.session_id s) 0
    (DB.view_sessions d) = [] ->
  forall vs us,
    unique_sessions (DB.mk vs us (DB.view_sessions d ++ [s])).
Proof.
  intros Hu Hsel vs us vid sid. cbn [DB.view_sessions].
  destruct (decide ((VideoViewSession.video_id s, VideoViewSession.session_id s)
                    = (vid, sid))) as [[= <- <-]|Hne].
  - rewrite select_view_sessions_same, Hsel by reflexivity. simpl. lia.
  - rewrite select_view_sessions_other by assumption. apply Hu.
Qed.

Lemma unique_sessions_insert d j s s' :
  unique_sessions d ->
  DB.view_sessions d !! j = Some s ->
  VideoViewSession.video_id s' = VideoViewSession.video_id s ->
  VideoViewSession.session_id s' = VideoViewSession.session_id s ->
  forall vs us,
    unique_sessions (DB.mk vs us (<[j := s']> (DB.view_sessions d))).
Proof.
  intros Hu Hs Hv Hk vs us vid sid. cbn [DB.view_sessions].
  rewrite (select_view_sessions_insert vid sid _ j s) by assumption. apply Hu.
Qed.

Lemma update_video_progress_unique env vid sid t u w :
  unique_sessions (World.db w) ->
  unique_sessions (World.db (snd (VideoService.update_video_progress env vid sid t u w))).
Proof.
  intros Hu.
  destruct (DB.videos (World.db w) !! vid) as [video|] eqn:Hv.
  2:{ now rewrite update_video_progress_missing. }
  destruct (select_view_sessions vid sid 0 (DB.view_sessions (World.db w)))
    as [|j [|k l]] eqn:Hsel.
  - rewrite (update_video_progress_new env vid sid t u w video Hv Hsel).
    cbn [snd World.db]. apply unique_sessions_append; [assumption|].
    destruct (progress_applied_keys video t (World.clock w)
                (VideoViewSession.new (uuid4_value env (World.entropy w)) vid sid u None None
                   (World.clock w))) as (-> & -> & _).
    exact Hsel.
  - destruct (select_view_sessions_singleton _ _ _ _ Hsel) as (s0 & Hs0 & _).
    rewrite (update_video_progress_existing env vid sid t u w video j s0 Hv Hsel Hs0).
    cbn [snd World.db]. apply (unique_sessions_insert _ j s0); try assumption;
      apply progress_applied_keys.
  - now rewrite (update_video_progress_ambiguous env vid sid t u w video j k l Hv Hsel).
Qed.

Lemma record_video_view_unique env vid sid u ip ua w :
  unique_sessions (World.db w) ->
  unique_sessions (World.db (snd (VideoAnalyticsService.record_video_view env vid sid
                                    u ip ua w))).
Proof.
  intros Hu. destruct (short_selection _ (Hu vid sid)) as [Hsel|[i Hsel]].
  - rewrite (record_video_view_new env vid sid u ip ua w Hsel).
    cbn [snd World.db]. now apply unique_sessions_append.
  - destruct (select_view_sessions_singleton _ _ _ _ Hsel) as (s & Hs & _).
    now rewrite (record_video_view_existing env vid sid u ip ua w i s).
Qed.

Lemma stream_video_content_pure vid w :
  snd (VideoService.stream_video_content vid w) = w.
Proof.
  unfold VideoService.stream_video_content. run.
  repeat (branch; run); reflexivity.
Qed.

(** The world a stream request leaves behind: nothing but the recorded
    view, whatever becomes of the content. *)
Lemma stream_video_world env vid request w video :
  DB.videos (World.db w) !! vid = Some video ->
  Video.status video = COMPLETED ->
  snd (api.stream_video env vid request w) =
    snd (VideoAnalyticsService.record_video_view env vid (session_of env w request) None
           (Some (Request.client_host request)) (Request.user_agent request)
           (World.set_entropy (S (World.entropy w)) w)).
Proof.
  intros Hv Hst. unfold api.stream_video.
  unfold mbind at 1, M_bind at 1, bind at 1, get_video_by_id, gets. rewrite Hv.
  destruct (decide (Video.status video = COMPLETED)) as [_|]; [|contradiction].
  unfold mbind at 1, M_bind at 1, bind at 1.
  replace (uuid4 env w) with (Py.Ok (uuid4_value env (World.entropy w)),
                               World.set_entropy (S (World.entropy w)) w) by reflexivity.
  fold (session_of env w request).
  unfold mbind at 1, M_bind at 1, bind at 1.
  destruct (VideoAnalyticsService.record_video_view env vid (session_of env w request) None
              (Some (Request.client_host request)) (Request.user_agent request)
              (World.set_entropy (S (World.entropy w)) w)) as [[s|e] w1]; [|reflexivity].
  unfold try_except, mbind, M_bind, bind, lift, raise.
  pose proof (stream_video_content_pure vid w1) as Hpure.
  destruct (VideoService.stream_video_content vid w1) as [[content|e] w2];
    simpl in Hpure; subst w2; [|reflexivity].
  now destruct (api.respond env (Video.file_type video) content (Request.range request)).
Qed.

Lemma stream_video_not_ready env vid request w :
  (forall video, DB.videos (World.db w) !! vid = Some video ->
                 Video.status video <> COMPLETED) ->
  api.stream_video env vid request w =
    (Py.Raise (Py.HTTPException 404 "Video not found or not ready"), w).
Proof.
  intros Hnot. unfold api.stream_video. run.
  destruct (DB.videos (World.db w) !! vid) as [video|]; [|reflexivity].
  destruct (decide (Video.status video = COMPLETED)) as [Hc|]; [|reflexivity].
  now destruct (Hnot video eq_refl).
Qed.

Lemma stream_video_unique env vid request w :
  unique_sessions (World.db w) ->
  unique_sessions (World.db (snd (api.stream_video env vid request w))).
Proof.
  intros Hu. destruct (DB.videos (World.db w) !! vid) as [video|] eqn:Hv.
  - destruct (decide (Video.status video = COMPLETED)) as [Hc|Hc].
    + rewrite (stream_video_world env vid request w video Hv Hc).
      now apply record_video_view_unique.
    + rewrite stream_video_not_ready; [assumption|]. intros v Heq. congruence.
  - rewrite stream_video_not_ready; [assumption|]. intros v Heq. congruence.
Qed.

(** X5: the progress tracker and the streaming endpoint keep the view
    sessions unique: if every (video, session) pair has at most one
    session, it still has at most one after any sequence of progress
    updates, view recordings and stream requests; so it holds in every
    state reached from an empty table. *)
Theorem X5_sessions_stay_unique env visits w :
  unique_sessions (World.db w) ->
  unique_sessions (World.db (serve_visits env visits w)).
Proof.
  unfold serve_visits. revert w. induction visits as [|v visits IH]; intros w Hu;
    [exact Hu|].
  cbn [fold_left]. apply IH. destruct v as [c|vid sid c|now vid request];
    cbn [serve_visit].
  - now apply update_video_progress_unique.
  - now apply record_video_view_unique.
  - now apply stream_video_unique.
Qed.

Lemma X5_sessions_stay_unique_witness :
  unique_sessions
    (World.db (serve_visits sample_env
                 [VisitStream 1 "v1" (sample_request None);
                  VisitProgress (Build_ProgressCall 2 "v1" "s1" 30 None);
                  VisitView "v1" "s1" (Build_ViewCall 3 None None None)]
                 (sample_world COMPLETED))).
Proof.
  apply (X5_sessions_stay_unique sample_env).
  intros vid sid. simpl. lia.
Defined.

(** ** Streaming and views *)

(** X6: a video that does not exist or is not Completed cannot be
    streamed: the request fails with 404 and leaves no trace, neither a
    view session nor a view count nor a drawn identifier. *)
Theorem X6_stream_requires_completed env vid request w :
  (forall video, DB.videos (World.db w) !! vid = Some video ->
                 Video.status video <> COMPLETED) ->
  api.stream_video env vid request w =
    (Py.Raise (Py.HTTPException 404 "Video not found or not ready"), w).
Proof. apply stream_video_not_ready. Qed.

Lemma X6_stream_requires_completed_witness :
  api.stream_video sample_env "v1" (sample_request None) (sample_world PROCESSING) =
    (Py.Raise (Py.HTTPException 404 "Video not found or not ready"),
     sample_world PROCESSING).
Proof.
  apply (X6_stream_requires_completed sample_env "v1" (sample_request None)
           (sample_world PROCESSING)).
  intros video [= <-]. discriminate.
Defined.

(** X7: the view is recorded before the content is fetched: when the
    object of a Completed video is missing from the store, a first request
    of a session fails with a 500 "Streaming failed" error and the view
    counter has gone up by one all the same. *)
Theorem X7_view_counted_before_fetch env vid request w video :
  DB.videos (World.db w) !! vid = Some video ->
  Video.status video = COMPLETED ->
  World.storage w !! Video.file_path video = None ->
  select_view_sessions vid (session_of env w request) 0
    (DB.view_sessions (World.db w)) = [] ->
  fst (api.stream_video env vid request w) =
    Py.Raise (Py.HTTPException 500
                ("Streaming failed: " +:+
                 Py.str_exn (Py.HTTPException 404
                               ("File not found: " +:+ Video.file_path video)))) /\
  view_count_of vid (snd (api.stream_video env vid request w))
    = Some (Video.view_count video + 1).
Proof.
  intros Hv Hst Hobj Hsel. split.
  - unfold api.stream_video.
    unfold mbind at 1, M_bind at 1, bind at 1, get_video_by_id, gets. rewrite Hv.
    destruct (decide (Video.status video = COMPLETED)) as [_|]; [|contradiction].
    unfold mbind at 1, M_bind at 1, bind at 1.
    replace (uuid4 env w) with (Py.Ok (uuid4_value env (World.entropy w)),
                                 World.set_entropy (S (World.entropy w)) w) by reflexivity.
    fold (session_of env w request).
    unfold mbind at 1, M_bind at 1, bind at 1.
    rewrite (record_video_view_new env vid (session_of env w request) None _ _
               (World.set_entropy (S (World.entropy w)) w) Hsel).
    unfold VideoService.stream_video_content. run. rewrite Hv. run.
    rewrite lookup_alter_eq, Hv. cbn [fmap option_fmap option_map].
    destruct (decide (Video.status
                        (Video.set_view_count (Video.view_count video + 1) video)
                      = COMPLETED)) as [_|Hne]; [|now destruct Hne].
    run. cbn [Video.file_path Video.set_view_count]. rewrite Hobj. reflexivity.
  - rewrite (stream_video_world env vid request w video Hv Hst).
    rewrite (record_video_view_new env vid (session_of env w request) None _ _
               (World.set_entropy (S (World.entropy w)) w) Hsel).
    unfold view_count_of. cbn [snd World.db World.set_entropy DB.videos].
    rewrite Hv, lookup_alter_eq, Hv. reflexivity.
Qed.

Lemma X7_view_counted_before_fetch_witness :
  fst (api.stream_video sample_env "v1" (sample_request None) undated_world) =
    Py.Raise (Py.HTTPException 500
                ("Streaming failed: " +:+
                 Py.str_exn (Py.HTTPException 404
                               ("File not found: " +:+
                                Video.file_path
                                  (Video.set_duration None (sample_video COMPLETED)))))) /\
  view_count_of "v1" (snd (api.stream_video sample_env "v1" (sample_request None)
                             undated_world))
    = Some (Video.view_count (Video.set_duration None (sample_video COMPLETED)) + 1).
Proof.
  apply (X7_view_counted_before_fetch sample_env "v1" (sample_request None) undated_world
           (Video.set_duration None (sample_video COMPLETED))); reflexivity.
Defined.

Lemma stream_video_first env vid request w video :
  DB.videos (World.db w) !! vid = Some video ->
  Video.status video = COMPLETED ->
  select_view_sessions vid (session_of env w request) 0
    (DB.view_sessions (World.db w)) = [] ->
  let w' := snd (api.stream_video env vid request w) in
  DB.videos (World.db w') =
    alter (fun v => Video.set_view_count (Video.view_count v + 1) v) vid
      (DB.videos (World.db w)) /\
  (exists s, DB.view_sessions (World.db w') = DB.view_sessions (World.db w) ++ [s] /\
             VideoViewSession.video_id s = vid /\
             VideoViewSession.session_id s = session_of env w request) /\
  World.entropy w' = S (S (World.entropy w)) /\
  World.storage w' = World.storage w.
Proof.
  intros Hv Hst Hsel. cbv zeta.
  rewrite (stream_video_world env vid request w video Hv Hst).
  rewrite (record_video_view_new env vid (session_of env w request) None _ _
             (World.set_entropy (S (World.entropy w)) w) Hsel).
  cbn [snd World.db World.set_entropy DB.videos DB.view_sessions World.entropy
         World.storage].
  rewrite Hv. split_and!; try reflexivity. eexists. split_and!; reflexivity.
Qed.

Lemma stream_video_again env vid request w video i :
  DB.videos (World.db w) !! vid = Some video ->
  Video.status video = COMPLETED ->
  select_view_sessions vid (session_of env w request) 0
    (DB.view_sessions (World.db w)) = [i] ->
  snd (api.stream_video env vid request w) = World.set_entropy (S (World.entropy w)) w.
Proof.
  intros Hv Hst Hsel.
  rewrite (stream_video_world env vid request w video Hv Hst).
  destruct (select_view_sessions_singleton _ _ _ _ Hsel) as (s & Hs & _).
  now rewrite (record_video_view_existing env vid (session_of env w request) None _ _
                 (World.set_entropy (S (World.entropy w)) w) i s).
Qed.

Lemma serve_streams_cons env vid r requests w :
  serve_streams env vid (r :: requests) w =
    serve_streams env vid requests (snd (api.stream_video env vid r w)).
Proof. reflexivity. Qed.

Lemma serve_streams_known env vid sid requests w video i :
  Forall (fun r => Request.x_session_id r = Some sid) requests ->
  DB.videos (World.db w) !! vid = Some video ->
  Video.status video = COMPLETED ->
  select_view_sessions vid sid 0 (DB.view_sessions (World.db w)) = [i] ->
  World.db (serve_streams env vid requests w) = World.db w.
Proof.
  unfold serve_streams. intros Hreq. revert w.
  induction Hreq as [|r requests Hr Hreq IH]; intros w Hv Hst Hsel; [reflexivity|].
  cbn [fold_left].
  assert (Hs : session_of env w r = sid) by (unfold session_of; now rewrite Hr).
  rewrite (stream_video_again env vid r w video i Hv Hst) by (now rewrite Hs).
  now rewrite IH.
Qed.

(** X8: stream requests that carry the same [X-Session-ID] count as one
    view: on a Completed video whose session is new, any non-empty
    sequence of such requests raises the view counter by exactly 1 and
    creates exactly one view session; if the session exists already, the
    tables are left as they were. *)
Theorem X8_streams_of_a_session_count_once env vid sid requests w video :
  DB.videos (World.db w) !! vid = Some video ->
  Video.status video = COMPLETED ->
  Forall (fun r => Request.x_session_id r = Some sid) requests ->
  (length (select_view_sessions vid sid 0 (DB.view_sessions (World.db w))) <= 1)%nat ->
  (select_view_sessions vid sid 0 (DB.view_sessions (World.db w)) = [] ->
   requests <> [] ->
   view_count_of vid (serve_streams env vid requests w) = Some (Video.view_count video + 1) /\
   length (DB.view_sessions (World.db (serve_streams env vid requests w)))
     = S (length (DB.view_sessions (World.db w)))) /\
  (select_view_sessions vid sid 0 (DB.view_sessions (World.db w)) <> [] ->
   World.db (serve_streams env vid requests w) = World.db w).
Proof.
  intros Hv Hst Hreq Hlen. split.
  - intros Hsel Hne. destruct Hreq as [|r requests Hr Hreq]; [contradiction|].
    rewrite serve_streams_cons.
    assert (Hs : session_of env w r = sid) by (unfold session_of; now rewrite Hr).
    destruct (stream_video_first env vid r w video Hv Hst) as (Hvs & (s & Hrows & Hsv & Hsk) & _).
    { now rewrite Hs. }
    rewrite Hs in Hsk. unfold view_count_of.
    rewrite (serve_streams_known env vid sid requests _
               (Video.set_view_count (Video.view_count video + 1) video)
               (length (DB.view_sessions (World.db w))) Hreq).
    + rewrite Hvs, Hrows, lookup_alter_eq, Hv, length_app.
      simpl. split; [reflexivity|lia].
    + rewrite Hvs, lookup_alter_eq, Hv. reflexivity.
    + exact Hst.
    + rewrite Hrows, select_view_sessions_same, Hsel by assumption. reflexivity.
  - intros Hne. destruct (short_selection _ Hlen) as [Hsel|[i Hsel]]; [contradiction|].
    now apply (serve_streams_known env vid sid requests w video i).
Qed.

Lemma X8_streams_of_a_session_count_once_witness :
  view_count_of "v1"
    (serve_streams sample_env "v1"
       [sample_request None; sample_request (Some "bytes=0-9"); sample_request None]
       (sample_world COMPLETED))
  = Some (Video.view_count (sample_video COMPLETED) + 1).
Proof.
  refine (proj1 (proj1 (X8_streams_of_a_session_count_once sample_env "v1" "s1"
            [sample_request None; sample_request (Some "bytes=0-9"); sample_request None]
            (sample_world COMPLETED) (sample_video COMPLETED) _ _ _ _) _ _)).
  - reflexivity.
  - reflexivity.
  - repeat constructor.
  - simpl. lia.
  - reflexivity.
  - discriminate.
Defined.

Lemma serve_streams_anonymous env vid requests :
  forall w video,
    DB.videos (World.db w) !! vid = Some video ->
    Video.status video = COMPLETED ->
    Forall (fun r => Request.x_session_id r = None) requests ->
    NoDup (drawn_sessions env (World.entropy w) (length requests)) ->
    Forall (fun sid => select_view_sessions vid sid 0 (DB.view_sessions (World.db w)) = [])
      (drawn_sessions env (World.entropy w) (length requests)) ->
    view_count_of vid (serve_streams env vid requests w)
      = Some (Video.view_count video + Z.of_nat (length requests)) /\
    length (DB.view_sessions (World.db (serve_streams env vid requests w)))
      = (length (DB.view_sessions (World.db w)) + length requests)%nat.
Proof.
  induction requests as [|r requests IH]; intros w video Hv Hst Hreq Hnd Hfresh.
  - unfold serve_streams, view_count_of. simpl. rewrite Hv. simpl.
    split; [f_equal; lia|lia].
  - rewrite !serve_streams_cons.
    cbn [length drawn_sessions] in Hnd, Hfresh.
    apply Forall_cons_1 in Hreq as [Hr Hreq].
    apply NoDup_cons in Hnd as [Hnotin Hnd].
    apply Forall_cons_1 in Hfresh as [Hsel Hfresh].
    assert (Hs : session_of env w r = uuid4_value env (World.entropy w))
      by (unfold session_of; now rewrite Hr).
    destruct (stream_video_first env vid r w video Hv Hst)
      as (Hvs & (s & Hrows & Hsv & Hsk) & Hen & _).
    { now rewrite Hs. }
    rewrite Hs in Hsk.
    destruct (IH (snd (api.stream_video env vid r w))
                (Video.set_view_count (Video.view_count video + 1) video))
      as [Hcount Hlen].
    + rewrite Hvs, lookup_alter_eq, Hv. reflexivity.
    + exact Hst.
    + exact Hreq.
    + now rewrite Hen.
    + rewrite Hen, Hrows. apply Forall_forall. intros sid Hin.
      rewrite select_view_sessions_other.
      * rewrite Forall_forall in Hfresh. now apply Hfresh.
      * rewrite Hsv, Hsk. intros [= Heq]. apply Hnotin. now rewrite Heq.
    + rewrite Hcount, Hlen, Hrows, length_app.
      cbn [Video.view_count Video.set_view_count length].
      split; [f_equal; lia|lia].
Qed.

(** X9: without an [X-Session-ID] header every stream request is a view
    of its own: the endpoint draws a fresh session identifier per request,
    so [k] such requests on a Completed video raise the view counter by
    [k] and create [k] view sessions, as long as the identifiers drawn are
    distinct and not yet in use. *)
Theorem X9_anonymous_streams_count_each env vid requests w video :
  DB.videos (World.db w) !! vid = Some video ->
  Video.status video = COMPLETED ->
  Forall (fun r => Request.x_session_id r = None) requests ->
  NoDup (drawn_sessions env (World.entropy w) (length requests)) ->
  Forall (fun sid => select_view_sessions vid sid 0 (DB.view_sessions (World.db w)) = [])
    (drawn_sessions env (World.entropy w) (length requests)) ->
  view_count_of vid (serve_streams env vid requests w)
    = Some (Video.view_count video + Z.of_nat (length requests)) /\
  length (DB.view_sessions (World.db (serve_streams env vid requests w)))
    = (length (DB.view_sessions (World.db w)) + length requests)%nat.
Proof. apply serve_streams_anonymous. Qed.

Lemma X9_anonymous_streams_count_each_witness :
  view_count_of "v1"
    (serve_streams sample_env "v1"
       [Request.mk None None None "10.0.0.1"; Request.mk None None None "10.0.0.1";
        Request.mk None None None "10.0.0.1"]
       (sample_world COMPLETED))
  = Some (Video.view_count (sample_video COMPLETED) + Z.of_nat 3).
Proof.
  refine (proj1 (X9_anonymous_streams_count_each sample_env "v1"
            [Request.mk None None None "10.0.0.1"; Request.mk None None None "10.0.0.1";
             Request.mk None None None "10.0.0.1"]
            (sample_world COMPLETED) (sample_video COMPLETED) _ _ _ _ _)).
  - reflexivity.
  - reflexivity.
  - repeat constructor.
  - refine (bool_decide_unpack (NoDup _) _). vm_compute. exact I.
  - repeat constructor.
Defined.

(** ** Uploads *)

Lemma thumbnail_is_not_the_upload video_id video :
  thumbnail_object_name video_id <> upload_object_name video.
Proof. unfold thumbnail_object_name, upload_object_name. discriminate. Qed.

(** Settle the lookups of the tracked video and of stored objects. *)
Ltac settle Hv :=
  repeat (first
    [ rewrite lookup_alter_eq
    | rewrite Hv
    | rewrite lookup_insert_eq
    | rewrite lookup_insert_ne by apply thumbnail_is_not_the_upload
    | progress rows
    | progress video_cbn
    | progress run ]).

(** X10: an upload the store accepts ends with the payload stored under
    [videos/{id}/{filename}], the video pointing at that object, and the
    returned session Completed at 100 percent with [bytes_uploaded] the
    payload length.  The call returns only after the inline processing,
    which has marked the video Completed with progress 100 and stored the
    duration, width, height and frame rate OpenCV reports for the
    payload: the inline processing does not check that the capture
    opened, so for a payload OpenCV cannot open these are the values a
    closed capture reads as. *)
Theorem X10_upload_stores_the_payload env vid file_content chunk_size w video :
  DB.videos (World.db w) !! vid = Some video ->
  put_object_error env (upload_object_name video) = None ->
  exists s w' v',
    VideoService.upload_video_file env vid file_content chunk_size w = (Py.Ok s, w') /\
    VideoUploadSession.video_id s = vid /\
    VideoUploadSession.status s = COMPLETED /\
    VideoUploadSession.bytes_uploaded s = Py.len file_content /\
    VideoUploadSession.upload_progress s = 100%float /\
    VideoUploadSession.completed_at s = Some (World.clock w) /\
    DB.upload_sessions (World.db w') = DB.upload_sessions (World.db w) ++ [s] /\
    World.storage w' !! upload_object_name video = Some file_content /\
    DB.videos (World.db w') !! vid = Some v' /\
    Video.file_path v' = upload_object_name video /\
    Video.uploaded_at v' = Some (World.clock w) /\
    Video.status v' = COMPLETED /\
    Video.processing_progress v' = 100 /\
    Video.duration v' = Some (meta_duration (probe env file_content)) /\
    Video.width v' = Some (meta_width (probe env file_content)) /\
    Video.height v' = Some (meta_height (probe env file_content)) /\
    Video.fps v' = Some (meta_fps (probe env file_content)).
Proof.
  intros Hv Hput. unfold upload_object_name in *. unfold_ops. run. settle Hv.
  rewrite Hput. settle Hv.
  repeat (branch; settle Hv); eexists _, _, _; (split; [reflexivity|]);
    cbn [World.db World.storage DB.upload_sessions DB.videos];
    settle Hv; split_and!; reflexivity.
Qed.

(** X11: an upload the store refuses fails with a 500 "Upload failed"
    error and leaves no Completed state behind: the new session and the
    video are both Failed and carry the same error message, the video
    still points at its old object, and nothing was written to the
    store. *)
Theorem X11_refused_upload_is_failed env vid file_content chunk_size w video message :
  DB.videos (World.db w) !! vid = Some video ->
  put_object_error env (upload_object_name video) = Some message ->
  exists s w' v',
    VideoService.upload_video_file env vid file_content chunk_size w =
      (Py.Raise (Py.HTTPException 500
                   ("Upload failed: " +:+
                    Py.str_exn (Py.HTTPException 500 ("File upload failed: " +:+ message)))),
       w') /\
    World.storage w' = World.storage w /\
    DB.upload_sessions (World.db w') = DB.upload_sessions (World.db w) ++ [s] /\
    VideoUploadSession.video_id s = vid /\
    VideoUploadSession.status s = FAILED /\
    VideoUploadSession.bytes_uploaded s = Py.len file_content /\
    VideoUploadSession.error_message s =
      Some (Py.str_exn (Py.HTTPException 500 ("File upload failed: " +:+ message))) /\
    DB.videos (World.db w') !! vid = Some v' /\
    Video.status v' = FAILED /\
    Video.error_message v' = VideoUploadSession.error_message s /\
    Video.file_path v' = Video.file_path video /\
    Video.processing_progress v' = Video.processing_progress video.
Proof.
  intros Hv Hput. unfold upload_object_name in *. unfold_ops. run. settle Hv.
  rewrite Hput. settle Hv.
  eexists _, _, _. split; [reflexivity|].
  cbn [World.db World.storage DB.upload_sessions DB.videos]. settle Hv.
  split_and!; reflexivity.
Qed.

Lemma X11_refused_upload_is_failed_witness :
  exists s w' v',
    VideoService.upload_video_file full_store_env "v1" [x00; x01] 8192
      (sample_world PENDING) =
      (Py.Raise (Py.HTTPException 500
                   ("Upload failed: " +:+
                    Py.str_exn (Py.HTTPException 500
                                  ("File upload failed: " +:+ "disk full")))),
       w') /\
    World.storage w' = World.storage (sample_world PENDING) /\
    DB.upload_sessions (World.db w') =
      DB.upload_sessions (World.db (sample_world PENDING)) ++ [s] /\
    VideoUploadSession.video_id s = "v1" /\
    VideoUploadSession.status s = FAILED /\
    VideoUploadSession.bytes_uploaded s = Py.len [x00; x01] /\
    VideoUploadSession.error_message s =
      Some (Py.str_exn (Py.HTTPException 500 ("File upload failed: " +:+ "disk full"))) /\
    DB.videos (World.db w') !! "v1" = Some v' /\
    Video.status v' = FAILED /\
    Video.error_message v' = VideoUploadSession.error_message s /\
    Video.file_path v' = Video.file_path (sample_video PENDING) /\
    Video.processing_progress v' = Video.processing_progress (sample_video PENDING).
Proof.
  apply (X11_refused_upload_is_failed full_store_env "v1" [x00; x01] 8192
           (sample_world PENDING) (sample_video PENDING) "disk full"); reflexivity.
Defined.

Lemma X10_upload_stores_the_payload_witness :
  exists s w' v',
    VideoService.upload_video_file sample_env "v1" [x00; x01] 8192 (sample_world PENDING)
      = (Py.Ok s, w') /\
    VideoUploadSession.status s = COMPLETED /\
    VideoUploadSession.bytes_uploaded s = Py.len [x00; x01] /\
    World.storage w' !! upload_object_name (sample_video PENDING) = Some [x00; x01] /\
    DB.videos (World.db w') !! "v1" = Some v' /\
    Video.status v' = COMPLETED /\
    Video.processing_progress v' = 100.
Proof.
  destruct (X10_upload_stores_the_payload sample_env "v1" [x00; x01] 8192
              (sample_world PENDING) (sample_video PENDING) eq_refl eq_refl)
    as (s & w' & v' & Hrun & _ & Hst & Hb & _ & _ & _ & Hobj & Hv' & _ & _ & Hvs & Hp & _).
  exists s, w', v'. split_and!; assumption.
Defined.

(** With an OpenCV that opens no file, the upload of the sample payload
    still ends Completed, with width, height and frame rate -1 and
    duration 0. *)
Example upload_of_an_unreadable_payload :
  exists s w' v',
    VideoService.upload_video_file blind_env "v1" [x00; x01] 8192 (sample_world PENDING)
      = (Py.Ok s, w') /\
    DB.videos (World.db w') !! "v1" = Some v' /\
    Video.status v' = COMPLETED /\
    Video.width v' = Some (-1) /\
    Video.height v' = Some (-1) /\
    Video.fps v' = Some (-1)%float /\
    Video.duration v' = Some 0%float /\
    Video.thumbnail_path v' = None.
Proof.
  eexists _, _, _. split; [vm_compute; reflexivity|].
  split; [vm_compute; reflexivity|]. repeat split.
Qed.

(** ** The processing job *)

Ltac unfold_job :=
  unfold tasks.process_video_upload, tasks.extract_video_metadata,
    tasks.generate_video_thumbnail_sync in *.

Ltac settle_job Hv :=
  repeat (first
    [ rewrite lookup_alter_eq
    | rewrite Hv
    | rewrite thumbnail_object_name_truthy
    | progress video_cbn
    | progress run ]).

Lemma process_video_upload_success env video_id file_path w video content m :
  DB.videos (World.db w) !! video_id = Some video ->
  World.storage w !! file_path = Some content ->
  inspect env content = Some m ->
  exists res w',
    tasks.process_video_upload env video_id file_path w = (Py.Ok res, w') /\
    res = job_result video_id
            (processed m (job_thumbnail env video_id content) (World.clock w) video)
            (World.clock w) /\
    DB.videos (World.db w') !! video_id =
      Some (processed m (job_thumbnail env video_id content) (World.clock w) video) /\
    (forall k, k <> video_id -> DB.videos (World.db w') !! k = DB.videos (World.db w) !! k) /\
    DB.upload_sessions (World.db w') = DB.upload_sessions (World.db w) /\
    DB.view_sessions (World.db w') = DB.view_sessions (World.db w) /\
    (forall k, k <> thumbnail_object_name video_id ->
               World.storage w' !! k = World.storage w !! k) /\
    (job_thumbnail env video_id content = Some (thumbnail_object_name video_id) ->
     World.storage w' !! thumbnail_object_name video_id = thumbnail_frame env content) /\
    World.clock w' = World.clock w.
Proof.
  intros Hv Hobj Hm. unfold job_thumbnail, processed, job_result. unfold_job.
  unfold resolution. run.
  rewrite Hv. run. rewrite Hobj. run. rewrite Hm. run. rewrite ?Hm.
  repeat (first [progress (settle_job Hv) | branch]; rewrite ?Hm; run);
    eexists _, _; (split; [reflexivity|]);
    cbn [World.db World.storage World.clock DB.upload_sessions DB.view_sessions
           DB.videos result_status];
    settle_job Hv;
    split_and!; try reflexivity; try discriminate;
    try (intros k Hk; rewrite ?lookup_alter_ne by congruence; reflexivity);
    try (intros k Hk; rewrite ?lookup_insert_ne by congruence; reflexivity);
    try (intros _; now rewrite lookup_insert_eq).
Qed.

(** X12: when the object is in the store and the inspector can read it,
    the processing job returns "completed" and leaves the video Completed
    at progress 100 with the inspected duration, width, height and frame
    rate, codec "unknown", no bitrate and the processing instant.  A
    thumbnail that cannot be produced or stored does not fail the job: the
    thumbnail path is set exactly when the thumbnail was stored.  No other
    video and no session is touched. *)
Theorem X12_job_completes env video_id file_path w video content m :
  DB.videos (World.db w) !! video_id = Some video ->
  World.storage w !! file_path = Some content ->
  inspect env content = Some m ->
  exists res w' v',
    tasks.process_video_upload env video_id file_path w = (Py.Ok res, w') /\
    result_status res = "completed" /\
    DB.videos (World.db w') !! video_id = Some v' /\
    v' = processed m (job_thumbnail env video_id content) (World.clock w) video /\
    Video.status v' = COMPLETED /\
    Video.processing_progress v' = 100 /\
    Video.duration v' = Some (meta_duration m) /\
    Video.width v' = Some (meta_width m) /\
    Video.height v' = Some (meta_height m) /\
    Video.fps v' = Some (meta_fps m) /\
    Video.processed_at v' = Some (World.clock w) /\
    (job_thumbnail env video_id content = None ->
     Video.thumbnail_path v' = Video.thumbnail_path video) /\
    (job_thumbnail env video_id content = Some (thumbnail_object_name video_id) ->
     Video.thumbnail_path v' = Some (thumbnail_object_name video_id) /\
     World.storage w' !! thumbnail_object_name video_id = thumbnail_frame env content) /\
    (forall k, k <> video_id -> DB.videos (World.db w') !! k = DB.videos (World.db w) !! k) /\
    DB.upload_sessions (World.db w') = DB.upload_sessions (World.db w) /\
    DB.view_sessions (World.db w') = DB.view_sessions (World.db w).
Proof.
  intros Hv Hobj Hm.
  destruct (process_video_upload_success env video_id file_path w video content m Hv Hobj Hm)
    as (res & w' & Hrun & Hres & Hv' & Hother & Hus & Hvs & Hsto & Hthumb & _).
  exists res, w', (processed m (job_thumbnail env video_id content) (World.clock w) video).
  split_and!; try assumption; try reflexivity.
  - now rewrite Hres.
  - unfold processed. now destruct (job_thumbnail env video_id content).
  - unfold processed. now destruct (job_thumbnail env video_id content).
  - unfold processed. now destruct (job_thumbnail env video_id content).
  - unfold processed. now destruct (job_thumbnail env video_id content).
  - intros ->. reflexivity.
  - intros Hth. rewrite Hth. split; [reflexivity|]. now apply Hthumb.
Qed.

Lemma X12_job_completes_witness :
  exists res w' v',
    tasks.process_video_upload sample_env "v1" "videos/v1/a.mp4" (sample_world PROCESSING)
      = (Py.Ok res, w') /\
    result_status res = "completed" /\
    DB.videos (World.db w') !! "v1" = Some v' /\
    Video.status v' = COMPLETED /\
    Video.processing_progress v' = 100 /\
    Video.duration v' = Some 12.5%float.
Proof.
  destruct (X12_job_completes sample_env "v1" "videos/v1/a.mp4" (sample_world PROCESSING)
              (sample_video PROCESSING) (repeat x2a 1000)
              (Build_Metadata 300 24%float 640 360 12.5%float) eq_refl eq_refl eq_refl)
    as (res & w' & v' & Hrun & Hres & Hv' & _ & Hst & Hp & Hd & _).
  exists res, w', v'. split_and!; assumption.
Defined.

(** X13: the ways the processing job fails.  For a video that does not
    exist it raises and changes nothing.  When the object is missing from
    the store, or the inspector cannot open it, it raises "Video
    processing failed" and leaves the video Failed at progress 10 with the
    cause as error message; the metadata, thumbnail and object path the
    video had before are kept. *)
Theorem X13_job_failures env video_id file_path w :
  (DB.videos (World.db w) !! video_id = None ->
   tasks.process_video_upload env video_id file_path w =
     (Py.Raise (Py.Exception ("Video processing failed: " +:+
                              ("Video " +:+ video_id +:+ " not found"))), w)) /\
  (forall video cause,
     DB.videos (World.db w) !! video_id = Some video ->
     (World.storage w !! file_path = None /\
      cause = Py.str_exn (Py.HTTPException 404 ("File not found: " +:+ file_path)))
     \/ (exists content, World.storage w !! file_path = Some content /\
                         inspect env content = None /\
                         cause = "Failed to extract metadata: Could not open video file") ->
     exists w',
       tasks.process_video_upload env video_id file_path w =
         (Py.Raise (Py.Exception ("Video processing failed: " +:+ cause)), w') /\
       DB.videos (World.db w') !! video_id =
         Some (Video.set_error_message (Some cause)
                 (Video.set_status FAILED
                    (Video.set_processing_progress 10 video))) /\
       World.storage w' = World.storage w).
Proof.
  split.
  - intros Hv. unfold_job. run. rewrite Hv. run. rewrite Hv. reflexivity.
  - intros video cause Hv [[Hobj ->]|(content & Hobj & Hm & ->)];
      unfold_job; run; rewrite Hv; run; rewrite Hobj; run; rewrite ?Hm; run;
      settle_job Hv; eexists; (split; [reflexivity|]);
      cbn [World.db World.storage World.set_db World.set_commits DB.videos];
      settle_job Hv; split; reflexivity.
Qed.

Lemma X13_job_failures_witness :
  exists w',
    tasks.process_video_upload sample_env "v1" "videos/v1/gone.mp4" (sample_world PROCESSING)
      = (Py.Raise (Py.Exception
                     ("Video processing failed: " +:+
                      Py.str_exn (Py.HTTPException 404
                                    ("File not found: " +:+ "videos/v1/gone.mp4")))), w') /\
    DB.videos (World.db w') !! "v1" =
      Some (Video.set_error_message
              (Some (Py.str_exn (Py.HTTPException 404
                                   ("File not found: " +:+ "videos/v1/gone.mp4"))))
              (Video.set_status FAILED
                 (Video.set_processing_progress 10 (sample_video PROCESSING)))) /\
    World.storage w' = World.storage (sample_world PROCESSING).
Proof.
  refine (proj2 (X13_job_failures sample_env "v1" "videos/v1/gone.mp4"
                   (sample_world PROCESSING)) (sample_video PROCESSING) _ _ _).
  - reflexivity.
  - left. split; reflexivity.
Defined.

Lemma processed_again m thumbnail now now' v :
  processed m thumbnail now' (processed m thumbnail now v)
  = Video.set_processed_at (Some now') (processed m thumbnail now v).
Proof. destruct v, thumbnail; vm_compute; reflexivity. Qed.

Lemma job_result_again video_id v now now' :
  job_result video_id (Video.set_processed_at (Some now') v) now'
  = at_instant now' (job_result video_id v now).
Proof. destruct v; reflexivity. Qed.

(** X14: the processing job can be run again: a second successful run on
    the same object writes the same metadata, thumbnail, status and
    progress as the first, so the video it leaves and the dictionary it
    returns differ from those of the first run in nothing but the
    processing instant: ["processed_at"] is the instant of the first run
    in the first dictionary and that of the second run in the second. *)
Theorem X14_job_rerun_is_idempotent env video_id file_path w video content m now' :
  DB.videos (World.db w) !! video_id = Some video ->
  World.storage w !! file_path = Some content ->
  inspect env content = Some m ->
  file_path <> thumbnail_object_name video_id ->
  exists res1 res2 w1 w2 v1,
    tasks.process_video_upload env video_id file_path w = (Py.Ok res1, w1) /\
    tasks.process_video_upload env video_id file_path (set_clock now' w1) = (Py.Ok res2, w2) /\
    DB.videos (World.db w1) !! video_id = Some v1 /\
    DB.videos (World.db w2) !! video_id = Some (Video.set_processed_at (Some now') v1) /\
    res1 = job_result video_id v1 (World.clock w) /\
    res2 = at_instant now' res1.
Proof.
  intros Hv Hobj Hm Hpath.
  destruct (process_video_upload_success env video_id file_path w video content m Hv Hobj Hm)
    as (res1 & w1 & Hrun & Hres & Hv1 & _ & _ & _ & Hsto & _ & _).
  assert (Hobj1 : World.storage (set_clock now' w1) !! file_path = Some content).
  { cbn [set_clock World.storage]. now rewrite Hsto. }
  assert (Hv1' : DB.videos (World.db (set_clock now' w1)) !! video_id =
                 Some (processed m (job_thumbnail env video_id content) (World.clock w) video))
    by exact Hv1.
  destruct (process_video_upload_success env video_id file_path (set_clock now' w1) _
              content m Hv1' Hobj1 Hm)
    as (res2 & w2 & Hrun2 & Hres2 & Hv2 & _).
  exists res1, res2, w1, w2,
    (processed m (job_thumbnail env video_id content) (World.clock w) video).
  cbn [set_clock World.clock] in Hres2, Hv2. rewrite processed_again in Hres2, Hv2.
  split_and!; try assumption.
  rewrite Hres2, Hres. apply job_result_again.
Qed.

Lemma X14_job_rerun_is_idempotent_witness :
  exists res1 res2 w1 w2 v1,
    tasks.process_video_upload sample_env "v1" "videos/v1/a.mp4" (sample_world PROCESSING)
      = (Py.Ok res1, w1) /\
    tasks.process_video_upload sample_env "v1" "videos/v1/a.mp4" (set_clock 9 w1)
      = (Py.Ok res2, w2) /\
    DB.videos (World.db w1) !! "v1" = Some v1 /\
    DB.videos (World.db w2) !! "v1" = Some (Video.set_processed_at (Some 9) v1) /\
    res1 = job_result "v1" v1 (World.clock (sample_world PROCESSING)) /\
    res2 = at_instant 9 res1.
Proof.
  apply (X14_job_rerun_is_idempotent sample_env "v1" "videos/v1/a.mp4"
           (sample_world PROCESSING) (sample_video PROCESSING) (repeat x2a 1000)
           (Build_Metadata 300 24%float 640 360 12.5%float) 9).
  - reflexivity.
  - reflexivity.
  - reflexivity.
  - discriminate.
Defined.

(** X15: within one run of the processing job the progress never goes
    back: for an existing video the first snapshot the job commits resets
    [processing_progress] to 10, and in the snapshots that follow it is
    non-decreasing and never above 100. *)
Theorem X15_job_progress_is_monotone env video_id file_path w video :
  DB.videos (World.db w) !! video_id = Some video ->
  exists rest,
    progresses video_id w (snd (tasks.process_video_upload env video_id file_path w))
      = 10 :: rest /\
    chain Z.le 10 rest /\
    Forall (fun p => p <= 100) rest /\
    length (progresses video_id w
              (snd (tasks.process_video_upload env video_id file_path w)))
      = length (new_commits w (snd (tasks.process_video_upload env video_id file_path w))).
Proof.
  intros Hv. unfold progresses. unfold_ops. run. rewrite Hv.
  repeat (branch; run); trace Hv;
    eexists; (split; [reflexivity|]); cbn [chain];
    split_and!; repeat constructor; try lia; try reflexivity.
Qed.

Lemma X15_job_progress_is_monotone_witness :
  exists rest,
    progresses "v1" (sample_world COMPLETED)
      (snd (tasks.process_video_upload sample_env "v1" "videos/v1/a.mp4"
              (sample_world COMPLETED)))
      = 10 :: rest /\
    chain Z.le 10 rest /\
    Forall (fun p => p <= 100) rest.
Proof.
  destruct (X15_job_progress_is_monotone sample_env "v1" "videos/v1/a.mp4"
              (sample_world COMPLETED) (sample_video COMPLETED) eq_refl)
    as (rest & H1 & H2 & H3 & _).
  exists rest. auto.
Defined.

(** ** Deletion *)

Lemma delete_video_missing env video_id w :
  DB.videos (World.db w) !! video_id = None ->
  VideoService.delete_video env video_id w =
    (Py.Raise (Py.HTTPException 404 "Video not found"), w).
Proof. intros Hv. unfold VideoService.delete_video. run. now rewrite Hv. Qed.

Lemma delete_video_run env video_id w video :
  DB.videos (World.db w) !! video_id = Some video ->
  exists w',
    VideoService.delete_video env video_id w = (Py.Ok true, w') /\
    World.db w' = DB.mk (alter (Video.set_status DELETED) video_id (DB.videos (World.db w)))
                    (DB.upload_sessions (World.db w)) (DB.view_sessions (World.db w)) /\
    World.commits w' = World.commits w ++ [World.db w'] /\
    (Py.truthy_str (Video.file_path video) = true ->
     remove_object_fails env (Video.file_path video) = false ->
     World.storage w' !! Video.file_path video = None) /\
    (forall p, Video.thumbnail_path video = Some p -> Py.truthy_str p = true ->
               remove_object_fails env p = false -> World.storage w' !! p = None) /\
    (forall k, k <> Video.file_path video -> Video.thumbnail_path video <> Some k ->
               World.storage w' !! k = World.storage w !! k).
Proof.
  intros Hv. unfold VideoService.delete_video. run. rewrite Hv.
  repeat (branch; run); eexists; (split; [reflexivity|]);
    cbn [World.db World.commits World.storage World.set_db World.set_commits
           World.set_storage];
    split_and!; try reflexivity; try congruence;
    try (intros; rewrite ?lookup_delete; repeat case_decide; congruence).
Qed.

(** X16: deleting a video is a soft delete: for an existing video the
    call returns [True] and commits one snapshot in which only the status
    of that video has changed, to Deleted; the record, its other fields
    and all its sessions stay.  The video object and the thumbnail are
    removed from the store unless the store refuses, and no other object
    is.  For a video that does not exist the call fails with 404 and
    changes nothing. *)
Theorem X16_delete_is_soft env video_id w :
  (DB.videos (World.db w) !! video_id = None ->
   VideoService.delete_video env video_id w =
     (Py.Raise (Py.HTTPException 404 "Video not found"), w)) /\
  (forall video,
     DB.videos (World.db w) !! video_id = Some video ->
     exists w',
       VideoService.delete_video env video_id w = (Py.Ok true, w') /\
       DB.videos (World.db w') !! video_id = Some (Video.set_status DELETED video) /\
       (forall k, k <> video_id ->
                  DB.videos (World.db w') !! k = DB.videos (World.db w) !! k) /\
       DB.upload_sessions (World.db w') = DB.upload_sessions (World.db w) /\
       DB.view_sessions (World.db w') = DB.view_sessions (World.db w) /\
       new_commits w w' = [World.db w'] /\
       (Py.truthy_str (Video.file_path video) = true ->
        remove_object_fails env (Video.file_path video) = false ->
        World.storage w' !! Video.file_path video = None) /\
       (forall p, Video.thumbnail_path video = Some p -> Py.truthy_str p = true ->
                  remove_object_fails env p = false -> World.storage w' !! p = None) /\
       (forall k, k <> Video.file_path video -> Video.thumbnail_path video <> Some k ->
                  World.storage w' !! k = World.storage w !! k)).
Proof.
  split; [apply delete_video_missing|].
  intros video Hv.
  destruct (delete_video_run env video_id w video Hv)
    as (w' & Hrun & Hdb & Hcommits & Hfile & Hthumb & Hother).
  exists w'. rewrite Hdb. cbn [DB.videos DB.upload_sessions DB.view_sessions].
  split_and!; try assumption; try reflexivity.
  - rewrite lookup_alter_eq, Hv. reflexivity.
  - intros k Hk. now rewrite lookup_alter_ne.
  - rewrite <- Hdb. now apply new_commits_app.
Qed.

Lemma X16_delete_is_soft_witness :
  exists w',
    VideoService.delete_video sample_env "v1" watched_world = (Py.Ok true, w') /\
    DB.videos (World.db w') !! "v1" = Some (Video.set_status DELETED (sample_video COMPLETED)) /\
    DB.view_sessions (World.db w') = DB.view_sessions (World.db watched_world) /\
    World.storage w' !! Video.file_path (sample_video COMPLETED) = None.
Proof.
  destruct (proj2 (X16_delete_is_soft sample_env "v1" watched_world)
              (sample_video COMPLETED) eq_refl)
    as (w' & Hrun & Hv & _ & _ & Hvs & _ & Hfile & _).
  exists w'. split_and!; try assumption. apply Hfile; reflexivity.
Defined.

Lemma get_video_thumbnail_missing_object video_id w video p :
  DB.videos (World.db w) !! video_id = Some video ->
  Video.thumbnail_path video = Some p ->
  Py.truthy_str p = true ->
  World.storage w !! p = None ->
  api.get_video_thumbnail video_id w =
    (Py.Raise (Py.HTTPException 500
                 ("Failed to get thumbnail: " +:+
                  Py.str_exn (Py.HTTPException 404 ("File not found: " +:+ p)))), w).
Proof.
  intros Hv Hp Ht Hobj. unfold api.get_video_thumbnail. run.
  rewrite Hv, Hp, Ht. run. rewrite Hobj. reflexivity.
Qed.

(** X17: a deleted video is no longer served: after [delete_video] every
    stream request for it fails with 404 and records no view.  Its
    thumbnail path is kept while the thumbnail object is gone, so the
    thumbnail endpoint then fails with a 500 "Failed to get thumbnail"
    error instead of a 404. *)
Theorem X17_deleted_video_is_not_served env video_id w video :
  DB.videos (World.db w) !! video_id = Some video ->
  exists w',
    VideoService.delete_video env video_id w = (Py.Ok true, w') /\
    (forall request,
       api.stream_video env video_id request w' =
         (Py.Raise (Py.HTTPException 404 "Video not found or not ready"), w')) /\
    VideoService.stream_video_content video_id w' =
      (Py.Raise (Py.HTTPException 404 "Video not found or not ready"), w') /\
    (forall p, Video.thumbnail_path video = Some p -> Py.truthy_str p = true ->
               remove_object_fails env p = false ->
       api.get_video_thumbnail video_id w' =
         (Py.Raise (Py.HTTPException 500
                      ("Failed to get thumbnail: " +:+
                       Py.str_exn (Py.HTTPException 404 ("File not found: " +:+ p)))), w')).
Proof.
  intros Hv.
  destruct (delete_video_run env video_id w video Hv)
    as (w' & Hrun & Hdb & _ & _ & Hthumb & _).
  assert (Hv' : DB.videos (World.db w') !! video_id = Some (Video.set_status DELETED video)).
  { rewrite Hdb. cbn [DB.videos]. rewrite lookup_alter_eq, Hv. reflexivity. }
  exists w'. split_and!; try assumption.
  - intros request. apply stream_video_not_ready. intros v Hv2.
    rewrite Hv' in Hv2. injection Hv2 as <-. discriminate.
  - unfold VideoService.stream_video_content. run. rewrite Hv'. reflexivity.
  - intros p Hp Ht Hrm.
    apply (get_video_thumbnail_missing_object video_id w' (Video.set_status DELETED video) p);
      auto.
Qed.

Lemma X17_deleted_video_is_not_served_witness :
  exists w',
    VideoService.delete_video sample_env "v1" (sample_world COMPLETED) = (Py.Ok true, w') /\
    api.stream_video sample_env "v1" (sample_request None) w' =
      (Py.Raise (Py.HTTPException 404 "Video not found or not ready"), w').
Proof.
  destruct (X17_deleted_video_is_not_served sample_env "v1" (sample_world COMPLETED)
              (sample_video COMPLETED) eq_refl) as (w' & Hrun & Hstream & _).
  exists w'. auto.
Defined.

(** ** Batch deletion *)

Lemma set_status_deleted_twice v :
  Video.set_status DELETED (Video.set_status DELETED v) = Video.set_status DELETED v.
Proof. destruct v; reflexivity. Qed.

(** What is in the table after the videos of [ids] have been deleted. *)
Lemma batch_delete_loop_run env ids : forall acc w,
  exists resp w',
    routes.batch_delete_loop env ids acc w = (Py.Ok resp, w') /\
    total_requested resp = total_requested acc /\
    successful resp =
      successful acc +
      Py.len (List.filter (fun k => bool_decide (is_Some (DB.videos (World.db w) !! k))) ids) /\
    successful resp + failed resp = successful acc + failed acc + Py.len ids /\
    map batch_video_id (batch_results resp) = map batch_video_id (batch_results acc) ++ ids /\
    (forall k, DB.videos (World.db w') !! k =
               (if bool_decide (k ∈ ids) then Video.set_status DELETED else id)
                 <$> DB.videos (World.db w) !! k) /\
    DB.view_sessions (World.db w') = DB.view_sessions (World.db w) /\
    DB.upload_sessions (World.db w') = DB.upload_sessions (World.db w).
Proof.
  induction ids as [|video_id rest IH]; intros acc w.
  - exists acc, w. cbn [routes.batch_delete_loop]. run. unfold Py.len.
    cbn [length List.filter].
    split_and!; try reflexivity; try lia; try (symmetry; apply app_nil_r).
    intros k. rewrite bool_decide_eq_false_2 by apply not_elem_of_nil.
      now destruct (DB.videos (World.db w) !! k).
  - cbn [routes.batch_delete_loop List.filter].
    destruct (DB.videos (World.db w) !! video_id) as [video|] eqn:Hv.
    + destruct (delete_video_run env video_id w video Hv) as (w1 & Hrun & Hdb & _).
      unfold mbind, M_bind, bind, try_except. rewrite Hrun.
      unfold mret, M_ret, ret.
      match goal with
      | |- context [routes.batch_delete_loop env rest ?a w1] =>
          destruct (IH a w1) as (resp & w' & Hloop & Htot & Hsucc & Hsum & Hids & Hvid & Hvs & Hus)
      end.
      exists resp, w'. rewrite Hloop.
      cbn [total_requested successful failed batch_results] in *.
      rewrite Hdb in *. cbn [DB.videos DB.view_sessions DB.upload_sessions] in *.
      rewrite bool_decide_eq_true_2 by (now eexists).
      unfold Py.len in *. cbn [length].
      rewrite (filter_ext _ (fun k => bool_decide (is_Some (DB.videos (World.db w) !! k)))) in Hsucc.
      2:{ intros k. apply bool_decide_ext. rewrite lookup_alter_is_Some. reflexivity. }
      split_and!; try assumption; try reflexivity; try lia.
      * rewrite Hids, map_app. cbn [map batch_video_id]. now rewrite <- app_assoc.
      * intros k. rewrite Hvid. destruct (decide (k = video_id)) as [->|Hk].
        -- rewrite lookup_alter_eq, Hv.
           rewrite (bool_decide_eq_true_2 (video_id ∈ video_id :: rest)) by constructor.
           cbn [fmap option_fmap option_map].
           destruct (bool_decide (video_id ∈ rest));
             [now rewrite set_status_deleted_twice | reflexivity].
        -- rewrite lookup_alter_ne by congruence.
           rewrite (bool_decide_ext (k ∈ video_id :: rest) (k ∈ rest)); [reflexivity|].
           rewrite elem_of_cons. tauto.
    + unfold mbind, M_bind, bind, try_except.
      rewrite (delete_video_missing env video_id w Hv).
      unfold mret, M_ret, ret.
      match goal with
      | |- context [routes.batch_delete_loop env rest ?a w] =>
          destruct (IH a w) as (resp & w' & Hloop & Htot & Hsucc & Hsum & Hids & Hvid & Hvs & Hus)
      end.
      exists resp, w'. rewrite Hloop.
      cbn [total_requested successful failed batch_results] in *.
      rewrite bool_decide_eq_false_2 by (intros [? ?]; congruence).
      unfold Py.len in *. cbn [length].
      split_and!; try assumption; try reflexivity; try lia.
      * rewrite Hids, map_app. cbn [map batch_video_id]. now rewrite <- app_assoc.
      * intros k. rewrite Hvid. destruct (decide (k = video_id)) as [->|Hk].
        -- rewrite Hv. reflexivity.
        -- rewrite (bool_decide_ext (k ∈ video_id :: rest) (k ∈ rest)); [reflexivity|].
           rewrite elem_of_cons. tauto.
Qed.

(** X18: a batch deletion without confirmation is refused with 400 and
    changes nothing.  A confirmed one never fails as a whole: it answers
    with one result per requested id, in the order of the request;
    [successful] counts the requested ids that are in the video table (an
    id requested twice, or a video already deleted, counts each time),
    [successful + failed] is [total_requested], the number of ids.
    Afterwards exactly the requested videos that exist are marked Deleted,
    every other video is as before and no view session is removed. *)
Theorem X18_batch_delete env video_ids w :
  routes.batch_delete_videos env video_ids false w =
    (Py.Raise (Py.HTTPException 400 "Confirmation required for batch delete operation"), w) /\
  exists resp w',
    routes.batch_delete_videos env video_ids true w = (Py.Ok resp, w') /\
    total_requested resp = Py.len video_ids /\
    successful resp =
      Py.len (List.filter (fun k => bool_decide (is_Some (DB.videos (World.db w) !! k)))
                video_ids) /\
    successful resp + failed resp = total_requested resp /\
    map batch_video_id (batch_results resp) = video_ids /\
    (forall k, DB.videos (World.db w') !! k =
               (if bool_decide (k ∈ video_ids) then Video.set_status DELETED else id)
                 <$> DB.videos (World.db w) !! k) /\
    DB.view_sessions (World.db w') = DB.view_sessions (World.db w).
Proof.
  split; [reflexivity|].
  unfold routes.batch_delete_videos. cbn [negb].
  match goal with
  | |- context [routes.batch_delete_loop env video_ids ?a w] =>
      destruct (batch_delete_loop_run env video_ids a w)
        as (resp & w' & Hloop & Htot & Hsucc & Hsum & Hids & Hvid & Hvs & _)
  end.
  exists resp, w'. cbn [total_requested successful failed batch_results map app] in *.
  split_and!; try assumption; lia.
Qed.

(** ** Thumbnails on demand *)

(** X19: the thumbnail of a video that has none is produced on demand.
    The endpoint answers that generation has started and queues the
    thumbnail job; once a worker has run that job on a readable file, with
    a store that accepts the write, the same request is answered with the
    frame the job extracted.  If the job cannot produce the thumbnail, the
    request still is answered with the generation notice and queues one
    more job. *)
Theorem X19_thumbnail_on_demand env video_id w video content :
  DB.videos (World.db w) !! video_id = Some video ->
  Py.truthy_opt_str (Video.thumbnail_path video) = false ->
  Py.truthy_str (Video.file_path video) = true ->
  World.storage w !! Video.file_path video = Some content ->
  exists w1,
    api.get_video_thumbnail video_id w = (Py.Ok GenerationStarted, w1) /\
    World.queue w1 = World.queue w ++ [GenerateVideoThumbnail video_id] /\
    (forall m frame,
       inspect env content = Some m ->
       thumbnail_frame env content = Some frame ->
       put_object_error env (thumbnail_object_name video_id) = None ->
       exists res w2,
         tasks.run_job env (GenerateVideoThumbnail video_id) w1 = (Py.Ok res, w2) /\
         api.get_video_thumbnail video_id w2 = (Py.Ok (Image frame), w2)) /\
    (inspect env content = None \/ thumbnail_frame env content = None \/
     is_Some (put_object_error env (thumbnail_object_name video_id)) ->
     exists w2,
       tasks.run_job env (GenerateVideoThumbnail video_id) w1 =
         (Py.Raise (Py.Exception "Failed to generate thumbnail"), w2) /\
       World.db w2 = World.db w /\
       exists w3,
         api.get_video_thumbnail video_id w2 = (Py.Ok GenerationStarted, w3) /\
         World.queue w3 = World.queue w ++ [GenerateVideoThumbnail video_id;
                                            GenerateVideoThumbnail video_id]).
Proof.
  intros Hv Hth Hpath Hfile.
  eexists. split_and!.
  - unfold api.get_video_thumbnail. run. rewrite Hv.
    destruct (Video.thumbnail_path video) as [p|]; cbn in Hth; [rewrite Hth|]; reflexivity.
  - reflexivity.
  - intros m frame Hm Hframe Hput.
    cbn [tasks.run_job]. unfold tasks.generate_video_thumbnail_task,
      tasks.generate_video_thumbnail_sync. run. rewrite Hv, Hpath. cbn [negb]. run.
    rewrite Hfile, Hm, Hframe, Hput. run.
    eexists _, _. split; [reflexivity|].
    unfold api.get_video_thumbnail. run. rewrite lookup_alter_eq, Hv.
    video_cbn. rewrite thumbnail_object_name_truthy. run.
    rewrite lookup_insert_eq. reflexivity.
  - intros Hbad.
    cbn [tasks.run_job]. unfold tasks.generate_video_thumbnail_task,
      tasks.generate_video_thumbnail_sync. run. rewrite Hv, Hpath. cbn [negb]. run.
    rewrite Hfile.
    destruct (inspect env content) as [m|];
      [destruct (thumbnail_frame env content) as [frame|];
       [destruct (put_object_error env (thumbnail_object_name video_id)) as [msg|] eqn:Hput|]|];
      run; rewrite ?Hput; run.
    all: try (exfalso; destruct Hbad as [?|[?|[? ?]]]; congruence).
    all: eexists; split; [reflexivity|]; split; [reflexivity|];
      unfold api.get_video_thumbnail; run; rewrite Hv;
      (destruct (Video.thumbnail_path video) as [p|]; cbn in Hth; [rewrite Hth|]);
      eexists; (split; [reflexivity|]); run; now rewrite <- app_assoc.
Qed.

Lemma X19_thumbnail_on_demand_witness :
  exists w1 res w2,
    api.get_video_thumbnail "v1" (sample_world COMPLETED) = (Py.Ok GenerationStarted, w1) /\
    tasks.run_job sample_env (GenerateVideoThumbnail "v1") w1 = (Py.Ok res, w2) /\
    api.get_video_thumbnail "v1" w2 = (Py.Ok (Image [x01]), w2).
Proof.
  destruct (X19_thumbnail_on_demand sample_env "v1" (sample_world COMPLETED)
              (sample_video COMPLETED) (repeat x2a 1000) eq_refl eq_refl eq_refl eq_refl)
    as (w1 & Hreq & _ & Hok & _).
  destruct (Hok (Build_Metadata 300 24%float 640 360 12.5%float) [x01]
              eq_refl eq_refl eq_refl) as (res & w2 & Hjob & Hagain).
  exists w1, res, w2. auto.
Defined.

(** ** The dedicated worker *)

Ltac unfold_worker :=
  unfold VideoProcessingWorker.process_video_metadata,
    VideoProcessingWorker.generate_video_thumbnail,
    VideoProcessingWorker._extract_video_metadata,
    VideoProcessingWorker._generate_thumbnail,
    VideoProcessingWorker.failed in *.

(** X20: the metadata pass of the dedicated worker reports every failure
    in its result instead of raising.  Without OpenCV, or for a video that
    does not exist, it answers "failed" and changes nothing.  For an
    existing video a "completed" answer leaves the video in Processing at
    60 percent (the pass never marks it Completed), and a "failed" answer
    leaves it Failed with the reported error as its error message. *)
Theorem X20_worker_metadata_outcomes env video_id w :
  exists res w',
    VideoProcessingWorker.process_video_metadata env video_id w = (Py.Ok res, w') /\
    result_video_id res = video_id /\
    (result_status res = "completed" \/ result_status res = "failed") /\
    (CV2_AVAILABLE env = false ->
     w' = w /\ res = VideoProcessingWorker.failed "OpenCV not available" video_id) /\
    (DB.videos (World.db w) !! video_id = None ->
     w' = w /\ result_status res = "failed") /\
    (forall video,
       DB.videos (World.db w) !! video_id = Some video ->
       CV2_AVAILABLE env = true ->
       exists video',
         DB.videos (World.db w') !! video_id = Some video' /\
         (result_status res = "completed" ->
          Video.status video' = PROCESSING /\ Video.processing_progress video' = 60) /\
         (result_status res = "failed" ->
          Video.status video' = FAILED /\ Video.error_message video' = result_error res)).
Proof.
  unfold_worker.
  destruct (CV2_AVAILABLE env); cbn [negb]; run.
  2:{ eexists _, _. split; [reflexivity|]. cbn [result_video_id result_status].
      split_and!; auto; try discriminate. }
  destruct (DB.videos (World.db w) !! video_id) as [video|] eqn:Hv; run.
  2:{ eexists _, _. rewrite ?Hv. run. split; [reflexivity|].
      cbn [result_video_id result_status].
      split_and!; auto; try discriminate. }
  repeat (branch; run; rewrite ?lookup_alter_eq, ?Hv in *; run);
    eexists _, _; (split; [reflexivity|]); cbn [result_video_id result_status result_error];
    (split_and!; auto; try discriminate);
    intros video0 Hv0 _; run; rewrite ?lookup_alter_eq, ?Hv; video_cbn;
    eexists; (split; [reflexivity|]); video_cbn;
    (split; [intros; try discriminate; split; reflexivity
            |intros; try discriminate; split; reflexivity]).
Qed.

Lemma X20_worker_metadata_outcomes_witness :
  exists res w' video',
    VideoProcessingWorker.process_video_metadata sample_env "v1" (sample_world UPLOADING)
      = (Py.Ok res, w') /\
    DB.videos (World.db w') !! "v1" = Some video' /\
    (result_status res = "completed" ->
     Video.status video' = PROCESSING /\ Video.processing_progress video' = 60).
Proof.
  destruct (X20_worker_metadata_outcomes sample_env "v1" (sample_world UPLOADING))
    as (res & w' & Hrun & _ & _ & _ & _ & Hsome).
  destruct (Hsome (sample_video UPLOADING) eq_refl eq_refl) as (video' & Hv' & Hok & _).
  exists res, w', video'. auto.
Defined.

(** X21: the thumbnail pass of the dedicated worker never raises either,
    and a failure changes no table and commits nothing.  Unlike the queued
    thumbnail task, it reports a refused write of the thumbnail with the
    error of the store, where the task only says that the thumbnail could
    not be generated. *)
Theorem X21_worker_thumbnail_outcomes env video_id w :
  exists res w',
    VideoProcessingWorker.generate_video_thumbnail env video_id w = (Py.Ok res, w') /\
    result_video_id res = video_id /\
    (result_status res = "completed" \/ result_status res = "failed") /\
    (result_status res = "failed" ->
     World.db w' = World.db w /\ World.commits w' = World.commits w) /\
    (CV2_AVAILABLE env = false ->
     w' = w /\ res = VideoProcessingWorker.failed "OpenCV not available" video_id) /\
    (forall video content m frame message,
       CV2_AVAILABLE env = true ->
       DB.videos (World.db w) !! video_id = Some video ->
       Py.truthy_str (Video.file_path video) = true ->
       World.storage w !! Video.file_path video = Some content ->
       inspect env content = Some m ->
       thumbnail_frame env content = Some frame ->
       put_object_error env (thumbnail_object_name video_id) = Some message ->
       res = VideoProcessingWorker.failed
               ("500: File upload failed: " +:+ message) video_id /\
       tasks.generate_video_thumbnail_task env video_id w =
         (Py.Raise (Py.Exception "Failed to generate thumbnail"), w)).
Proof.
  unfold_worker.
  destruct (CV2_AVAILABLE env); cbn [negb]; run.
  2:{ eexists _, _. split; [reflexivity|]. cbn [result_video_id result_status].
      split_and!; auto; try discriminate. }
  destruct (DB.videos (World.db w) !! video_id) as [video|] eqn:Hv; run.
  2:{ eexists _, _. split; [reflexivity|]. cbn [result_video_id result_status].
      split_and!; auto; try discriminate. }
  destruct (Py.truthy_str (Video.file_path video)) eqn:Hpath; cbn [negb]; run.
  2:{ eexists _, _. split; [reflexivity|]. cbn [result_video_id result_status].
      split_and!; auto; try discriminate.
      intros video0 content m frame message _ [= <-]. congruence. }
  destruct (World.storage w !! Video.file_path video) as [content|] eqn:Hfile; run.
  2:{ eexists _, _. split; [reflexivity|]. cbn [result_video_id result_status].
      split_and!; auto; try discriminate.
      intros video0 content m frame message _ [= <-]. congruence. }
  unfold tasks.generate_video_thumbnail_task, tasks.generate_video_thumbnail_sync. run.
  rewrite Hv, Hpath. cbn [negb]. run. rewrite Hfile.
  destruct (inspect env content) as [m|] eqn:Hm; run;
    [destruct (thumbnail_frame env content) as [frame|] eqn:Hframe; run;
     [destruct (put_object_error env (thumbnail_object_name video_id)) as [msg|] eqn:Hput;
      run; rewrite ?thumbnail_object_name_truthy; run|]|];
    eexists _, _; (split; [reflexivity|]); cbn [result_video_id result_status];
    (split_and!; auto; try discriminate);
    intros video0 content0 m0 frame0 message _ [= <-] _ Hc0 Hm0 Hf0 Hp0;
    rewrite ?Hfile in Hc0; injection Hc0 as <-;
    try congruence.
  assert (message = msg) as -> by congruence. split; reflexivity.
Qed.

Lemma X21_worker_thumbnail_outcomes_witness :
  exists res w',
    VideoProcessingWorker.generate_video_thumbnail full_store_env "v1"
      (sample_world COMPLETED) = (Py.Ok res, w') /\
    res = VideoProcessingWorker.failed "500: File upload failed: disk full" "v1" /\
    World.db w' = World.db (sample_world COMPLETED).
Proof.
  destruct (X21_worker_thumbnail_outcomes full_store_env "v1" (sample_world COMPLETED))
    as (res & w' & Hrun & _ & _ & Hfailed & _ & Hrefused).
  destruct (Hrefused (sample_video COMPLETED) (repeat x2a 1000)
              (Build_Metadata 300 24%float 640 360 12.5%float) [x01] "disk full"
              eq_refl eq_refl eq_refl eq_refl eq_refl eq_refl eq_refl) as [Hres _].
  exists res, w'. split_and!; auto.
  apply Hfailed. rewrite Hres. reflexivity.
Defined.

(** ** Analytics and health *)

Lemma process_video_analytics_run video_id views w video :
  DB.videos (World.db w) !! video_id = Some video ->
  exists w',
    jobs.process_video_analytics video_id views w =
      (Py.Ok (Video.view_count video + views), w') /\
    World.db w' =
      DB.mk (<[video_id := Video.set_view_count (Video.view_count video + views) video]>
               (DB.videos (World.db w)))
        (DB.upload_sessions (World.db w)) (DB.view_sessions (World.db w)) /\
    World.commits w' = World.commits w ++ [World.db w'] /\
    World.storage w' = World.storage w.
Proof.
  intros Hv. unfold jobs.process_video_analytics. run. rewrite Hv. run.
  rewrite lookup_alter_eq, Hv. video_cbn. run.
  eexists. split; [reflexivity|]. run.
  assert (Halter : alter (fun v => Video.set_view_count (Video.view_count v + views) v)
                     video_id (DB.videos (World.db w)) =
                   <[video_id := Video.set_view_count (Video.view_count video + views) video]>
                     (DB.videos (World.db w))).
  { apply map_eq. intros k. destruct (decide (k = video_id)) as [->|Hk].
    - now rewrite lookup_alter_eq, lookup_insert_eq, Hv.
    - now rewrite lookup_alter_ne, lookup_insert_ne by congruence. }
  rewrite Halter. split_and!; reflexivity.
Qed.

Lemma set_view_count_twice a b v :
  Video.set_view_count a (Video.set_view_count b v) = Video.set_view_count a v.
Proof. destruct v; reflexivity. Qed.

Lemma view_count_set a v : Video.view_count (Video.set_view_count a v) = a.
Proof. destruct v; reflexivity. Qed.

(** X22: analytics batches accumulate.  After a list of batches for an
    existing video has been processed, its view counter is the old one
    plus the sum of the reported views (a negative report lowers it),
    nothing else of the video and no other video has changed, and every
    batch has committed once.  A batch for a video that does not exist
    fails with "Analytics processing failed: Video ... not found" and
    changes nothing. *)
Theorem X22_analytics_accumulate video_id batches w video :
  DB.videos (World.db w) !! video_id = Some video ->
  DB.videos (World.db (serve_analytics video_id batches w)) =
    <[video_id := Video.set_view_count (Video.view_count video + foldr Z.add 0 batches) video]>
      (DB.videos (World.db w)) /\
  view_count_of video_id (serve_analytics video_id batches w) =
    Some (Video.view_count video + foldr Z.add 0 batches) /\
  length (new_commits w (serve_analytics video_id batches w)) = length batches /\
  forall other views,
    DB.videos (World.db w) !! other = None ->
    jobs.process_video_analytics other views w =
      (Py.Raise (Py.Exception
                   ("Analytics processing failed: Video " +:+ other +:+ " not found")), w).
Proof.
  intros Hv.
  assert (Hgen : forall bs w0 v0,
            DB.videos (World.db w0) !! video_id = Some v0 ->
            DB.videos (World.db (serve_analytics video_id bs w0)) =
              <[video_id := Video.set_view_count (Video.view_count v0 + foldr Z.add 0 bs) v0]>
                (DB.videos (World.db w0)) /\
            exists l, World.commits (serve_analytics video_id bs w0) = World.commits w0 ++ l /\
                      length l = length bs).
  { induction bs as [|b bs IH]; intros w0 v0 Hv0; cbn [serve_analytics fold_left foldr].
    - split.
      + rewrite Z.add_0_r. symmetry. apply insert_id.
        rewrite Hv0. f_equal. destruct v0; reflexivity.
      + exists []. now rewrite app_nil_r.
    - destruct (process_video_analytics_run video_id b w0 v0 Hv0)
        as (w1 & Hrun & Hdb & Hcommits & _).
      rewrite Hrun. cbn [snd].
      assert (Hv1 : DB.videos (World.db w1) !! video_id =
                    Some (Video.set_view_count (Video.view_count v0 + b) v0)).
      { rewrite Hdb. cbn [DB.videos]. apply lookup_insert_eq. }
      destruct (IH w1 _ Hv1) as (Hvideos & l & Hl & Hlen).
      fold (serve_analytics video_id bs w1). split.
      + rewrite Hvideos, Hdb. cbn [DB.videos]. rewrite insert_insert_eq.
        rewrite set_view_count_twice, view_count_set. f_equal. f_equal. lia.
      + exists (World.db w1 :: l). rewrite Hl, Hcommits, <- app_assoc.
        split; [reflexivity|]. cbn [length]. now rewrite Hlen. }
  destruct (Hgen batches w video Hv) as (Hvideos & l & Hl & Hlen).
  split_and!.
  - exact Hvideos.
  - unfold view_count_of. rewrite Hvideos, lookup_insert_eq.
    cbn [fmap option_fmap option_map]. now rewrite view_count_set.
  - rewrite (new_commits_app _ _ _ Hl). exact Hlen.
  - intros other views Hother. unfold jobs.process_video_analytics. run.
    now rewrite Hother.
Qed.

Lemma X22_analytics_accumulate_witness :
  view_count_of "v1" (serve_analytics "v1" [5; -2; 4] (sample_world COMPLETED)) = Some 7.
Proof.
  exact (proj1 (proj2 (X22_analytics_accumulate "v1" [5; -2; 4] (sample_world COMPLETED)
                         (sample_video COMPLETED) eq_refl))).
Defined.

(** The videos the health check finds without their object. *)
Lemma health_check_loop_run videos : forall acc w,
  exists report,
    jobs.health_check_loop videos acc w = (Py.Ok report, w) /\
    total_videos report = total_videos acc /\
    healthy_videos report + unhealthy_videos report =
      healthy_videos acc + unhealthy_videos acc +
      Py.len (List.filter (fun v => Py.truthy_str (Video.file_path v)) videos) /\
    unhealthy_videos report - Py.len (missing_files report) =
      unhealthy_videos acc - Py.len (missing_files acc) /\
    missing_files report =
      missing_files acc ++
      map (fun v => Build_MissingFile (Video.id v) (Video.title v) (Video.file_path v))
        (List.filter (fun v => Py.truthy_str (Video.file_path v) &&
                               negb (bool_decide (is_Some (World.storage w !! Video.file_path v))))
           videos).
Proof.
  induction videos as [|video rest IH]; intros acc w; cbn [jobs.health_check_loop List.filter].
  - exists acc. unfold Py.len. cbn [map length]. rewrite app_nil_r.
    split_and!; try reflexivity; lia.
  - unfold jobs.file_exists. run.
    destruct (Py.truthy_str (Video.file_path video)); cbn [andb]; run.
    + destruct (bool_decide (is_Some (World.storage w !! Video.file_path video)));
        cbn [negb]; run;
        match goal with
        | |- context [jobs.health_check_loop rest ?a w] =>
            destruct (IH a w) as (report & Hrun & Htot & Hsum & Hun & Hmiss)
        end;
        exists report; rewrite Hrun;
        cbn [total_videos healthy_videos unhealthy_videos missing_files] in *;
        unfold Py.len in *; cbn [map length] in *;
        rewrite ?length_app in *; cbn [length] in *;
        (split_and!; try assumption; try reflexivity; try lia).
      rewrite Hmiss, <- app_assoc. reflexivity.
    + destruct (IH acc w) as (report & Hrun & Htot & Hsum & Hun & Hmiss).
      exists report. rewrite Hrun. split_and!; try assumption; reflexivity.
Qed.

(** X23: the health check reads and never writes.  It reports the number
    of Completed videos as [total_videos]; a Completed video with a file
    path counts as healthy or as unhealthy, one without counts as neither,
    so the two counters sum to at most the total.  [missing_files] has one
    entry per unhealthy video, and each entry names a Completed video
    whose object is not in the store; videos in any other status, deleted
    ones included, are never reported. *)
Theorem X23_health_report w :
  exists report,
    jobs.health_check_videos w = (Py.Ok report, w) /\
    total_videos report = Py.len (jobs.completed_videos (World.db w)) /\
    healthy_videos report + unhealthy_videos report =
      Py.len (List.filter (fun v => Py.truthy_str (Video.file_path v))
                (jobs.completed_videos (World.db w))) /\
    healthy_videos report + unhealthy_videos report <= total_videos report /\
    unhealthy_videos report = Py.len (missing_files report) /\
    forall e, e ∈ missing_files report ->
      exists k v,
        DB.videos (World.db w) !! k = Some v /\
        Video.status v = COMPLETED /\
        e = Build_MissingFile (Video.id v) (Video.title v) (Video.file_path v) /\
        World.storage w !! Video.file_path v = None.
Proof.
  unfold jobs.health_check_videos, mbind, M_bind, bind, gets.
  match goal with
  | |- context [jobs.health_check_loop ?vs ?a w] =>
      destruct (health_check_loop_run vs a w) as (report & Hrun & Htot & Hsum & Hun & Hmiss)
  end.
  exists report. cbn [total_videos healthy_videos unhealthy_videos missing_files app] in *.
  unfold Py.len in *. cbn [length] in *.
  split_and!; try assumption; try lia.
  - rewrite Hsum, Htot.
    pose proof (filter_length_le (fun v => Py.truthy_str (Video.file_path v))
                  (jobs.completed_videos (World.db w))). lia.
  - intros e He. rewrite Hmiss in He.
    apply list_elem_of_fmap in He as (v & -> & Hin).
    apply list_elem_of_In, filter_In in Hin as [Hin Hcond].
    unfold jobs.completed_videos in Hin. apply filter_In in Hin as [Hin Hst].
    apply list_elem_of_In, list_elem_of_fmap in Hin as ([k v'] & -> & Hin).
    apply elem_of_map_to_list in Hin. cbn [snd] in *.
    exists k, v'. split_and!; auto.
    + now apply bool_decide_eq_true in Hst.
    + apply andb_true_iff in Hcond as [_ Hcond]. apply negb_true_iff in Hcond.
      apply bool_decide_eq_false in Hcond. now apply eq_None_not_Some.
Qed.

Lemma streaming_chunks {A} (l : list A) (c : Z) (n : nat) i chunk :
  0 < c -> (Z.of_nat n - 1) * c < Py.len l ->
  map (fun i => Py.slice l i (i + c)) (map (fun k => Z.of_nat k * c) (seq 0 n)) !! i
    = Some chunk ->
  0 < Py.len chunk <= c /\ (S i < n -> Py.len chunk = c)%nat.
Proof.
  intros Hc Hn Hi. rewrite !list_lookup_fmap in Hi.
  destruct (seq 0 n !! i) as [k|] eqn:Hk; [|discriminate].
  apply lookup_seq in Hk as [-> Hlt]. cbn in Hi. injection Hi as <-.
  replace c with (Z.of_nat (Z.to_nat c)) by lia.
  replace (Z.of_nat i * Z.of_nat (Z.to_nat c)) with (Z.of_nat (i * Z.to_nat c)) by lia.
  rewrite slice_chunk. unfold Py.len in *. rewrite length_take, length_drop.
  split; [|intros Hlast]; nia.
Qed.

(** X24: the fallback stream cuts the content into chunks of the
    configured size: with a positive chunk size every chunk is non-empty
    and at most that long, every chunk before the last has exactly that
    length, and there are ceil(len / size) of them, none for an empty
    file.  With a chunk size of zero the generator fails with a
    [ValueError], and with a negative one it yields no chunk at all. *)
Theorem X24_stream_chunks env content :
  (0 < STREAMING_CHUNK_SIZE env ->
   exists chunks,
     api.generate env content = Py.Ok chunks /\
     Py.len chunks = (Py.len content + STREAMING_CHUNK_SIZE env - 1) / STREAMING_CHUNK_SIZE env /\
     (content = [] -> chunks = []) /\
     forall i chunk, chunks !! i = Some chunk ->
       0 < Py.len chunk <= STREAMING_CHUNK_SIZE env /\
       ((S i < length chunks)%nat -> Py.len chunk = STREAMING_CHUNK_SIZE env)) /\
  (STREAMING_CHUNK_SIZE env = 0 ->
   api.generate env content = Py.Raise (Py.ValueError "range() arg 3 must not be zero")) /\
  (STREAMING_CHUNK_SIZE env < 0 -> api.generate env content = Py.Ok []).
Proof.
  unfold api.generate, api.range. set (c := STREAMING_CHUNK_SIZE env).
  split_and!.
  - intros Hc.
    destruct (Z.eqb_spec c 0); [lia|]. destruct (Z.ltb_spec c 0); [lia|].
    eexists. split; [reflexivity|].
    pose proof (Z.div_mod (Py.len content + c - 1) c ltac:(lia)) as Hdiv.
    pose proof (Z.mod_pos_bound (Py.len content + c - 1) c ltac:(lia)) as Hmod.
    assert (Hpos : 0 <= (Py.len content + c - 1) / c)
      by (apply Z.div_pos; unfold Py.len; lia).
    split_and!.
    + unfold Py.len. rewrite !length_map, length_seq. unfold Py.len in Hpos. lia.
    + intros ->. unfold Py.len. cbn [length]. change (Z.of_nat 0) with 0.
      rewrite Z.div_small by lia. reflexivity.
    + intros i chunk Hi. rewrite !length_map, length_seq.
      eapply streaming_chunks; [exact Hc| |exact Hi].
      rewrite Z2Nat.id by assumption. nia.
  - intros Hc. destruct (Z.eqb_spec c 0); [reflexivity|lia].
  - intros Hc. destruct (Z.eqb_spec c 0); [lia|]. destruct (Z.ltb_spec c 0); [reflexivity|lia].
Qed.

Lemma X24_stream_chunks_witness :
  exists chunks,
    api.generate sample_env (repeat x2a 1000) = Py.Ok chunks /\
    Py.len chunks = (Py.len (repeat x2a 1000) + 1048576 - 1) / 1048576.
Proof.
  destruct (proj1 (X24_stream_chunks sample_env (repeat x2a 1000)) eq_refl)
    as (chunks & Hrun & Hlen & _).
  exists chunks. auto.
Defined.

Lemma X23_health_report_witness :
  exists k v,
    DB.videos (World.db orphaned_world) !! k = Some v /\
    Video.status v = COMPLETED /\
    World.storage orphaned_world !! Video.file_path v = None.
Proof.
  destruct (X23_health_report orphaned_world) as (report & Hrun & _ & _ & _ & _ & Hall).
  vm_compute in Hrun. injection Hrun as <-.
  destruct (Hall (Build_MissingFile "v1" "demo" "videos/v1/a.mp4"))
    as (k & v & Hv & Hst & _ & Hobj).
  - cbn [missing_files]. apply list_elem_of_here.
  - exists k, v. auto.
Defined.

(** ** Upload and playback *)

(** X25: what was uploaded is what is played: after an upload the store
    has accepted, the content the streaming service returns for the video
    is the uploaded payload, byte for byte, whatever the inline processing
    made of it. *)
Theorem X25_upload_then_stream env vid file_content chunk_size w video :
  DB.videos (World.db w) !! vid = Some video ->
  put_object_error env (upload_object_name video) = None ->
  exists s w',
    VideoService.upload_video_file env vid file_content chunk_size w = (Py.Ok s, w') /\
    VideoService.stream_video_content vid w' = (Py.Ok file_content, w').
Proof.
  intros Hv Hput. unfold upload_object_name in *. unfold_ops. run. settle Hv.
  rewrite Hput. settle Hv.
  repeat (branch; settle Hv); eexists _, _; (split; [reflexivity|]);
    unfold VideoService.stream_video_content; settle Hv;
    (destruct (decide (COMPLETED = COMPLETED)) as [_|]; [|congruence]);
    settle Hv; reflexivity.
Qed.

Lemma X25_upload_then_stream_witness :
  exists s w',
    VideoService.upload_video_file sample_env "v1" [x00; x01] 8192 (sample_world PENDING)
      = (Py.Ok s, w') /\
    VideoService.stream_video_content "v1" w' = (Py.Ok [x00; x01], w').
Proof.
  apply (X25_upload_then_stream sample_env "v1" [x00; x01] 8192
           (sample_world PENDING) (sample_video PENDING)); reflexivity.
Defined.
